(** * Workout Logger: a shallow embedding of [workout_logger.py]

  The analytics core of the tracker (weight parsing, personal-record
  detection, streaks, the weekly nutrition summary, the ASCII progress
  chart and the JSON record store) is translated function by function.

  Conventions of the embedding
  - Python [str] values are [string]s over ASCII; [str.lower] and
    [str.strip] act on the ASCII range only.
  - Python [float] is IEEE 754 binary64, modelled by [spec_float]
    at precision 53 and maximal exponent 1024.
  - A raised exception is the [Raise] case of the [res] type.
  - [print] appends one structured line to the output. *)

From Stdlib Require Import ZArith QArith Qabs Bool List Sorted Ascii String Lia.
From Stdlib Require Import Floats.SpecFloat.
Import ListNotations.

Local Open Scope string_scope.
Local Open Scope Z_scope.
Local Open Scope list_scope.

(* ================================================================== *)
(** * Python string built-ins used by the program *)
(* ================================================================== *)

Module PyStr.

Definition code (c : ascii) : N := N_of_ascii c.

(** [str.isspace] on the ASCII range: TAB..CR, FS..US and SPACE. *)
Definition is_space (c : ascii) : bool :=
  let n := code c in
  ((9 <=? n) && (n <=? 13) || (28 <=? n) && (n <=? 32))%N.

Definition is_upper (c : ascii) : bool :=
  let n := code c in ((65 <=? n) && (n <=? 90))%N.

Definition is_digit (c : ascii) : bool :=
  let n := code c in ((48 <=? n) && (n <=? 57))%N.

Definition lower_char (c : ascii) : ascii :=
  if is_upper c then ascii_of_N (code c + 32) else c.

(** [s.lower()] *)
Fixpoint lower (s : string) : string :=
  match s with
  | EmptyString => EmptyString
  | String c r => String (lower_char c) (lower r)
  end.

Fixpoint lstrip (s : string) : string :=
  match s with
  | EmptyString => EmptyString
  | String c r => if is_space c then lstrip r else s
  end.

Fixpoint rstrip (s : string) : string :=
  match s with
  | EmptyString => EmptyString
  | String c r =>
      match rstrip r with
      | EmptyString => if is_space c then EmptyString else String c EmptyString
      | r' => String c r'
      end
  end.

(** [s.strip()] *)
Definition strip (s : string) : string := rstrip (lstrip s).

(** [sub in s] *)
Fixpoint contains (sub s : string) : bool :=
  prefix sub s ||
  match s with
  | EmptyString => false
  | String _ r => contains sub r
  end.

(** [s.replace(old, new)] for a non-empty [old]: occurrences are replaced
    left to right without overlap.  [skip] counts the characters of the
    occurrence just matched that are still to be dropped. *)
Fixpoint replace_from (old new : string) (skip : nat) (s : string) : string :=
  match s with
  | EmptyString => EmptyString
  | String c r =>
      match skip with
      | S k => replace_from old new k r
      | O =>
          if prefix old s
          then (new ++ replace_from old new (Nat.pred (String.length old)) r)%string
          else String c (replace_from old new O r)
      end
  end.

Definition replace (old new s : string) : string := replace_from old new O s.

(** [s[:n]] and [s[a:b]] for non-negative bounds. *)
Definition slice_to (n : nat) (s : string) : string := substring 0 n s.
Definition slice (a b : nat) (s : string) : string := substring a (b - a) s.

End PyStr.

(* ================================================================== *)
(** * Python floats *)
(* ================================================================== *)

Module PyFloat.

Definition prec : Z := 53.
Definition emax : Z := 1024.

Definition float := spec_float.

Definition add : float -> float -> float := SFadd prec emax.
Definition sub : float -> float -> float := SFsub prec emax.
Definition mul : float -> float -> float := SFmul prec emax.
Definition div : float -> float -> float := SFdiv prec emax.

Definition eqb : float -> float -> bool := SFeqb.
Definition ltb : float -> float -> bool := SFltb.
Definition leb : float -> float -> bool := SFleb.
(** [a > b], [a >= b] and [a != b]. *)
Definition gtb (a b : float) : bool := ltb b a.
Definition geb (a b : float) : bool := leb b a.
Definition neb (a b : float) : bool := negb (eqb a b).

(** Truth value of a float: [bool(x)] is [x != 0.0]. *)
Definition truthy (x : float) : bool :=
  match x with
  | S754_zero _ => false
  | _ => true
  end.

(** [float(n)] for an integer [n]: the nearest binary64 value. *)
Definition of_Z (n : Z) : float := binary_normalize prec emax n 0 false.

(** The correctly rounded value of [(-1)^s * m * 10^e]. *)
Definition of_decimal (s : bool) (m : Z) (e : Z) : float :=
  match m with
  | Zpos p =>
      if 0 <=? e
      then binary_round prec emax s (p * Z.to_pos (10 ^ e)) 0
      else
        let '(q, e', l) := SFdiv_core_binary prec emax (Zpos p) 0 (10 ^ (- e)) 0 in
        binary_round_aux prec emax s q e' l
  | _ => S754_zero s
  end.

(** The binary64 value nearest to the quotient of two integers, [d]
    non-zero: an infinity when that value is out of range.  Python's
    [n / d] on integers is [PyNum.truediv], which raises there. *)
Definition quotient (n d : Z) : float :=
  match n with
  | Z0 => S754_zero (d <? 0)
  | _ =>
      let s := xorb (n <? 0) (d <? 0) in
      let '(q, e', l) := SFdiv_core_binary prec emax (Z.abs n) 0 (Z.abs d) 0 in
      binary_round_aux prec emax s q e' l
  end.

(** The exact rational value of a finite float (0 for the others). *)
Definition to_Q (x : float) : Q :=
  match x with
  | S754_finite s m e =>
      let v := (inject_Z (Zpos m) * Qpower 2 e)%Q in
      if s then Qopp v else v
  | _ => 0%Q
  end.

(** ** [float(str)]

    Single underscores between digits are removed, surrounding C whitespace
    is dropped, then an optional sign is followed by [inf], [infinity],
    [nan] (in any case) or by a decimal numeral with optional fraction and
    exponent, read to the nearest binary64 value.  [None] stands for
    [ValueError]. *)

(** C [isspace]: TAB..CR and SPACE (narrower than [str.isspace]). *)
Definition is_c_space (c : ascii) : bool :=
  let n := PyStr.code c in ((9 <=? n) && (n <=? 13) || (n =? 32))%N.

Fixpoint c_lstrip (s : string) : string :=
  match s with
  | EmptyString => EmptyString
  | String c r => if is_c_space c then c_lstrip r else s
  end.

Fixpoint c_rstrip (s : string) : string :=
  match s with
  | EmptyString => EmptyString
  | String c r =>
      match c_rstrip r with
      | EmptyString => if is_c_space c then EmptyString else String c EmptyString
      | r' => String c r'
      end
  end.

Fixpoint digits_value (acc : Z) (ds : list ascii) : Z :=
  match ds with
  | [] => acc
  | c :: r => digits_value (10 * acc + (Z.of_N (PyStr.code c) - 48)) r
  end.

(** Longest prefix of digits and the remaining characters. *)
Fixpoint span_digits (cs : list ascii) : list ascii * list ascii :=
  match cs with
  | c :: r =>
      if PyStr.is_digit c
      then let '(ds, rest) := span_digits r in (c :: ds, rest)
      else ([], cs)
  | [] => ([], [])
  end.

(** Underscores are allowed only between two digits; they are removed. *)
Fixpoint drop_underscores (prev : ascii) (cs : list ascii) : option (list ascii) :=
  match cs with
  | [] => if Ascii.eqb prev "_" then None else Some []
  | c :: r =>
      if Ascii.eqb c "_"
      then if PyStr.is_digit prev then drop_underscores c r else None
      else if Ascii.eqb prev "_" && negb (PyStr.is_digit c) then None
      else option_map (cons c) (drop_underscores c r)
  end.

Definition parse_sign (cs : list ascii) : bool * list ascii :=
  match cs with
  | "-"%char :: r => (true, r)
  | "+"%char :: r => (false, r)
  | _ => (false, cs)
  end.

(** The exponent part: empty, or [e]/[E], an optional sign and digits. *)
Definition parse_exponent (cs : list ascii) : option Z :=
  match cs with
  | [] => Some 0
  | c :: r =>
      if Ascii.eqb (PyStr.lower_char c) "e"
      then
        let '(neg, r1) := parse_sign r in
        match span_digits r1 with
        | ((_ :: _) as ds, []) =>
            let v := digits_value 0 ds in Some (if neg then - v else v)
        | _ => None
        end
      else None
  end.

Definition parse_decimal (s : bool) (cs : list ascii) : option float :=
  let '(ip, r1) := span_digits cs in
  let '(fp, r2) :=
    match r1 with
    | "."%char :: r => span_digits r
    | _ => ([], r1)
    end in
  match ip ++ fp with
  | [] => None
  | ds =>
      match parse_exponent r2 with
      | Some ex => Some (of_decimal s (digits_value 0 ds) (ex - Z.of_nat (List.length fp)))
      | None => None
      end
  end.

Definition of_string (str : string) : option float :=
  match drop_underscores "000"%char (list_ascii_of_string str) with
  | None => None
  | Some cs =>
      let stripped := c_rstrip (c_lstrip (string_of_list_ascii cs)) in
      let '(s, body) := parse_sign (list_ascii_of_string stripped) in
      let word := string_of_list_ascii (List.map PyStr.lower_char body) in
      if String.eqb word "inf" || String.eqb word "infinity"
      then Some (S754_infinity s)
      else if String.eqb word "nan" then Some S754_nan
      else parse_decimal s body
  end.

End PyFloat.

(* ================================================================== *)
(** * Record store *)
(* ================================================================== *)

Module Store.

Inductive exn : Type :=
| JSONDecodeError
| FileNotFoundError
| ValueError
| OverflowError
| ZeroDivisionError.

(** Outcome of a call: a returned value or a raised exception. *)
Inductive res (A : Type) : Type :=
| Ok (a : A)
| Raise (e : exn).
Arguments Ok {A} a.
Arguments Raise {A} e.

Definition bind {A B : Type} (m : res A) (k : A -> res B) : res B :=
  match m with
  | Ok a => k a
  | Raise e => Raise e
  end.

(** What is found at a file path: nothing, text that [json.load]
    rejects, or a document that decodes to [data]. *)
Inductive file (A : Type) : Type :=
| Missing
| Corrupt (raw : string)
| Stored (data : A).
Arguments Missing {A}.
Arguments Corrupt {A} raw.
Arguments Stored {A} data.

(** A JSON object, in key order. *)
Definition dict (V : Type) : Type := list (string * V).

(** [os.path.exists(filepath)] *)
Definition exists_ {A : Type} (f : file A) : bool :=
  match f with
  | Missing => false
  | _ => true
  end.

(** [with open(filepath, "r") as f: return json.load(f)] *)
Definition open_and_json_load {A : Type} (f : file A) : res A :=
  match f with
  | Stored d => Ok d
  | Corrupt _ => Raise JSONDecodeError
  | Missing => Raise FileNotFoundError
  end.

Definition load_data {A : Type} (filepath : file (list A)) : res (list A) :=
  if exists_ filepath then open_and_json_load filepath else Ok [].

Definition load_dict_data {V : Type} (filepath : file (dict V)) : res (dict V) :=
  if exists_ filepath then open_and_json_load filepath else Ok [].

Record workout : Type := {
  w_date : string;
  w_body_part : string;
  w_exercise : string;
  w_sets : Z;
  w_reps : Z;
  w_weight : option string;
  w_notes : string;
  w_session_muscles : list string
}.

Record meal : Type := {
  m_date : string;
  m_time : string;
  m_food : string;
  m_grams : PyFloat.float;
  m_calories : Z
}.

Record template : Type := {
  t_muscles : list string;
  t_exercises : list (string * string);
  t_created : string
}.

(** The four data files next to the program. *)
Record disk : Type := {
  WORKOUT_FILE : file (list workout);
  MEALS_FILE : file (list meal);
  CUSTOM_FOODS_FILE : file (dict Z);
  TEMPLATES_FILE : file (dict template)
}.

Definition load_templates (d : disk) : res (dict template) :=
  load_dict_data (TEMPLATES_FILE d).

End Store.

Import Store.

Notation "x <- m ;; k" := (Store.bind m (fun x => k))
(at level 61, m at next level, right associativity).

(* ================================================================== *)
(** * PR tracker *)
(* ================================================================== *)

Module PR.

Import PyFloat.

(** The literal [0.453592]. *)
Definition LB_TO_KG : float := of_decimal false 453592 (-6).

(** [parse_weight]; the argument is [None] for Python's [None].
    The first test is [if not weight_str]. *)
Definition parse_weight (weight_str : option string) : option float :=
  match weight_str with
  | None => None
  | Some EmptyString => None
  | Some s =>
      let weight_str := PyStr.strip (PyStr.lower s) in
      if PyStr.contains "kg" weight_str then
        of_string (PyStr.strip (PyStr.replace "kg" "" weight_str))
      else if PyStr.contains "lb" weight_str then
        option_map (fun x => mul x LB_TO_KG)
          (of_string
             (PyStr.strip (PyStr.replace "lb" "" (PyStr.replace "lbs" "" weight_str))))
      else
        of_string weight_str
  end.

(** [w.get("weight", "")] *)
Definition get_weight (w : workout) (default : string) : option string :=
  match w_weight w with
  | Some s => Some s
  | None => Some default
  end.

(** One iteration of the scan for the best entry. *)
Definition pr_step (st : option workout * float) (w : workout)
  : option workout * float :=
  let '(best, best_weight) := st in
  match parse_weight (get_weight w "") with
  | Some weight =>
      if truthy weight && gtb weight best_weight
      then (Some w, weight)
      else (best, best_weight)
  | None => (best, best_weight)
  end.

Definition same_exercise (exercise : string) (w : workout) : bool :=
  String.eqb (PyStr.lower (w_exercise w)) (PyStr.lower exercise).

(** [best_weight] starts at the integer [0], which a float comparison
    reads as [0.0]. *)
Definition get_pr_for_exercise (d : disk) (exercise : string)
  : res (option workout) :=
  workouts <- load_data (WORKOUT_FILE d) ;;
  let exercise_workouts := filter (same_exercise exercise) workouts in
  match exercise_workouts with
  | [] => Ok None
  | _ => Ok (fst (fold_left pr_step exercise_workouts (None, of_Z 0)))
  end.

Definition check_pr (d : disk) (exercise new_weight : string)
  : res (bool * option string) :=
  match parse_weight (Some new_weight) with
  | None => Ok (false, None)
  | Some new_weight_val =>
      if negb (truthy new_weight_val) then Ok (false, None)
      else
        old_pr <- get_pr_for_exercise d exercise ;;
        match old_pr with
        | None => Ok (true, None)
        | Some old_pr =>
            match parse_weight (get_weight old_pr "") with
            | Some old_weight =>
                if truthy old_weight && gtb new_weight_val old_weight
                then Ok (true, w_weight old_pr)
                else Ok (false, None)
            | None => Ok (false, None)
            end
        end
  end.

End PR.

(* ================================================================== *)
(** * Python list built-ins used by the program *)
(* ================================================================== *)

Module PyList.

Section SortedBy.
Context {A K : Type}.
Variable ltb : K -> K -> bool.
Variable key : A -> K.

Fixpoint insert_by (x : A) (l : list A) : list A :=
  match l with
  | [] => [x]
  | y :: r => if ltb (key y) (key x) then y :: insert_by x r else x :: y :: r
  end.

(** [sorted(l, key=key)]: ascending and stable. *)
Definition sorted_by (l : list A) : list A := fold_right insert_by [] l.
End SortedBy.

(** [sorted(l, reverse=True)] on strings. *)
Definition sorted_reverse (l : list string) : list string :=
  sorted_by (fun a b => String.ltb b a) (fun s => s) l.

(** The elements of [set(l)], in some order. *)
Definition set_of (l : list string) : list string := nodup string_dec l.

(** [l[-n:]] for a positive [n]. *)
Definition last_n {A : Type} (n : nat) (l : list A) : list A :=
  skipn (List.length l - n) l.

(** [list(range(start, -1, -1))] *)
Definition range_down (start : Z) : list Z :=
  List.map Z.of_nat (rev (seq 0 (Z.to_nat (start + 1)))).

(** [min] and [max] of a non-empty sequence of floats: the running
    answer is replaced when the next item is strictly smaller (larger). *)
Definition py_min (x : PyFloat.float) (l : list PyFloat.float) : PyFloat.float :=
  fold_left (fun m y => if PyFloat.ltb y m then y else m) l x.

Definition py_max (x : PyFloat.float) (l : list PyFloat.float) : PyFloat.float :=
  fold_left (fun m y => if PyFloat.gtb y m then y else m) l x.

(** [counts[k] = counts.get(k, 0) + 1] on a dictionary in key order. *)
Fixpoint incr (k : string) (counts : dict Z) : dict Z :=
  match counts with
  | [] => [(k, 1)]
  | (k', n) :: r =>
      if String.eqb k' k then (k', n + 1) :: r else (k', n) :: incr k r
  end.

Definition count_all (keys : list string) : dict Z :=
  fold_left (fun counts k => incr k counts) keys [].

End PyList.

(* ================================================================== *)
(** * Numbers that are either [int] or [float] *)
(* ================================================================== *)

Module PyNum.

Import PyFloat.

Inductive num : Type :=
| Int (z : Z)
| Float (f : float).

(** [a * n] for a row number [n]. *)
Definition mul_int (a : num) (n : Z) : num :=
  match a with
  | Int z => Int (z * n)
  | Float f => Float (mul f (of_Z n))
  end.

(** [a / n] in the chart, its one call site: [n] is 7 and an integer [a]
    is a row number, so that the division raises nothing. *)
Definition truediv_int (a : num) (n : Z) : float :=
  match a with
  | Int z => quotient z n
  | Float f => div f (of_Z n)
  end.

(** [n / d] on integers (true division): the correctly rounded quotient,
    [ZeroDivisionError] for a zero divisor, [OverflowError] when the
    rounded quotient is too large for a float. *)
Definition truediv (n d : Z) : res float :=
  if d =? 0 then Raise ZeroDivisionError
  else
    match quotient n d with
    | S754_infinity _ => Raise OverflowError
    | q => Ok q
    end.

End PyNum.

(* ================================================================== *)
(** * Progress view *)
(* ================================================================== *)

Module Chart.

Import PyFloat PyNum PyList.

(** The per-exercise records built by [view_progress]. *)
Record record : Type := {
  r_weight : float;
  r_date : string;
  r_sets : Z;
  r_reps : Z
}.

(** One [print] of [show_progress_chart]. *)
Inductive line : Type :=
| Title (exercise : string)
| Rule
| NeedTwoRecords
| TopLabel (max_w : float)
| Row (cells : list bool)
| BottomLabel (min_w : float) (columns : nat)
| DateLabels (labels : list string)
| Progress (first_weight last_weight : float) (sign : string) (diff : float).

Definition chart_height : Z := 8.

(** [max_w - min_w if max_w != min_w else 1] *)
Definition weight_range (min_w max_w : float) : num :=
  if neb max_w min_w then Float (sub max_w min_w) else Int 1.

(** [min_w + (weight_range * row / (chart_height - 1))] *)
Definition threshold (min_w : float) (range : num) (row : Z) : float :=
  add min_w (truediv_int (mul_int range row) (chart_height - 1)).

Definition chart_row (min_w : float) (range : num) (recent : list record)
    (row : Z) : line :=
  Row (List.map (fun r => geb (r_weight r) (threshold min_w range row)) recent).

Definition show_progress_chart (exercise : string) (records : list record)
  : list line :=
  let sorted_records := sorted_by String.ltb r_date records in
  match sorted_records with
  | [] | [_] => [Title exercise; Rule; NeedTwoRecords]
  | first :: rest =>
      (* weights = [r_weight first] ++ map r_weight rest *)
      let min_w := py_min (r_weight first) (List.map r_weight rest) in
      let max_w := py_max (r_weight first) (List.map r_weight rest) in
      let range := weight_range min_w max_w in
      let recent := last_n 10 sorted_records in
      let first_weight := r_weight first in
      let last_weight := r_weight (List.last sorted_records first) in
      let diff := sub last_weight first_weight in
      [Title exercise; Rule; TopLabel max_w]
      ++ List.map (chart_row min_w range recent) (range_down (chart_height - 1))
      ++ [BottomLabel min_w (List.length recent);
          DateLabels (List.map (fun r => PyStr.slice 5 10 (r_date r)) recent);
          Progress first_weight last_weight
            (if geb diff (of_Z 0) then "+" else "") diff]
  end.

End Chart.

(* ================================================================== *)
(** * Calendar dates *)
(* ================================================================== *)

Module PyDate.

Record datetime : Type := {
  year : Z;
  month : Z;
  day : Z;
  hour : Z;
  minute : Z
}.

Definition is_leap (y : Z) : bool :=
  (y mod 4 =? 0) && (negb (y mod 100 =? 0) || (y mod 400 =? 0)).

Definition days_in_month (y m : Z) : Z :=
  match m with
  | 2 => if is_leap y then 29 else 28
  | 4 | 6 | 9 | 11 => 30
  | _ => 31
  end.

(** Days in the year [y] before the first day of month [m]. *)
Definition days_before_month (y m : Z) : Z :=
  match m with
  | 1 => 0 | 2 => 31 | 3 => 59 | 4 => 90 | 5 => 120 | 6 => 151
  | 7 => 181 | 8 => 212 | 9 => 243 | 10 => 273 | 11 => 304 | _ => 334
  end + (if (2 <? m) && is_leap y then 1 else 0).

(** Days before January 1st of year [y]. *)
Definition days_before_year (y : Z) : Z :=
  let y1 := y - 1 in y1 * 365 + y1 / 4 - y1 / 100 + y1 / 400.

(** [toordinal]: day 1 is 0001-01-01. *)
Definition toordinal (dt : datetime) : Z :=
  days_before_year (year dt) + days_before_month (year dt) (month dt) + day dt.

Definition valid (dt : datetime) : bool :=
  (1 <=? year dt) && (year dt <=? 9999) &&
  (1 <=? month dt) && (month dt <=? 12) &&
  (1 <=? day dt) && (day dt <=? days_in_month (year dt) (month dt)).

(** The same time on the previous calendar day. *)
Definition prev_day (dt : datetime) : datetime :=
  if 1 <? day dt then
    {| year := year dt; month := month dt; day := day dt - 1;
       hour := hour dt; minute := minute dt |}
  else if 1 <? month dt then
    {| year := year dt; month := month dt - 1;
       day := days_in_month (year dt) (month dt - 1);
       hour := hour dt; minute := minute dt |}
  else
    {| year := year dt - 1; month := 12; day := 31;
       hour := hour dt; minute := minute dt |}.

(** [dt - timedelta(days=n)]; a result before year 1 is an
    [OverflowError]. *)
Fixpoint sub_days (dt : datetime) (n : nat) : res datetime :=
  match n with
  | O => Ok dt
  | S k =>
      if toordinal dt <=? 1 then Raise OverflowError
      else sub_days (prev_day dt) k
  end.

(** [(a - b).days] for two datetimes at the same time of day. *)
Definition days_between (a b : datetime) : Z := toordinal a - toordinal b.

Definition digit_char (k : Z) : ascii := ascii_of_N (48 + Z.to_N (k mod 10)).

Definition two_digits (n : Z) : string :=
  String (digit_char (n / 10)) (String (digit_char n) EmptyString).

Definition four_digits (n : Z) : string :=
  String (digit_char (n / 1000)) (String (digit_char (n / 100)) (two_digits n)).

(** [dt.strftime("%Y-%m-%d")].  The year is written with four digits, as
    every platform does from the year 1000 on. *)
Definition strftime_Ymd (dt : datetime) : string :=
  (four_digits (year dt) ++ "-" ++ two_digits (month dt) ++ "-"
     ++ two_digits (day dt))%string.

Definition digit_value (c : ascii) : option Z :=
  if PyStr.is_digit c then Some (Z.of_N (PyStr.code c) - 48) else None.

Definition in_range (lo hi : Z) (c : ascii) : option Z :=
  match digit_value c with
  | Some v => if (lo <=? v) && (v <=? hi) then Some v else None
  | None => None
  end.

(** [%m]: [1[0-2]|0[1-9]|[1-9]] *)
Definition month_token (s : string) : option (Z * string) :=
  match s with
  | String "1" (String c r as r1) =>
      match in_range 0 2 c with
      | Some v => Some (10 + v, r)
      | None => Some (1, r1)
      end
  | String "0" (String c r) => option_map (fun v => (v, r)) (in_range 1 9 c)
  | String c r => option_map (fun v => (v, r)) (in_range 1 9 c)
  | EmptyString => None
  end.

(** [%d]: [3[0-1]|[1-2]\d|0[1-9]|[1-9]| [1-9]] *)
Definition day_token (s : string) : option (Z * string) :=
  match s with
  | String a (String b r as r1) =>
      match a, in_range 0 1 b, in_range 0 9 b, in_range 1 9 b with
      | "3"%char, Some v, _, _ => Some (30 + v, r)
      | "1"%char, _, Some v, _ => Some (10 + v, r)
      | "2"%char, _, Some v, _ => Some (20 + v, r)
      | "0"%char, _, _, Some v => Some (v, r)
      | " "%char, _, _, Some v => Some (v, r)
      | _, _, _, _ => option_map (fun v => (v, r1)) (in_range 1 9 a)
      end
  | String a r => option_map (fun v => (v, r)) (in_range 1 9 a)
  | EmptyString => None
  end.

(** [datetime.strptime(s, "%Y-%m-%d")] *)
Definition strptime_Ymd (s : string) : res datetime :=
  match s with
  | String y3 (String y2 (String y1 (String y0 (String "-" r)))) =>
      match digit_value y3, digit_value y2, digit_value y1, digit_value y0,
            month_token r with
      | Some a, Some b, Some c, Some d, Some (m, String "-" r') =>
          match day_token r' with
          | Some (dd, EmptyString) =>
              let dt := {| year := 1000 * a + 100 * b + 10 * c + d;
                           month := m; day := dd; hour := 0; minute := 0 |} in
              if valid dt then Ok dt else Raise ValueError
          | _ => Raise ValueError
          end
      | _, _, _, _, _ => Raise ValueError
      end
  | _ => Raise ValueError
  end.

End PyDate.

(* ================================================================== *)
(** * Weekly summary and streak *)
(* ================================================================== *)

Module Weekly.

Import PyFloat PyNum PyList PyDate.

(** [w["date"][:10]] *)
Definition date_part (w : workout) : string := PyStr.slice_to 10 (w_date w).

(** The [for] loop of [calculate_streak], from index [i] with [dates]
    holding [dates[i:]]. *)
Fixpoint streak_loop (dates : list string) (streak : Z) : res Z :=
  match dates with
  | d_i :: ((d_next :: _) as rest) =>
      current <- strptime_Ymd d_i ;;
      prev <- strptime_Ymd d_next ;;
      if days_between current prev =? 1
      then streak_loop rest (streak + 1)
      else Ok streak
  | _ => Ok streak
  end.

(** [calculate_streak]; [now] is the reading of [datetime.now()]. *)
Definition calculate_streak (now : datetime) (workouts : list workout) : res Z :=
  match workouts with
  | [] => Ok 0
  | _ =>
      let dates := sorted_reverse (set_of (List.map date_part workouts)) in
      match dates with
      | [] => Ok 0
      | d0 :: _ =>
          let today := strftime_Ymd now in
          y <- sub_days now 1 ;;
          let yesterday := strftime_Ymd y in
          if negb (String.eqb d0 today) && negb (String.eqb d0 yesterday)
          then Ok 0
          else streak_loop dates 1
      end
  end.

(** One [print] of [view_weekly_summary]. *)
Inductive line : Type :=
| Banner
| Period (week_ago_str today_str : string)
| Rule
| WorkoutsHeading
| Sessions (days : nat)
| TotalExercises (n : nat)
| ByBodyPart
| BodyPartBar (bp : string) (count : Z)
| CurrentStreak (streak : Z)
| NoWorkouts
| NutritionHeading
| TotalCalories (total : Z)
| DaysLogged (days : nat)
| DailyAverage (avg : num)
| TopFoods
| TopFood (food : string) (count : Z)
| NoMeals.

Definition by_count_desc (counts : dict Z) : dict Z :=
  sorted_by Z.ltb (fun x : string * Z => - snd x) counts.

(** The workout statistics block. *)
Definition workout_stats (now : datetime) (workouts week_workouts : list workout)
  : res (list line) :=
  match week_workouts with
  | [] => Ok [WorkoutsHeading; NoWorkouts]
  | _ =>
      let session_dates := set_of (List.map date_part week_workouts) in
      let total_exercises := List.length week_workouts in
      let body_counts := count_all (List.map w_body_part week_workouts) in
      streak <- calculate_streak now workouts ;;
      Ok ([WorkoutsHeading; Sessions (List.length session_dates);
           TotalExercises total_exercises; ByBodyPart]
          ++ List.map (fun x => BodyPartBar (fst x) (snd x)) (by_count_desc body_counts)
          ++ (if 0 <? streak then [CurrentStreak streak] else []))
  end.

(** [total_calories / days_with_meals if days_with_meals > 0 else 0] *)
Definition avg_daily (total_calories : Z) (days_with_meals : nat) : res num :=
  if (0 <? days_with_meals)%nat
  then q <- truediv total_calories (Z.of_nat days_with_meals) ;; Ok (Float q)
  else Ok (Int 0).

(** The nutrition statistics block: the division comes before the first
    of its figures is printed. *)
Definition nutrition_stats (week_meals : list meal) : res (list line) :=
  match week_meals with
  | [] => Ok [NutritionHeading; NoMeals]
  | _ =>
      let total_calories := fold_left Z.add (List.map m_calories week_meals) 0 in
      let days_with_meals := List.length (set_of (List.map m_date week_meals)) in
      avg <- avg_daily total_calories days_with_meals ;;
      let food_counts := count_all (List.map m_food week_meals) in
      let top_foods := firstn 3 (by_count_desc food_counts) in
      Ok ([NutritionHeading; TotalCalories total_calories;
           DaysLogged days_with_meals; DailyAverage avg; TopFoods]
          ++ List.map (fun x => TopFood (fst x) (snd x)) top_foods)
  end.

(** [view_weekly_summary]: the lines printed by a call that returns. *)
Definition view_weekly_summary (d : disk) (today : datetime) : res (list line) :=
  week_ago <- sub_days today 7 ;;
  let week_ago_str := strftime_Ymd week_ago in
  workouts <- load_data (WORKOUT_FILE d) ;;
  let week_workouts :=
    filter (fun w => String.leb week_ago_str (date_part w)) workouts in
  meals <- load_data (MEALS_FILE d) ;;
  let week_meals := filter (fun m => String.leb week_ago_str (m_date m)) meals in
  ws <- workout_stats today workouts week_workouts ;;
  ns <- nutrition_stats week_meals ;;
  Ok ([Banner; Period week_ago_str (strftime_Ymd today); Rule] ++ ws ++ ns).

End Weekly.

(* ================================================================== *)
(** * The interactive part of the program

  The dialogues ([log_workout], [log_meal], the views and the template
  functions) are translated with these further conventions
  - [input()] reads the next of the lines typed; a call that waits for a
    line that was not typed is [Blocked], and the two long dialogues are
    machines that take one typed line per step, with the reading of
    [datetime.now()] at that moment;
  - [int(str)] is read on the ASCII range, as the strings are;
  - a [KeyError] is the [None] of an [option]. *)
(* ================================================================== *)

From Stdlib Require Import Permutation.
From Stdlib Require OrderedTypeEx.

(* ================================================================== *)
(** * Python [int(str)] and dictionaries *)
(* ================================================================== *)

Module PyInt.

(** Digits with single underscores between them; [prev] is the character
    before, [acc] the value so far. *)
Fixpoint int_digits (prev : ascii) (acc : Z) (cs : list ascii) : option Z :=
  match cs with
  | [] => if PyStr.is_digit prev then Some acc else None
  | c :: r =>
      if PyStr.is_digit c
      then int_digits c (10 * acc + (Z.of_N (PyStr.code c) - 48)) r
      else if Ascii.eqb c "_" && PyStr.is_digit prev then int_digits c acc r
      else None
  end.

(** [int(s)] in base 10: surrounding C whitespace, an optional sign, then
    digits.  [None] stands for [ValueError]. *)
Definition of_string (s : string) : option Z :=
  let body := list_ascii_of_string (PyFloat.c_rstrip (PyFloat.c_lstrip s)) in
  let '(neg, digits) := PyFloat.parse_sign body in
  match int_digits "000"%char 0 digits with
  | Some v => Some (if neg then - v else v)
  | None => None
  end.

End PyInt.

Module PyDict.

(** [d[k]], [None] standing for [KeyError]; also [d.get(k)]. *)
Fixpoint get {V : Type} (k : string) (d : dict V) : option V :=
  match d with
  | [] => None
  | (k', v) :: r => if String.eqb k' k then Some v else get k r
  end.

(** [k in d] *)
Definition mem {V : Type} (k : string) (d : dict V) : bool :=
  match get k d with
  | Some _ => true
  | None => false
  end.

(** [d[k] = v]: the value of an existing key is replaced where it stands,
    a new key goes to the end. *)
Fixpoint set {V : Type} (k : string) (v : V) (d : dict V) : dict V :=
  match d with
  | [] => [(k, v)]
  | (k', v') :: r =>
      if String.eqb k' k then (k', v) :: r else (k', v') :: set k v r
  end.

(** [d.update(other)], also [{**d, **other}] on a copy. *)
Definition update {V : Type} (d other : dict V) : dict V :=
  fold_left (fun acc kv => set (fst kv) (snd kv) acc) other d.

(** [list(d.keys())] *)
Definition keys {V : Type} (d : dict V) : list string := List.map fst d.

End PyDict.

(* ================================================================== *)
(** * Catalogs *)
(* ================================================================== *)

Module Catalog.

Definition BODY_PARTS : dict (list string) :=
  [("chest", ["Bench Press"; "Push-ups"; "Dumbbell Fly"; "Incline Press";
              "Cable Crossover"]);
   ("back", ["Pull-ups"; "Deadlift"; "Barbell Row"; "Lat Pulldown"; "Seated Row"]);
   ("shoulders", ["Overhead Press"; "Lateral Raise"; "Front Raise"; "Face Pull";
                  "Shrugs"]);
   ("arms", ["Bicep Curl"; "Tricep Dip"; "Hammer Curl"; "Skull Crusher";
             "Cable Pushdown"]);
   ("core", ["Plank"; "Crunches"; "Leg Raise"; "Russian Twist"; "Mountain Climbers"]);
   ("legs", ["Squat"; "Lunges"; "Leg Press"; "Calf Raise"; "Romanian Deadlift"])].

Definition WORD_TO_NUMBER : dict Z :=
  [("zero", 0); ("one", 1); ("two", 2); ("three", 3); ("four", 4);
   ("five", 5); ("six", 6); ("seven", 7); ("eight", 8); ("nine", 9);
   ("ten", 10); ("eleven", 11); ("twelve", 12); ("thirteen", 13);
   ("fourteen", 14); ("fifteen", 15); ("sixteen", 16); ("seventeen", 17);
   ("eighteen", 18); ("nineteen", 19); ("twenty", 20)].

Definition CALORIE_DATABASE : dict Z :=
  [("chicken breast", 165); ("chicken thigh", 209); ("beef", 250);
   ("ground beef", 332); ("salmon", 208); ("tuna", 132); ("shrimp", 99);
   ("eggs", 155); ("egg whites", 52); ("tofu", 76); ("turkey", 135);
   ("pork", 242);
   ("rice", 130); ("brown rice", 123); ("bread", 265);
   ("whole wheat bread", 247); ("pasta", 131); ("oatmeal", 68);
   ("potato", 77); ("sweet potato", 86); ("quinoa", 120);
   ("broccoli", 34); ("spinach", 23); ("carrot", 41); ("tomato", 18);
   ("cucumber", 16); ("bell pepper", 31); ("lettuce", 15); ("onion", 40);
   ("mushroom", 22); ("avocado", 160);
   ("banana", 89); ("apple", 52); ("orange", 47); ("strawberry", 32);
   ("blueberry", 57); ("grapes", 69); ("watermelon", 30); ("mango", 60);
   ("milk", 42); ("almond milk", 15); ("yogurt", 59); ("greek yogurt", 97);
   ("cheese", 402); ("cottage cheese", 98);
   ("protein shake", 120); ("protein bar", 200); ("almonds", 579);
   ("peanut butter", 588); ("honey", 304); ("olive oil", 884)].

(** [get_combo_suggestions] *)
Definition get_combo_suggestions (selected_part : string) : list string :=
  filter (fun part => negb (String.eqb part selected_part)) (PyDict.keys BODY_PARTS).

(** [get_exercises_for_muscles]; [None] stands for the [KeyError] of an
    unknown muscle. *)
Fixpoint get_exercises_for_muscles (muscles : list string)
  : option (list (string * string)) :=
  match muscles with
  | [] => Some []
  | muscle :: r =>
      match PyDict.get muscle BODY_PARTS with
      | None => None
      | Some exs =>
          match get_exercises_for_muscles r with
          | None => None
          | Some rest => Some (List.map (fun ex => (ex, muscle)) exs ++ rest)
          end
      end
  end.

(** [parse_number] *)
Definition parse_number (value : string) : option Z :=
  let value := PyStr.lower (PyStr.strip value) in
  match PyInt.of_string value with
  | Some n => Some n
  | None => PyDict.get value WORD_TO_NUMBER
  end.

End Catalog.

(* ================================================================== *)
(** * Saving, and the dialogue helpers *)
(* ================================================================== *)

Module Persist.

(** [save_data(WORKOUT_FILE, data)] and its three siblings: the file is
    overwritten with the JSON of [data]. *)
Definition save_workouts (data : list workout) (d : disk) : disk :=
  {| WORKOUT_FILE := Stored data; MEALS_FILE := MEALS_FILE d;
     CUSTOM_FOODS_FILE := CUSTOM_FOODS_FILE d; TEMPLATES_FILE := TEMPLATES_FILE d |}.

Definition save_meals (data : list meal) (d : disk) : disk :=
  {| WORKOUT_FILE := WORKOUT_FILE d; MEALS_FILE := Stored data;
     CUSTOM_FOODS_FILE := CUSTOM_FOODS_FILE d; TEMPLATES_FILE := TEMPLATES_FILE d |}.

Definition save_custom_foods (data : dict Z) (d : disk) : disk :=
  {| WORKOUT_FILE := WORKOUT_FILE d; MEALS_FILE := MEALS_FILE d;
     CUSTOM_FOODS_FILE := Stored data; TEMPLATES_FILE := TEMPLATES_FILE d |}.

Definition save_templates (data : dict template) (d : disk) : disk :=
  {| WORKOUT_FILE := WORKOUT_FILE d; MEALS_FILE := MEALS_FILE d;
     CUSTOM_FOODS_FILE := CUSTOM_FOODS_FILE d; TEMPLATES_FILE := Stored data |}.

(** [save_template]; [now] is the reading of [datetime.now()]. *)
Definition save_template (d : disk) (now : PyDate.datetime) (name : string)
    (muscles : list string) (exercises : list (string * string)) : res disk :=
  templates <- load_templates d ;;
  let t := {| t_muscles := muscles; t_exercises := exercises;
              t_created := PyDate.strftime_Ymd now |} in
  Ok (save_templates (PyDict.set name t templates) d).

(** [except ValueError] also catches [json.JSONDecodeError], a subclass. *)
Definition is_ValueError (e : exn) : bool :=
  match e with
  | ValueError | JSONDecodeError => true
  | _ => false
  end.

(** [now.strftime("%H:%M")] and [now.strftime("%Y-%m-%d %H:%M")] *)
Definition strftime_HM (now : PyDate.datetime) : string :=
  (PyDate.two_digits (PyDate.hour now) ++ ":"
     ++ PyDate.two_digits (PyDate.minute now))%string.

Definition strftime_Ymd_HM (now : PyDate.datetime) : string :=
  (PyDate.strftime_Ymd now ++ " " ++ strftime_HM now)%string.

End Persist.

Module Dialogue.

Import Catalog.

(** What a call that reads the keyboard ends with: a returned value and
    the lines not yet read, or [Blocked] when it waits for a line that was
    not typed.  [out] lists what was printed. *)
Inductive outcome (A E : Type) : Type :=
| Returns (a : A) (out : list E) (rest : list string)
| Blocked (out : list E).
Arguments Returns {A E} a out rest.
Arguments Blocked {A E} out.

(** The prints of [select_workout_muscles] and [collect_workout_details]. *)
Inductive say : Type :=
| AskMuscles (parts : list string)
| AskCombo (selected : string) (suggestions : list string)
| EnterOneToSeven
| EnterUpTo (hi : nat)
| EnterNumber
| InvalidSets
| InvalidReps.

(** One pass of the first loop of [select_workout_muscles]: the part
    chosen, [Some None] for "Skip", [None] to ask again. *)
Definition muscle_choice (line : string) : option (option string) * list say :=
  let parts := PyDict.keys BODY_PARTS in
  match PyInt.of_string line with
  | None => (None, [EnterNumber])
  | Some choice =>
      if choice =? Z.of_nat (List.length parts) + 1 then (Some None, [])
      else if (1 <=? choice) && (choice <=? Z.of_nat (List.length parts))
      then match nth_error parts (Z.to_nat (choice - 1)) with
           | Some part => (Some (Some part), [])
           | None => (None, [])
           end
      else (None, [EnterOneToSeven])
  end.

(** One pass of the second loop: the final selection, or [None] to ask
    again. *)
Definition combo_choice (selected : string) (line : string)
  : option (list string) * list say :=
  let suggestions := get_combo_suggestions selected in
  match PyInt.of_string line with
  | None => (None, [EnterNumber])
  | Some choice =>
      if choice =? Z.of_nat (List.length suggestions) + 1 then (Some [selected], [])
      else if (1 <=? choice) && (choice <=? Z.of_nat (List.length suggestions))
      then match nth_error suggestions (Z.to_nat (choice - 1)) with
           | Some part => (Some [selected; part], [])
           | None => (None, [])
           end
      else (None, [EnterUpTo (List.length suggestions + 1)])
  end.

Fixpoint select_combo (selected : string) (out : list say) (inputs : list string)
  : outcome (list string) say :=
  match inputs with
  | [] => Blocked out
  | line :: rest =>
      match combo_choice selected line with
      | (Some sel, o) => Returns sel (out ++ o) rest
      | (None, o) => select_combo selected (out ++ o) rest
      end
  end.

Fixpoint select_muscle (out : list say) (inputs : list string)
  : outcome (list string) say :=
  match inputs with
  | [] => Blocked out
  | line :: rest =>
      match muscle_choice line with
      | (Some None, o) => Returns [] (out ++ o) rest
      | (Some (Some part), o) =>
          select_combo part
            (out ++ o ++ [AskCombo part (get_combo_suggestions part)]) rest
      | (None, o) => select_muscle (out ++ o) rest
      end
  end.

(** [select_workout_muscles] *)
Definition select_workout_muscles (inputs : list string)
  : outcome (list string) say :=
  select_muscle [AskMuscles (PyDict.keys BODY_PARTS)] inputs.

(** The test of the sets and of the reps loop. *)
Definition positive_number (line : string) : option Z :=
  match parse_number (PyStr.strip line) with
  | Some n => if 0 <? n then Some n else None
  | None => None
  end.

Definition read_notes (sets reps : Z) (weight : string) (out : list say)
    (inputs : list string) : outcome (Z * Z * string * string) say :=
  match inputs with
  | [] => Blocked out
  | line :: rest => Returns (sets, reps, weight, PyStr.strip line) out rest
  end.

Definition read_weight (sets reps : Z) (out : list say) (inputs : list string)
  : outcome (Z * Z * string * string) say :=
  match inputs with
  | [] => Blocked out
  | line :: rest => read_notes sets reps (PyStr.strip line) out rest
  end.

Fixpoint read_reps (sets : Z) (out : list say) (inputs : list string)
  : outcome (Z * Z * string * string) say :=
  match inputs with
  | [] => Blocked out
  | line :: rest =>
      match positive_number line with
      | Some reps => read_weight sets reps out rest
      | None => read_reps sets (out ++ [InvalidReps]) rest
      end
  end.

Fixpoint read_sets (out : list say) (inputs : list string)
  : outcome (Z * Z * string * string) say :=
  match inputs with
  | [] => Blocked out
  | line :: rest =>
      match positive_number line with
      | Some sets => read_reps sets out rest
      | None => read_sets (out ++ [InvalidSets]) rest
      end
  end.

(** [collect_workout_details] *)
Definition collect_workout_details (inputs : list string)
  : outcome (Z * Z * string * string) say :=
  read_sets [] inputs.

End Dialogue.

(* ================================================================== *)
(** * The workout session *)
(* ================================================================== *)

Module Session.

Import Catalog Dialogue Persist.

(** One [print] of [log_workout] (those of the helpers are [Helper]);
    [RestTimer] stands for the whole countdown of [rest_timer]. *)
Inductive event : Type :=
| SessionBanner
| LoadingTemplate (exercises : nat)
| WorkoutSkipped
| Focus (muscles : list string)
| Helper (s : say)
| ExerciseHeader (count : Z)
| TemplateSuggests (exercise : string)
| Menu (available : list (string * string))
| PleaseEnterUpTo (hi : nat)
| PleaseEnterNumber
| GreatSession (logged : nat) (muscles : list string)
| TemplateSaved (name : string)
| Logged (exercise : string) (sets reps : Z) (weight : string)
| NewRecord (previous : string)
| FirstLift (exercise : string)
| SessionTotal (logged : nat)
| RestTimer (seconds : Z).

(** The [input()] call the session is waiting at. *)
Inductive phase : Type :=
| PickMuscle
| PickCombo (selected : string)
| Choice
| CustomName
| Sets (exercise body_part : string)
| Reps (exercise body_part : string) (sets : Z)
| Weight (exercise body_part : string) (sets reps : Z)
| Notes (exercise body_part : string) (sets reps : Z) (weight : string)
| Rest
| SaveAs
| TemplateName.

(** The local variables of [log_workout], the files and the output. *)
Record vars : Type := {
  files : disk;
  muscles : list string;
  template_exercises : option (list (string * string));
  available : list (string * string);
  session_workouts : list workout;
  exercise_count : Z;
  printed : list event
}.

Inductive machine : Type :=
| Waiting (p : phase) (v : vars)
| Returned (v : vars)
| Crashed (e : exn) (v : vars)
| CrashedKeyError (v : vars).

Definition print (es : list event) (v : vars) : vars :=
  {| files := files v; muscles := muscles v;
     template_exercises := template_exercises v; available := available v;
     session_workouts := session_workouts v; exercise_count := exercise_count v;
     printed := printed v ++ es |}.

Definition with_files (d : disk) (v : vars) : vars :=
  {| files := d; muscles := muscles v;
     template_exercises := template_exercises v; available := available v;
     session_workouts := session_workouts v; exercise_count := exercise_count v;
     printed := printed v |}.

(** The prints at the top of the exercise loop, up to the choice prompt. *)
Definition exercise_menu (v : vars) : machine :=
  let suggestion :=
    match template_exercises v with
    | Some ((_ :: _) as exs) =>
        if exercise_count v <=? Z.of_nat (List.length exs)
        then match nth_error exs (Z.to_nat (exercise_count v - 1)) with
             | Some suggested => [TemplateSuggests (fst suggested)]
             | None => []
             end
        else []
    | _ => []
    end in
  Waiting Choice
    (print ([ExerciseHeader (exercise_count v)] ++ suggestion ++ [Menu (available v)]) v).

(** From the muscles on: the skipped workout, the exercise list, the
    first menu. *)
Definition begin (d : disk) (selected : list string)
    (template_exercises : option (list (string * string))) (out : list event)
  : machine :=
  let v0 := {| files := d; muscles := selected;
               template_exercises := template_exercises; available := [];
               session_workouts := []; exercise_count := 1; printed := out |} in
  match selected with
  | [] => Returned (print [WorkoutSkipped] v0)
  | _ =>
      let v1 := print [Focus selected] v0 in
      match get_exercises_for_muscles selected with
      | None => CrashedKeyError v1
      | Some exs =>
          exercise_menu
            {| files := d; muscles := selected;
               template_exercises := template_exercises; available := exs;
               session_workouts := []; exercise_count := 1;
               printed := printed v1 |}
      end
  end.

(** [log_workout(template)] up to its first [input()]. *)
Definition log_workout (d : disk) (template : option template) : machine :=
  match template with
  | Some t =>
      begin d (t_muscles t) (Some (t_exercises t))
        [SessionBanner; LoadingTemplate (List.length (t_exercises t))]
  | None =>
      Waiting PickMuscle
        {| files := d; muscles := []; template_exercises := None;
           available := []; session_workouts := []; exercise_count := 1;
           printed := [SessionBanner; Helper (AskMuscles (PyDict.keys BODY_PARTS))] |}
  end.

(** The "Workout Done" branch up to the "save as template" prompt. *)
Definition workout_done (v : vars) : machine :=
  match session_workouts v with
  | [] => Returned v
  | _ =>
      match load_data (WORKOUT_FILE (files v)) with
      | Ok workouts =>
          Waiting SaveAs
            (print [GreatSession (List.length (session_workouts v)) (muscles v)]
               (with_files (save_workouts (workouts ++ session_workouts v) (files v)) v))
      | Raise e =>
          if is_ValueError e then Waiting Choice (print [PleaseEnterNumber] v)
          else Crashed e v
      end
  end.

(** After the notes: the PR check, the new entry and its prints, up to the
    rest prompt. *)
Definition log_entry (now : PyDate.datetime) (exercise body_part : string)
    (sets reps : Z) (weight notes : string) (v : vars) : machine :=
  match PR.check_pr (files v) exercise weight with
  | Raise e => Crashed e v
  | Ok (is_pr, old_pr) =>
      let workout :=
        {| w_date := strftime_Ymd_HM now; w_body_part := body_part;
           w_exercise := exercise; w_sets := sets; w_reps := reps;
           w_weight := Some weight; w_notes := notes;
           w_session_muscles := muscles v |} in
      let session := session_workouts v ++ [workout] in
      let celebrate :=
        if is_pr then
          match old_pr with
          | Some (String _ _ as previous) => [NewRecord previous]
          | _ => [FirstLift exercise]
          end
        else [] in
      Waiting Rest
        {| files := files v; muscles := muscles v;
           template_exercises := template_exercises v; available := available v;
           session_workouts := session; exercise_count := exercise_count v;
           printed := printed v ++ [Logged exercise sets reps weight] ++ celebrate
                      ++ [SessionTotal (List.length session)] |}
  end.

(** What the session does with the line typed at the prompt it waits at;
    [now] is the clock when the line is processed. *)
Definition step (now : PyDate.datetime) (p : phase) (v : vars) (line : string)
  : machine :=
  match p with
  | PickMuscle =>
      match muscle_choice line with
      | (Some None, o) => begin (files v) [] None (printed v ++ List.map Helper o)
      | (Some (Some part), o) =>
          Waiting (PickCombo part)
            (print (List.map Helper
                      (o ++ [AskCombo part (get_combo_suggestions part)])) v)
      | (None, o) => Waiting PickMuscle (print (List.map Helper o) v)
      end
  | PickCombo selected =>
      match combo_choice selected line with
      | (Some sel, o) => begin (files v) sel None (printed v ++ List.map Helper o)
      | (None, o) => Waiting (PickCombo selected) (print (List.map Helper o) v)
      end
  | Choice =>
      match PyInt.of_string line with
      | None => Waiting Choice (print [PleaseEnterNumber] v)
      | Some choice =>
          let n := Z.of_nat (List.length (available v)) in
          if choice =? n + 2 then workout_done v
          else if choice =? n + 1 then Waiting CustomName v
          else if (1 <=? choice) && (choice <=? n) then
            match nth_error (available v) (Z.to_nat (choice - 1)) with
            | Some (exercise, body_part) => Waiting (Sets exercise body_part) v
            | None => Waiting Choice v
            end
          else Waiting Choice (print [PleaseEnterUpTo (List.length (available v) + 2)] v)
      end
  | CustomName =>
      Waiting (Sets (PyStr.strip line) (hd "" (muscles v))) v
  | Sets exercise body_part =>
      match positive_number line with
      | Some sets => Waiting (Reps exercise body_part sets) v
      | None => Waiting (Sets exercise body_part) (print [Helper InvalidSets] v)
      end
  | Reps exercise body_part sets =>
      match positive_number line with
      | Some reps => Waiting (Weight exercise body_part sets reps) v
      | None => Waiting (Reps exercise body_part sets) (print [Helper InvalidReps] v)
      end
  | Weight exercise body_part sets reps =>
      Waiting (Notes exercise body_part sets reps (PyStr.strip line)) v
  | Notes exercise body_part sets reps weight =>
      log_entry now exercise body_part sets reps weight (PyStr.strip line) v
  | Rest =>
      let rest := PyStr.lower (PyStr.strip line) in
      let timer :=
        if negb (String.eqb rest "n") && negb (String.eqb rest "")
        then match PyInt.of_string rest with
             | Some seconds => [RestTimer seconds]
             | None => [RestTimer 90]
             end
        else [] in
      exercise_menu
        {| files := files v; muscles := muscles v;
           template_exercises := template_exercises v; available := available v;
           session_workouts := session_workouts v;
           exercise_count := exercise_count v + 1;
           printed := printed v ++ timer |}
  | SaveAs =>
      if String.eqb (PyStr.lower line) "y" then Waiting TemplateName v
      else Returned v
  | TemplateName =>
      match PyStr.strip line with
      | EmptyString => Returned v
      | name =>
          let exercises_for_template :=
            List.map (fun w => (w_exercise w, w_body_part w)) (session_workouts v) in
          match save_template (files v) now name (muscles v) exercises_for_template with
          | Ok d => Returned (print [TemplateSaved name] (with_files d v))
          | Raise e =>
              if is_ValueError e then Waiting Choice (print [PleaseEnterNumber] v)
              else Crashed e v
          end
      end
  end.

(** The session fed with the lines typed, each with the clock reading at
    the time. *)
Fixpoint run (m : machine) (typed : list (PyDate.datetime * string)) : machine :=
  match m, typed with
  | Waiting p v, (now, line) :: rest => run (step now p v line) rest
  | _, _ => m
  end.

End Session.

(* ================================================================== *)
(** * Meals *)
(* ================================================================== *)

Module Meals.

Import PyFloat Catalog Persist.

(** [int(x)] for a float: truncation toward zero; [OverflowError] for an
    infinity and [ValueError] for a NaN. *)
Definition int_of_float (x : float) : res Z :=
  match x with
  | S754_zero _ => Ok 0
  | S754_infinity _ => Raise OverflowError
  | S754_nan => Raise ValueError
  | S754_finite s m e =>
      let v := if 0 <=? e then Zpos m * 2 ^ e else Zpos m / 2 ^ (- e) in
      Ok (if s then - v else v)
  end.

(** [x * n] for an integer [n]: an [n] too large for a float is an
    [OverflowError]. *)
Definition mul_by_int (x : float) (n : Z) : res float :=
  match of_Z n with
  | S754_infinity _ => Raise OverflowError
  | f => Ok (mul x f)
  end.

(** [int((grams / 100) * calories_per_100g)] *)
Definition meal_calories (grams : float) (calories_per_100g : Z) : res Z :=
  product <- mul_by_int (div grams (of_Z 100)) calories_per_100g ;;
  int_of_float product.

(** One [print] of [log_meal]. *)
Inductive event : Type :=
| MealBanner
| FoodDatabase (foods : list (bool * string * Z))
| InvalidNumber
| CustomSaved (food : string)
| InvalidCalories
| Added (food : string) (grams : float) (calories : Z)
| InvalidAmount
| MealLogged (total : Z).

Inductive phase : Type :=
| Food
| Calories (food_name : string)
| Grams (food_name : string) (calories_per_100g : Z).

Record vars : Type := {
  files : disk;
  all_foods : dict Z;
  foods : list string;
  meals_today : list meal;
  new_custom_foods : dict Z;
  printed : list event
}.

Inductive machine : Type :=
| Waiting (p : phase) (v : vars)
| Returned (v : vars)
| Crashed (e : exn) (v : vars).

Definition print (es : list event) (v : vars) : vars :=
  {| files := files v; all_foods := all_foods v; foods := foods v;
     meals_today := meals_today v; new_custom_foods := new_custom_foods v;
     printed := printed v ++ es |}.

Definition with_files (d : disk) (v : vars) : vars :=
  {| files := d; all_foods := all_foods v; foods := foods v;
     meals_today := meals_today v; new_custom_foods := new_custom_foods v;
     printed := printed v |}.

(** [log_meal] up to its first [input()]. *)
Definition log_meal (d : disk) : machine :=
  let v0 := {| files := d; all_foods := []; foods := []; meals_today := [];
               new_custom_foods := []; printed := [MealBanner] |} in
  match load_dict_data (CUSTOM_FOODS_FILE d) with
  | Raise e => Crashed e v0
  | Ok custom_foods =>
      let all := PyDict.update CALORIE_DATABASE custom_foods in
      Waiting Food
        {| files := d; all_foods := all; foods := PyDict.keys all;
           meals_today := []; new_custom_foods := [];
           printed :=
             [MealBanner;
              FoodDatabase
                (List.map (fun kv => (PyDict.mem (fst kv) custom_foods, fst kv, snd kv))
                   all)] |}
  end.

(** After the loop: the new foods, then the meals, are written. *)
Definition finish (v : vars) : machine :=
  let saved_foods :=
    match new_custom_foods v with
    | [] => Ok v
    | _ =>
        existing_custom <- load_dict_data (CUSTOM_FOODS_FILE (files v)) ;;
        Ok (with_files
              (save_custom_foods (PyDict.update existing_custom (new_custom_foods v))
                 (files v)) v)
    end in
  match saved_foods with
  | Raise e => Crashed e v
  | Ok v1 =>
      match meals_today v1 with
      | [] => Returned v1
      | _ =>
          match load_data (MEALS_FILE (files v1)) with
          | Raise e => Crashed e v1
          | Ok meals =>
              let total := fold_left Z.add (List.map m_calories (meals_today v1)) 0 in
              Returned
                (print [MealLogged total]
                   (with_files (save_meals (meals ++ meals_today v1) (files v1)) v1))
          end
      end
  end.

Definition step (now : PyDate.datetime) (p : phase) (v : vars) (line : string)
  : machine :=
  match p with
  | Food =>
      let entry := PyStr.lower (PyStr.strip line) in
      if String.eqb entry "done" then finish v
      else
        match PyInt.of_string entry with
        | Some n =>
            let idx := n - 1 in
            if (0 <=? idx) && (idx <? Z.of_nat (List.length (foods v))) then
              match nth_error (foods v) (Z.to_nat idx) with
              | Some food_name =>
                  match PyDict.get food_name (all_foods v) with
                  | Some c => Waiting (Grams food_name c) v
                  | None => Waiting Food v
                  end
              | None => Waiting Food v
              end
            else Waiting Food (print [InvalidNumber] v)
        | None =>
            match PyDict.get entry (all_foods v) with
            | Some c => Waiting (Grams entry c) v
            | None => Waiting (Calories entry) v
            end
        end
  | Calories food_name =>
      match PyInt.of_string line with
      | None => Waiting Food (print [InvalidCalories] v)
      | Some c =>
          Waiting (Grams food_name c)
            {| files := files v;
               all_foods := PyDict.set food_name c (all_foods v);
               foods := foods v ++ [food_name];
               meals_today := meals_today v;
               new_custom_foods := PyDict.set food_name c (new_custom_foods v);
               printed := printed v ++ [CustomSaved food_name] |}
      end
  | Grams food_name calories_per_100g =>
      match of_string line with
      | None => Waiting Food (print [InvalidAmount] v)
      | Some grams =>
          match meal_calories grams calories_per_100g with
          | Ok calories =>
              let meal := {| m_date := PyDate.strftime_Ymd now;
                             m_time := strftime_HM now;
                             m_food := food_name; m_grams := grams;
                             m_calories := calories |} in
              Waiting Food
                {| files := files v; all_foods := all_foods v; foods := foods v;
                   meals_today := meals_today v ++ [meal];
                   new_custom_foods := new_custom_foods v;
                   printed := printed v ++ [Added food_name grams calories] |}
          | Raise e =>
              if is_ValueError e then Waiting Food (print [InvalidAmount] v)
              else Crashed e v
          end
      end
  end.

Fixpoint run (m : machine) (typed : list (PyDate.datetime * string)) : machine :=
  match m, typed with
  | Waiting p v, (now, line) :: rest => run (step now p v line) rest
  | _, _ => m
  end.

(** One [print] of [view_calories]. *)
Inductive line : Type :=
| CaloriesBanner
| NoMealsToday
| MealsOn (today : string)
| MealLine (m : meal)
| TotalRule
| Total (total : Z)
| Remaining (calories : Z)
| GoalReached (over : Z).

(** [view_calories]: the lines printed by a call that returns. *)
Definition view_calories (d : disk) (now : PyDate.datetime) : res (list line) :=
  meals <- load_data (MEALS_FILE d) ;;
  let today := PyDate.strftime_Ymd now in
  let today_meals := filter (fun m => String.eqb (m_date m) today) meals in
  match today_meals with
  | [] => Ok [CaloriesBanner; NoMealsToday]
  | _ =>
      let total := fold_left (fun total m => total + m_calories m) today_meals 0 in
      let goal := 2000 in
      let remaining := goal - total in
      Ok ([CaloriesBanner; MealsOn today] ++ List.map MealLine today_meals
          ++ [TotalRule; Total total;
              if 0 <? remaining then Remaining remaining
              else GoalReached (- remaining)])
  end.

End Meals.

(* ================================================================== *)
(** * History, progress and templates views *)
(* ================================================================== *)

Module Views.

Import PyFloat PyList Catalog Dialogue.

(** One [print] of the three views. *)
Inductive line : Type :=
| HistoryBanner
| ProgressBanner
| TemplatesBanner
| NoWorkoutsYet
| ViewOptions
| SelectBodyPart (parts : list string)
| PartHeader (body_part : string)
| AllHeader
| NoMatching
| EntryHead (w : workout)
| EntryBody (w : workout)
| NoWeighted
| RecordsHeader
| RecordLine (exercise : string) (best : Chart.record)
| SelectChart (exercises : list string)
| ChartLine (l : Chart.line)
| NoTemplates
| TemplateList (templates : dict template).

(** The entries shown: the last ten, latest first, two prints each. *)
Definition show_entries (workouts : list workout) : list line :=
  flat_map (fun w => [EntryHead w; EntryBody w]) (rev (last_n 10 workouts)).

(** [view_workout_history] *)
Definition view_workout_history (d : disk) (inputs : list string)
  : res (outcome unit line) :=
  workouts <- load_data (WORKOUT_FILE d) ;;
  match workouts with
  | [] => Ok (Returns tt [HistoryBanner; NoWorkoutsYet] inputs)
  | _ =>
      let out := [HistoryBanner; ViewOptions] in
      match inputs with
      | [] => Ok (Blocked out)
      | line1 :: rest1 =>
          let finish (workouts : list workout) (out : list line) (rest : list string) :=
            match workouts with
            | [] => Ok (Returns tt (out ++ [NoMatching]) rest)
            | _ => Ok (Returns tt (out ++ show_entries workouts) rest)
            end in
          if String.eqb (PyStr.strip line1) "2" then
            let parts := PyDict.keys BODY_PARTS in
            let out := out ++ [SelectBodyPart parts] in
            match rest1 with
            | [] => Ok (Blocked out)
            | line2 :: rest2 =>
                match PyInt.of_string line2 with
                | None => finish workouts (out ++ [AllHeader]) rest2
                | Some n =>
                    let idx := n - 1 in
                    if (0 <=? idx) && (idx <? Z.of_nat (List.length parts)) then
                      match nth_error parts (Z.to_nat idx) with
                      | Some body_part =>
                          finish
                            (filter (fun w => String.eqb (w_body_part w) body_part)
                               workouts)
                            (out ++ [PartHeader body_part]) rest2
                      | None => finish workouts out rest2
                      end
                    else finish workouts out rest2
                end
            end
          else finish workouts (out ++ [AllHeader]) rest1
      end
  end.

(** [exercises_with_weights[ex].append(rec)], the key created on first
    use. *)
Fixpoint add_record (ex : string) (r : Chart.record) (groups : dict (list Chart.record))
  : dict (list Chart.record) :=
  match groups with
  | [] => [(ex, [r])]
  | (k, rs) :: rest =>
      if String.eqb k ex then (k, rs ++ [r]) :: rest
      else (k, rs) :: add_record ex r rest
  end.

(** The first loop of [view_progress]: the entries with a weight that
    parses to a non-zero value, by exercise name. *)
Definition exercises_with_weights (workouts : list workout)
  : dict (list Chart.record) :=
  fold_left
    (fun groups w =>
       match PR.parse_weight (PR.get_weight w "") with
       | Some weight =>
           if truthy weight
           then add_record (w_exercise w)
                  {| Chart.r_weight := weight; Chart.r_date := w_date w;
                     Chart.r_sets := w_sets w; Chart.r_reps := w_reps w |}
                  groups
           else groups
       | None => groups
       end)
    workouts [].

(** [max(records, key=lambda x: x["weight"])] on a non-empty list. *)
Definition best_record (first : Chart.record) (rest : list Chart.record)
  : Chart.record :=
  fold_left
    (fun best r => if gtb (Chart.r_weight r) (Chart.r_weight best) then r else best)
    rest first.

Definition record_lines (groups : dict (list Chart.record)) : list line :=
  flat_map
    (fun g =>
       match snd g with
       | first :: rest => [RecordLine (fst g) (best_record first rest)]
       | [] => []
       end)
    (sorted_by String.ltb (fun g : string * list Chart.record => fst g) groups).

(** [view_progress] *)
Definition view_progress (d : disk) (inputs : list string)
  : res (outcome unit line) :=
  workouts <- load_data (WORKOUT_FILE d) ;;
  match workouts with
  | [] => Ok (Returns tt [ProgressBanner; NoWorkoutsYet] inputs)
  | _ =>
      let groups := exercises_with_weights workouts in
      match groups with
      | [] => Ok (Returns tt [ProgressBanner; NoWeighted] inputs)
      | _ =>
          let exercises := PyDict.keys groups in
          let out := [ProgressBanner; RecordsHeader] ++ record_lines groups
                     ++ [SelectChart exercises] in
          match inputs with
          | [] => Ok (Blocked out)
          | line1 :: rest =>
              match PyInt.of_string line1 with
              | None => Ok (Returns tt out rest)
              | Some choice =>
                  if (1 <=? choice) && (choice <=? Z.of_nat (List.length exercises))
                  then
                    match nth_error exercises (Z.to_nat (choice - 1)) with
                    | Some exercise =>
                        match PyDict.get exercise groups with
                        | Some records =>
                            Ok (Returns tt
                                  (out ++ List.map ChartLine
                                            (Chart.show_progress_chart exercise records))
                                  rest)
                        | None => Ok (Returns tt out rest)
                        end
                    | None => Ok (Returns tt out rest)
                    end
                  else Ok (Returns tt out rest)
              end
          end
      end
  end.

(** [use_template] *)
Definition use_template (d : disk) (inputs : list string)
  : res (outcome (option template) line) :=
  templates <- load_templates d ;;
  match templates with
  | [] => Ok (Returns None [TemplatesBanner; NoTemplates] inputs)
  | _ =>
      let template_names := PyDict.keys templates in
      let out := [TemplatesBanner; TemplateList templates] in
      match inputs with
      | [] => Ok (Blocked out)
      | line1 :: rest =>
          match PyInt.of_string line1 with
          | None => Ok (Returns None out rest)
          | Some choice =>
              if (1 <=? choice) && (choice <=? Z.of_nat (List.length template_names))
              then
                match nth_error template_names (Z.to_nat (choice - 1)) with
                | Some name => Ok (Returns (PyDict.get name templates) out rest)
                | None => Ok (Returns None out rest)
                end
              else Ok (Returns None out rest)
          end
      end
  end.

End Views.

(* ================================================================== *)
(** * Specification-level notions *)
(* ================================================================== *)

Module Spec.

Import PyFloat PR.

(** The parsed weight of a stored entry, as the scan reads it. *)
Definition entry_weight (w : workout) : option float :=
  parse_weight (get_weight w "").

(** State of the scan after the entries [seen]. *)
Inductive scanned (seen : list workout) : option workout * float -> Prop :=
| scanned_none :
    (forall w v, In w seen -> entry_weight w = Some v -> gtb v (of_Z 0) = false) ->
    scanned seen (None, of_Z 0)
| scanned_best b bw :
    In b seen ->
    entry_weight b = Some bw ->
    gtb bw (of_Z 0) = true ->
    (forall w v, In w seen -> entry_weight w = Some v -> gtb v bw = false) ->
    scanned seen (Some b, bw).

(** Parsing a number out of a text, surrounding whitespace ignored. *)
Definition float_of_text (text : string) : option float :=
  of_string (PyStr.strip text).

(** The weight parser as the specification words it: trim and lowercase;
    with "kg" inside, remove it and parse the rest; else with "lb" inside
    ("lb" or "lbs"), remove it, parse the rest and multiply by 0.453592;
    else parse the text as it is.  No value when parsing fails or when
    there is no input. *)
Definition parse_weight_spec (input : option string) : option float :=
  match input with
  | None => None
  | Some text =>
      let normalized := PyStr.lower (PyStr.strip text) in
      if PyStr.contains "kg" normalized then
        float_of_text (PyStr.replace "kg" "" normalized)
      else if PyStr.contains "lb" normalized then
        match float_of_text
                (PyStr.replace "lb" "" (PyStr.replace "lbs" "" normalized)) with
        | Some pounds => Some (mul pounds (of_decimal false 453592 (-6)))
        | None => None
        end
      else float_of_text normalized
  end.

(** The distinct day numbers, most recent first. *)
Definition distinct_desc (days : list Z) : list Z :=
  PyList.sorted_by (fun a b => b <? a) (fun d => d) (nodup Z.eq_dec days).

(** Number of entries of a descending list up to and including the first
    one whose gap to the next is not exactly one day. *)
Fixpoint run_length (ds : list Z) : Z :=
  match ds with
  | [] => 0
  | a :: rest =>
      match rest with
      | b :: _ => if a - b =? 1 then 1 + run_length rest else 1
      | [] => 1
      end
  end.

(** The streak as the specification words it, on day numbers: 0 unless the
    most recent distinct date is today or yesterday, else the length of the
    leading run of consecutive days. *)
Definition current_streak_spec (today : Z) (days : list Z) : Z :=
  match distinct_desc days with
  | [] => 0
  | (recent :: _) as ds =>
      if (recent =? today) || (recent =? today - 1) then run_length ds else 0
  end.

(** The entries [workouts] were logged on the calendar days [dates]. *)
Definition logged_on (workouts : list workout) (dates : list PyDate.datetime) : Prop :=
  Forall2 (fun w d => PyDate.valid d = true /\
                      Weekly.date_part w = PyDate.strftime_Ymd d)
    workouts dates.

Definition all_valid (l : list PyDate.datetime) : Prop :=
  Forall (fun d => PyDate.valid d = true) l.

(** New Year's Day of the year 1000. *)
Definition year_1000 : PyDate.datetime :=
  {| PyDate.year := 1000; PyDate.month := 1; PyDate.day := 1;
     PyDate.hour := 0; PyDate.minute := 0 |}.

(** A clock reading from which [n] days can be taken off without leaving
    the years of four digits. *)
Definition clock_ok (now : PyDate.datetime) (n : nat) : Prop :=
  PyDate.valid now = true /\
  PyDate.toordinal year_1000 + Z.of_nat n <= PyDate.toordinal now.

(** The calendar day [n] days before [now]. *)
Definition days_ago (now : PyDate.datetime) (n : nat) : PyDate.datetime :=
  Nat.iter n PyDate.prev_day now.

(** Most recent first, without repetition. *)
Definition descending (ds : list Z) : Prop :=
  StronglySorted (fun a b => b < a) ds.

(** The date order, field by field. *)
Definition compare_ymd (a b : PyDate.datetime) : comparison :=
  match PyDate.year a ?= PyDate.year b with
  | Eq => match PyDate.month a ?= PyDate.month b with
          | Eq => PyDate.day a ?= PyDate.day b
          | c => c
          end
  | c => c
  end.

(** A series of records in chronological order of their date text. *)
Fixpoint chronological (l : list Chart.record) : bool :=
  match l with
  | a :: ((b :: _) as r) =>
      String.leb (Chart.r_date a) (Chart.r_date b) && chronological r
  | _ => true
  end.

End Spec.

Import Spec.

(* ================================================================== *)
(** * Sample data *)
(* ================================================================== *)

Module Sample.

(** A logged set of [exercise] at [weight]. *)
Definition entry (exercise weight : string) : workout :=
  {| w_date := "2024-03-01 18:30"; w_body_part := "legs";
     w_exercise := exercise; w_sets := 3; w_reps := 5;
     w_weight := Some weight; w_notes := ""; w_session_muscles := ["legs"] |}.

(** A data directory whose workout file holds [h]. *)
Definition disk_of (h : list workout) : disk :=
  {| WORKOUT_FILE := Stored h; MEALS_FILE := Missing;
     CUSTOM_FOODS_FILE := Missing; TEMPLATES_FILE := Missing |}.

(** The data directory before anything was saved. *)
Definition first_run : disk :=
  {| WORKOUT_FILE := Missing; MEALS_FILE := Missing;
     CUSTOM_FOODS_FILE := Missing; TEMPLATES_FILE := Missing |}.

(** A record of [w] kilograms logged at [date]. *)
Definition point (w : Z) (date : string) : Chart.record :=
  {| Chart.r_weight := PyFloat.of_Z w; Chart.r_date := date;
     Chart.r_sets := 3; Chart.r_reps := 5 |}.

(** Eleven sessions, one kilogram more each day. *)
Definition ramp : list Chart.record :=
  [point 1 "2024-01-01 18:30"; point 2 "2024-01-02 18:30";
   point 3 "2024-01-03 18:30"; point 4 "2024-01-04 18:30";
   point 5 "2024-01-05 18:30"; point 6 "2024-01-06 18:30";
   point 7 "2024-01-07 18:30"; point 8 "2024-01-08 18:30";
   point 9 "2024-01-09 18:30"; point 10 "2024-01-10 18:30";
   point 11 "2024-01-11 18:30"].

(** A meal of [calories] eaten on [date]. *)
Definition dish (date food : string) (calories : Z) : meal :=
  {| m_date := date; m_time := "12:30"; m_food := food;
     m_grams := PyFloat.of_Z 250; m_calories := calories |}.

(** Four meals on three days of one week: 2100 calories. *)
Definition week_of_meals : list meal :=
  [dish "2024-02-27" "rice" 500; dish "2024-02-28" "eggs" 400;
   dish "2024-02-28" "rice" 500; dish "2024-03-01" "pasta" 700].

(** The calories [log_meal] records for 1e308 grams of chicken breast
    (165 calories per 100 g). *)
Definition banquet_calories : Z :=
  Eval vm_compute in
    match PyFloat.of_string "1e308" with
    | Some grams =>
        match Meals.meal_calories grams 165 with
        | Ok calories => calories
        | Raise _ => 0
        end
    | None => 0
    end.

(** Two such meals on one day. *)
Definition banquets : list meal :=
  [dish "2024-03-01" "chicken breast" banquet_calories;
   dish "2024-03-01" "chicken breast" banquet_calories].

(** A data directory whose meals file holds [banquets]. *)
Definition banquet_week : disk :=
  {| WORKOUT_FILE := Missing; MEALS_FILE := Stored banquets;
     CUSTOM_FOODS_FILE := Missing; TEMPLATES_FILE := Missing |}.

(** The clock reads 1 March 2024, 09:30. *)
Definition march_1st : PyDate.datetime :=
  {| PyDate.year := 2024; PyDate.month := 3; PyDate.day := 1;
     PyDate.hour := 9; PyDate.minute := 30 |}.

(** A data directory whose workout file is not JSON. *)
Definition damaged : disk :=
  {| WORKOUT_FILE := Corrupt "[{"; MEALS_FILE := Missing;
     CUSTOM_FOODS_FILE := Missing; TEMPLATES_FILE := Corrupt "" |}.

(** A set of Squat logged at the date and time [stamp]. *)
Definition session (stamp : string) : workout :=
  {| w_date := stamp; w_body_part := "legs";
     w_exercise := "Squat"; w_sets := 3; w_reps := 5;
     w_weight := Some "100kg"; w_notes := ""; w_session_muscles := ["legs"] |}.

Definition on_day (y m d : Z) : PyDate.datetime :=
  {| PyDate.year := y; PyDate.month := m; PyDate.day := d;
     PyDate.hour := 18; PyDate.minute := 30 |}.

End Sample.

(* ================================================================== *)
(** * Further specification-level notions *)
(* ================================================================== *)

Module Notions.

Import PyFloat PR.

(** State of the scan after [seen], keeping where the best entry stands:
    no entry before it reaches its weight. *)
Inductive scanned_first (seen : list workout) : option workout * float -> Prop :=
| scanned_first_none :
    (forall w v, In w seen -> entry_weight w = Some v -> gtb v (of_Z 0) = false) ->
    scanned_first seen (None, of_Z 0)
| scanned_first_best b bw before after :
    seen = before ++ b :: after ->
    entry_weight b = Some bw ->
    gtb bw (of_Z 0) = true ->
    (forall w v, In w seen -> entry_weight w = Some v -> gtb v bw = false) ->
    (forall w v, In w before -> entry_weight w = Some v -> geb v bw = false) ->
    scanned_first seen (Some b, bw).

(** Strictly earlier by date text, the order [show_progress_chart] sorts by. *)
Definition earlier (a b : Chart.record) : Prop :=
  String.ltb (Chart.r_date a) (Chart.r_date b) = true.

(** How often [k] occurs in [l]. *)
Definition occurrences (k : string) (l : list string) : Z :=
  Z.of_nat (count_occ string_dec l k).

(** The body-part bars of a weekly summary, top to bottom. *)
Definition body_part_bars (lines : list Weekly.line) : list (string * Z) :=
  flat_map (fun l => match l with
                     | Weekly.BodyPartBar bp count => [(bp, count)]
                     | _ => []
                     end) lines.

(** The top-food lines of a weekly summary, top to bottom. *)
Definition top_food_lines (lines : list Weekly.line) : list (string * Z) :=
  flat_map (fun l => match l with
                     | Weekly.TopFood food count => [(food, count)]
                     | _ => []
                     end) lines.

(** Counts in non-increasing order. *)
Definition by_falling_count (l : list (string * Z)) : Prop :=
  StronglySorted (fun a b => snd b <= snd a) l.

(** The count stored for [k], 0 when [k] is not a key. *)
Fixpoint tally (k : string) (counts : dict Z) : Z :=
  match counts with
  | [] => 0
  | (k', n) :: r => (if String.eqb k' k then n else 0) + tally k r
  end.

(** The sum of the counts. *)
Definition total (counts : list (string * Z)) : Z :=
  fold_right (fun x s => snd x + s) 0 counts.

(** The variables of a session, wherever it stands. *)
Definition vars_of (m : Session.machine) : Session.vars :=
  match m with
  | Session.Waiting _ v | Session.Returned v | Session.Crashed _ v
  | Session.CrashedKeyError v => v
  end.

(** An entry as a session of [muscles] logs it. *)
Definition entry_ok (muscles : list string) (w : workout) : Prop :=
  0 < w_sets w /\ 0 < w_reps w /\ In (w_body_part w) muscles
  /\ w_session_muscles w = muscles.

(** What the session holds while it waits at [p]. *)
Definition phase_ok (v : Session.vars) (p : Session.phase) : Prop :=
  match p with
  | Session.Sets _ bp => In bp (Session.muscles v)
  | Session.Reps _ bp s => In bp (Session.muscles v) /\ 0 < s
  | Session.Weight _ bp s r | Session.Notes _ bp s r _ =>
      In bp (Session.muscles v) /\ 0 < s /\ 0 < r
  | _ => True
  end.

(** The muscles are chosen and their exercises listed. *)
Definition chosen (v : Session.vars) : Prop :=
  Session.muscles v <> []
  /\ Catalog.get_exercises_for_muscles (Session.muscles v)
     = Some (Session.available v).

(** One or two different body parts of the table, or none yet. *)
Definition menu_selection (muscles : list string) : Prop :=
  (List.length muscles <= 2)%nat /\ NoDup muscles
  /\ forall x, In x muscles -> In x (PyDict.keys Catalog.BODY_PARTS).

(** What holds of a session started with [template], wherever it stands. *)
Definition session_ok (template : option template) (m : Session.machine) : Prop :=
  Forall (entry_ok (Session.muscles (vars_of m)))
    (Session.session_workouts (vars_of m))
  /\ (template = None -> menu_selection (Session.muscles (vars_of m)))
  /\ match m with
     | Session.Waiting Session.PickMuscle v => template = None
     | Session.Waiting (Session.PickCombo selected) v =>
         template = None /\ In selected (PyDict.keys Catalog.BODY_PARTS)
     | Session.Waiting p v => phase_ok v p /\ chosen v
     | Session.Returned v => True
     | Session.Crashed _ v => chosen v
     | Session.CrashedKeyError v =>
         exists t, template = Some t
           /\ Catalog.get_exercises_for_muscles (t_muscles t) = None
     end.

(** Where a session stands on files that can be read: nothing is written
    before "Workout Done", then the workouts file holds the old entries
    [h] followed by the session's. *)
Definition clean_ok (d : disk) (h : list workout) (m : Session.machine) : Prop :=
  match m with
  | Session.Waiting Session.SaveAs v | Session.Waiting Session.TemplateName v =>
      Session.session_workouts v <> []
      /\ Session.files v
         = Persist.save_workouts (h ++ Session.session_workouts v) d
  | Session.Waiting _ v => Session.files v = d
  | Session.Returned v =>
      (Session.session_workouts v = [] /\ Session.files v = d)
      \/ (Session.session_workouts v <> []
          /\ WORKOUT_FILE (Session.files v)
             = Stored (h ++ Session.session_workouts v)
          /\ MEALS_FILE (Session.files v) = MEALS_FILE d
          /\ CUSTOM_FOODS_FILE (Session.files v) = CUSTOM_FOODS_FILE d)
  | Session.Crashed _ _ => False
  | Session.CrashedKeyError v => Session.files v = d
  end.

(** Where a session stands when the workouts file cannot be read:
    nothing is written, and it returns with no entry only. *)
Definition stuck_ok (d : disk) (m : Session.machine) : Prop :=
  Session.files (vars_of m) = d
  /\ match m with
     | Session.Waiting Session.SaveAs _ | Session.Waiting Session.TemplateName _ =>
         False
     | Session.Returned v => Session.session_workouts v = []
     | _ => True
     end.

(** The variables of a meal log, wherever it stands. *)
Definition meal_vars_of (m : Meals.machine) : Meals.vars :=
  match m with
  | Meals.Waiting _ v | Meals.Returned v | Meals.Crashed _ v => v
  end.

(** A meal as [log_meal] records it from the food table [all_foods]: its
    calories are those of its grams of its food. *)
Definition meal_ok (all_foods : dict Z) (m : meal) : Prop :=
  exists c, PyDict.get (m_food m) all_foods = Some c
            /\ Meals.meal_calories (m_grams m) c = Ok (m_calories m).

(** What holds of a meal log started on the files [d]. *)
Definition meals_ok (d : disk) (m : Meals.machine) : Prop :=
  Forall (meal_ok (Meals.all_foods (meal_vars_of m)))
    (Meals.meals_today (meal_vars_of m))
  /\ Meals.foods (meal_vars_of m) = PyDict.keys (Meals.all_foods (meal_vars_of m))
  /\ match m with
     | Meals.Waiting p v =>
         Meals.files v = d
         /\ (exists custom, load_dict_data (CUSTOM_FOODS_FILE d) = Ok custom)
         /\ match p with
            | Meals.Food => True
            | Meals.Calories name => PyDict.get name (Meals.all_foods v) = None
            | Meals.Grams name c => PyDict.get name (Meals.all_foods v) = Some c
            end
     | Meals.Returned v =>
         WORKOUT_FILE (Meals.files v) = WORKOUT_FILE d
         /\ TEMPLATES_FILE (Meals.files v) = TEMPLATES_FILE d
         /\ (exists custom,
               load_dict_data (CUSTOM_FOODS_FILE d) = Ok custom
               /\ load_dict_data (CUSTOM_FOODS_FILE (Meals.files v))
                  = Ok (PyDict.update custom (Meals.new_custom_foods v)))
         /\ ((Meals.meals_today v = []
              /\ MEALS_FILE (Meals.files v) = MEALS_FILE d)
             \/ exists old,
                  load_data (MEALS_FILE d) = Ok old
                  /\ MEALS_FILE (Meals.files v)
                     = Stored (old ++ Meals.meals_today v))
     | Meals.Crashed _ v =>
         WORKOUT_FILE (Meals.files v) = WORKOUT_FILE d
         /\ MEALS_FILE (Meals.files v) = MEALS_FILE d
         /\ TEMPLATES_FILE (Meals.files v) = TEMPLATES_FILE d
     end.

(** The foods a meal log announced as saved to the custom foods, in the
    order of the announcements. *)
Definition announced_foods (out : list Meals.event) : list string :=
  flat_map (fun e => match e with
                     | Meals.CustomSaved food => [food]
                     | _ => []
                     end) out.

(** The meals a meal log announced as added: food, grams and calories. *)
Definition announced_meals (out : list Meals.event)
  : list (string * PyFloat.float * Z) :=
  flat_map (fun e => match e with
                     | Meals.Added food grams calories => [(food, grams, calories)]
                     | _ => []
                     end) out.

(** What the announcement of a meal tells of it. *)
Definition meal_told (m : meal) : string * PyFloat.float * Z :=
  (m_food m, m_grams m, m_calories m).

(** What a meal log that loaded the custom foods [custom] has announced,
    against what it holds: the foods announced are the new custom foods,
    each new to the food table it started with, and the food table is that
    table with the new foods on top. *)
Definition meals_told (custom : dict Z) (m : Meals.machine) : Prop :=
  let v := meal_vars_of m in
  let table := PyDict.update Catalog.CALORIE_DATABASE custom in
  announced_foods (Meals.printed v) = PyDict.keys (Meals.new_custom_foods v)
  /\ announced_meals (Meals.printed v) = List.map meal_told (Meals.meals_today v)
  /\ NoDup (PyDict.keys (Meals.new_custom_foods v))
  /\ (forall k, In k (PyDict.keys (Meals.new_custom_foods v)) ->
        PyDict.get k table = None)
  /\ (forall k, PyDict.get k (Meals.all_foods v)
                = match PyDict.get k (Meals.new_custom_foods v) with
                  | Some c => Some c
                  | None => PyDict.get k table
                  end).

(** The calories of the meals of [meals] dated [day]. *)
Definition eaten_on (day : string) (meals : list meal) : Z :=
  fold_left Z.add
    (List.map m_calories (filter (fun m => String.eqb (m_date m) day) meals)) 0.

(** The record [view_progress] keeps of an entry: none unless its weight
    parses to a non-zero value. *)
Definition weighted (w : workout) : list Chart.record :=
  match PR.parse_weight (PR.get_weight w "") with
  | Some weight =>
      if PyFloat.truthy weight
      then [{| Chart.r_weight := weight; Chart.r_date := w_date w;
               Chart.r_sets := w_sets w; Chart.r_reps := w_reps w |}]
      else []
  | None => []
  end.

(** The records of the entries named exactly [ex], in file order. *)
Definition records_of (ex : string) (workouts : list workout)
  : list Chart.record :=
  flat_map (fun w => if String.eqb (w_exercise w) ex then weighted w else [])
    workouts.

(** The entries a history view shows, top to bottom. *)
Definition shown_entries (out : list Views.line) : list workout :=
  flat_map (fun l => match l with
                     | Views.EntryHead w => [w]
                     | _ => []
                     end) out.

(** The body part picked by the lines typed to [view_workout_history]:
    "2" for the filter, then the number of a body part of the table,
    counted from 1.  Any other answer picks none. *)
Definition typed_part (inputs : list string) : option string :=
  match inputs with
  | line1 :: line2 :: _ =>
      if String.eqb (PyStr.strip line1) "2" then
        match PyInt.of_string line2 with
        | Some n =>
            if (1 <=? n) && (n <=? 6)
            then nth_error (PyDict.keys Catalog.BODY_PARTS) (Z.to_nat (n - 1))
            else None
        | None => None
        end
      else None
  | _ => None
  end.

(** The entries of [workouts] that a history view is to choose from. *)
Definition selected_entries (part : option string) (workouts : list workout)
  : list workout :=
  match part with
  | Some body_part =>
      filter (fun w => String.eqb (w_body_part w) body_part) workouts
  | None => workouts
  end.

End Notions.

Import Notions.

(* ================================================================== *)
(** * Further sample data *)
(* ================================================================== *)

Module Examples.

Import Sample.

(** A set of [exercise] for [body_part], logged at [stamp]. *)
Definition lift (stamp body_part exercise weight : string) : workout :=
  {| w_date := stamp; w_body_part := body_part;
     w_exercise := exercise; w_sets := 3; w_reps := 5;
     w_weight := Some weight; w_notes := ""; w_session_muscles := [body_part] |}.

(** A week with two leg days and one chest day, and the meals of
    [week_of_meals] with two more. *)
Definition busy_week : disk :=
  {| WORKOUT_FILE :=
       Stored [lift "2024-02-20 18:30" "back" "Deadlift" "120kg";
               lift "2024-02-26 18:30" "legs" "Squat" "100kg";
               lift "2024-02-26 18:50" "chest" "Bench Press" "80kg";
               lift "2024-02-28 18:30" "legs" "Lunges" "40kg"];
     MEALS_FILE :=
       Stored (week_of_meals ++
               [dish "2024-03-01" "oatmeal" 300; dish "2024-03-01" "salmon" 400;
                dish "2024-03-01" "eggs" 200]);
     CUSTOM_FOODS_FILE := Missing; TEMPLATES_FILE := Missing |}.

(** What the weekly summary prints for [busy_week] on 1 March 2024. *)
Definition busy_week_summary : list Weekly.line :=
  Eval vm_compute in
    match Weekly.view_weekly_summary busy_week march_1st with
    | Ok lines => lines
    | Raise _ => []
    end.

(** A line typed on 1 March 2024 at 18:[minute]. *)
Definition typed_at (minute : Z) (line : string) : PyDate.datetime * string :=
  ({| PyDate.year := 2024; PyDate.month := 3; PyDate.day := 1;
      PyDate.hour := 18; PyDate.minute := minute |}, line).

(** Legs only, one set of squats (3 x 5 at 100kg), no rest timer. *)
Definition one_set : list (PyDate.datetime * string) :=
  [typed_at 0 "6"; typed_at 0 "6"; typed_at 1 "1"; typed_at 2 "3";
   typed_at 2 "five"; typed_at 3 " 100kg"; typed_at 3 ""; typed_at 4 "n"].

(** The same session, ended and saved as the template "Leg day". *)
Definition leg_day : list (PyDate.datetime * string) :=
  one_set ++ [typed_at 9 "7"; typed_at 9 "Y"; typed_at 10 " Leg day "].

(** A data directory whose templates file is not JSON. *)
Definition templates_damaged : disk :=
  {| WORKOUT_FILE := Missing; MEALS_FILE := Missing;
     CUSTOM_FOODS_FILE := Missing; TEMPLATES_FILE := Corrupt "{" |}.

(** The session after [one_set], on [templates_damaged]. *)
Definition after_one_set : Session.vars :=
  Eval vm_compute in
    vars_of (Session.run (Session.log_workout templates_damaged None) one_set).

(** A custom food, a food by number and one by name, then "done". *)
Definition lunch : list (PyDate.datetime * string) :=
  [typed_at 0 "Lentil Soup"; typed_at 0 "56"; typed_at 1 "350";
   typed_at 2 "13"; typed_at 2 "1.5e2"; typed_at 3 " Banana "; typed_at 3 "120";
   typed_at 4 "done"].

(** [lunch] logged on a first run. *)
Definition after_lunch : Meals.vars :=
  Eval vm_compute in meal_vars_of (Meals.run (Meals.log_meal Sample.first_run) lunch).

(** Custom foods: one new, one that overrides a built-in food. *)
Definition own_foods : disk :=
  {| WORKOUT_FILE := Missing; MEALS_FILE := Missing;
     CUSTOM_FOODS_FILE := Stored [("lentil soup", 56); ("rice", 111)];
     TEMPLATES_FILE := Missing |}.

(** Squats under two spellings, and a set without weight. *)
Definition mixed_spelling : disk :=
  {| WORKOUT_FILE :=
       Stored [lift "2024-02-20 18:30" "legs" "Squat" "100kg";
               lift "2024-02-22 18:30" "legs" "squat" "120kg";
               lift "2024-02-24 18:30" "legs" "Squat" "90kg";
               lift "2024-02-26 18:30" "core" "Plank" ""];
     MEALS_FILE := Missing; CUSTOM_FOODS_FILE := Missing;
     TEMPLATES_FILE := Missing |}.

(** What [view_progress] prints for [mixed_spelling] when the chart of
    the first exercise is asked for. *)
Definition mixed_spelling_progress : list Views.line :=
  Eval vm_compute in
    match Views.view_progress mixed_spelling ["1"] with
    | Ok (Dialogue.Returns _ out _) => out
    | _ => []
    end.

(** What [view_workout_history] prints for [busy_week] filtered by legs. *)
Definition legs_history : list Views.line :=
  Eval vm_compute in
    match Views.view_workout_history busy_week ["2"; "6"] with
    | Ok (Dialogue.Returns _ out _) => out
    | _ => []
    end.

End Examples.

(* ================================================================== *)
(** * Properties *)
(* ================================================================== *)

(** ** Order on floats *)

Section FloatOrder.

Import PyFloat.

Ltac cmp_cases :=
  repeat match goal with
    | |- context [Z.compare ?a ?b] => destruct (Z.compare_spec a b)
    | |- context [Pos.compare ?a ?b] => destruct (Pos.compare_spec a b)
    end.

Lemma ltb_irrefl (a : float) : ltb a a = false.
Proof.
  unfold ltb, SFltb, SFcompare.
  destruct a as [s|s| |s m e]; try destruct s; try reflexivity;
    change (Pos.compare_cont Eq m m) with (Pos.compare m m);
    rewrite Z.compare_refl, Pos.compare_refl; reflexivity.
Qed.

Lemma ltb_trans (a b c : float) :
  ltb a b = true -> ltb b c = true -> ltb a c = true.
Proof.
  unfold ltb, SFltb, SFcompare.
  destruct a as [sa|sa| |sa ma ea], b as [sb|sb| |sb mb eb],
           c as [sc|sc| |sc mc ec];
    try destruct sa; try destruct sb; try destruct sc;
    try reflexivity; try discriminate;
    repeat match goal with
      | |- context [Pos.compare_cont Eq ?x ?y] =>
          change (Pos.compare_cont Eq x y) with (Pos.compare x y)
      end;
    cmp_cases; simpl; try reflexivity; try discriminate; intros _ _; lia.
Qed.

(** No value lies strictly between: if nothing seen exceeds [m] and [z]
    exceeds [m], nothing seen exceeds [z]. *)
Lemma gtb_raise (y m z : float) :
  gtb y m = false -> gtb z m = true -> gtb y z = false.
Proof.
  unfold gtb. intros Hy Hz.
  destruct (ltb z y) eqn:E; [|reflexivity].
  rewrite (ltb_trans _ _ _ Hz E) in Hy. discriminate.
Qed.

Lemma ltb_lower (y m z : float) :
  ltb y m = false -> ltb z m = true -> ltb y z = false.
Proof.
  intros Hy Hz.
  destruct (ltb y z) eqn:E; [|reflexivity].
  rewrite (ltb_trans _ _ _ E Hz) in Hy. discriminate.
Qed.

Lemma gtb_zero_truthy (x : float) : gtb x (of_Z 0) = true -> truthy x = true.
Proof. destruct x as [s|s| |s m e]; try reflexivity; destruct s; discriminate. Qed.

End FloatOrder.

(** ** PR tracker *)

Section PRFacts.

Import PyFloat PR.

Lemma truthy_eqb (x : float) : truthy x = negb (eqb x (of_Z 0)).
Proof. destruct x as [s|s| |s m e]; try destruct s; reflexivity. Qed.

Lemma parse_weight_empty : parse_weight (Some "") = None.
Proof. reflexivity. Qed.

Lemma entry_weight_text (w : workout) (v : float) :
  entry_weight w = Some v -> exists t, w_weight w = Some t.
Proof.
  unfold entry_weight, get_weight.
  destruct (w_weight w) as [t|]; [eauto|].
  rewrite parse_weight_empty. discriminate.
Qed.

Lemma entry_weight_stored (w : workout) :
  parse_weight (w_weight w) = entry_weight w.
Proof.
  unfold entry_weight, get_weight. destruct (w_weight w); reflexivity.
Qed.

Lemma scanned_inv (seen : list workout) (best : option workout) (bw : float) :
  scanned seen (best, bw) ->
  gtb bw (of_Z 0) = true \/ bw = of_Z 0.
Proof. intros Hs. inversion Hs; subst; auto. Qed.

Lemma scanned_max (seen : list workout) (best : option workout) (bw : float) :
  scanned seen (best, bw) ->
  forall w v, In w seen -> entry_weight w = Some v -> gtb v bw = false.
Proof. intros Hs. inversion Hs; subst; auto. Qed.

Lemma scanned_keep (seen : list workout) (st : option workout * float)
    (w : workout) :
  scanned seen st ->
  (forall v, entry_weight w = Some v -> gtb v (snd st) = false) ->
  scanned (seen ++ [w]) st.
Proof.
  intros Hs Hw.
  assert (Hin : forall w' v, In w' (seen ++ [w]) -> entry_weight w' = Some v ->
                             gtb v (snd st) = false).
  { intros w' v Hin Ev. apply in_app_or in Hin.
    destruct Hin as [Hin|[->|[]]]; [|auto].
    destruct st. eapply scanned_max; eassumption. }
  inversion Hs as [Hnone Hst | b bw Hb Eb Hpos Hmax Hst]; subst st; simpl in *.
  - apply scanned_none. exact Hin.
  - apply scanned_best; auto. apply in_or_app. left. exact Hb.
Qed.

Lemma scanned_step (seen : list workout) (st : option workout * float) (w : workout) :
  scanned seen st -> scanned (seen ++ [w]) (pr_step st w).
Proof.
  intros Hs. unfold pr_step. destruct st as [best best_weight].
  fold (entry_weight w).
  destruct (entry_weight w) as [weight|] eqn:Ew.
  - destruct (gtb weight best_weight) eqn:Hgt.
    + assert (H0 : gtb weight (of_Z 0) = true).
      { destruct (scanned_inv _ _ _ Hs) as [Hp| ->]; [|exact Hgt].
        unfold gtb in *. eapply ltb_trans; eassumption. }
      rewrite (gtb_zero_truthy _ H0). simpl.
      apply scanned_best; auto.
      * apply in_or_app. right. left. reflexivity.
      * intros w' v Hin Ev. apply in_app_or in Hin. destruct Hin as [Hin|[->|[]]].
        -- eapply gtb_raise; [|exact Hgt]. eapply scanned_max; eassumption.
        -- rewrite Ew in Ev. injection Ev as <-. apply ltb_irrefl.
    + rewrite andb_false_r. apply scanned_keep; [exact Hs|].
      simpl. intros v Ev. rewrite Ew in Ev. injection Ev as <-. exact Hgt.
  - apply scanned_keep; [exact Hs|]. intros v Ev. rewrite Ew in Ev. discriminate.
Qed.

Lemma scanned_fold (l seen : list workout) (st : option workout * float) :
  scanned seen st -> scanned (seen ++ l) (fold_left pr_step l st).
Proof.
  revert seen st. induction l as [|w l IH]; intros seen st Hs; simpl.
  - rewrite app_nil_r. exact Hs.
  - replace (seen ++ w :: l) with ((seen ++ [w]) ++ l)
      by (rewrite <- app_assoc; reflexivity).
    apply IH. apply scanned_step. exact Hs.
Qed.

Lemma scanned_all (l : list workout) :
  scanned l (fold_left pr_step l (None, of_Z 0)).
Proof.
  apply (scanned_fold l []). apply scanned_none. intros w v [].
Qed.

(** What the scan of [l] ends with. *)
Lemma scan_result (l : list workout) :
  (fst (fold_left pr_step l (None, of_Z 0)) = None /\
   forall w v, In w l -> entry_weight w = Some v -> gtb v (of_Z 0) = false)
  \/
  (exists b bw,
      fst (fold_left pr_step l (None, of_Z 0)) = Some b /\
      In b l /\ entry_weight b = Some bw /\ gtb bw (of_Z 0) = true /\
      forall w v, In w l -> entry_weight w = Some v -> gtb v bw = false).
Proof.
  pose proof (scanned_all l) as Hs.
  destruct (fold_left pr_step l (None, of_Z 0)) as [best best_weight].
  inversion Hs as [Hnone | b bw Hb Eb Hpos Hmax]; subst.
  - left. split; [reflexivity|exact Hnone].
  - right. exists b, best_weight. repeat split; auto.
Qed.

(** [get_pr_for_exercise] on a readable history is the scan of the
    matching entries. *)
Lemma get_pr_stored (d : disk) (h : list workout) (exercise : string) :
  WORKOUT_FILE d = Stored h ->
  get_pr_for_exercise d exercise =
    Ok (fst (fold_left pr_step (filter (same_exercise exercise) h) (None, of_Z 0))).
Proof.
  intros E. unfold get_pr_for_exercise. rewrite E. simpl.
  destruct (filter (same_exercise exercise) h); reflexivity.
Qed.

Lemma get_pr_missing (d : disk) (exercise : string) :
  WORKOUT_FILE d = Missing -> get_pr_for_exercise d exercise = Ok None.
Proof. intros E. unfold get_pr_for_exercise. rewrite E. reflexivity. Qed.

Lemma get_pr_some_truthy (d : disk) (exercise : string) (b : workout) :
  get_pr_for_exercise d exercise = Ok (Some b) ->
  exists bw, entry_weight b = Some bw /\ truthy bw = true.
Proof.
  destruct (WORKOUT_FILE d) as [|raw|h] eqn:Ed.
  - rewrite (get_pr_missing d exercise Ed). discriminate.
  - unfold get_pr_for_exercise. rewrite Ed. discriminate.
  - rewrite (get_pr_stored d h exercise Ed).
    destruct (scan_result (filter (same_exercise exercise) h))
      as [[En _] | (b' & bw & Eb' & _ & Ew & Hpos & _)].
    + rewrite En. discriminate.
    + rewrite Eb'. intros E. injection E as <-.
      exists bw. split; [exact Ew|]. apply gtb_zero_truthy. exact Hpos.
Qed.

End PRFacts.

Section PRClaims.

Import PyFloat PR Sample.

Lemma check_pr_falsy (d : disk) (exercise new_weight : string) (nv : float) :
  parse_weight (Some new_weight) = Some nv ->
  truthy nv = false ->
  check_pr d exercise new_weight = Ok (false, None).
Proof. intros E T. unfold check_pr. rewrite E, T. reflexivity. Qed.

Lemma check_pr_unparsed (d : disk) (exercise new_weight : string) :
  parse_weight (Some new_weight) = None ->
  check_pr d exercise new_weight = Ok (false, None).
Proof. intros E. unfold check_pr. rewrite E. reflexivity. Qed.

Lemma filter_scan_in (exercise : string) (h : list workout) (w : workout) :
  In w (filter (same_exercise exercise) h) <->
  In w h /\ same_exercise exercise w = true.
Proof. apply filter_In. Qed.

(** C1 (amended).  When the stored history holds an entry for the exercise
    (names compared case-insensitively) whose weight parses to a value above
    zero, there is a prior-best entry [b] among the matching entries, with
    text [t] and parsed weight [bw] that no matching entry exceeds, such that
    [check_pr] returns [(True, t)] exactly when the new weight parses to a
    value strictly above [bw], and [(False, None)] for a tie, a lower, an
    empty or an unparseable new weight. *)
Theorem check_pr_against_prior_best
    (d : disk) (h : list workout) (exercise new_weight : string) :
  WORKOUT_FILE d = Stored h ->
  (exists w v, In w h /\ same_exercise exercise w = true /\
               entry_weight w = Some v /\ gtb v (of_Z 0) = true) ->
  exists b t bw,
    In b h /\ same_exercise exercise b = true /\
    w_weight b = Some t /\ parse_weight (Some t) = Some bw /\
    (forall w v, In w h -> same_exercise exercise w = true ->
                 entry_weight w = Some v -> gtb v bw = false) /\
    check_pr d exercise new_weight =
      Ok (match parse_weight (Some new_weight) with
          | Some nv => if gtb nv bw then (true, Some t) else (false, None)
          | None => (false, None)
          end).
Proof.
  intros Ed (w0 & v0 & Hin0 & Hm0 & Ew0 & Hpos0).
  pose proof (get_pr_stored d h exercise Ed) as Hg.
  destruct (scan_result (filter (same_exercise exercise) h))
    as [[_ Hnone] | (b & bw & Eb' & Hb & Eb & Hpos & Hmax)].
  - rewrite (Hnone w0 v0) in Hpos0; [discriminate| |exact Ew0].
    apply filter_scan_in. auto.
  - rewrite Eb' in Hg.
    apply filter_scan_in in Hb. destruct Hb as [Hbh Hbm].
    destruct (entry_weight_text b bw Eb) as [t Et].
    assert (Ebt : parse_weight (Some t) = Some bw).
    { rewrite <- Et, entry_weight_stored. exact Eb. }
    exists b, t, bw. repeat split; auto.
    + intros w v Hw Hm Ev. apply (Hmax w v); [|exact Ev].
      apply filter_scan_in. auto.
    + destruct (parse_weight (Some new_weight)) as [nv|] eqn:En;
        [|apply check_pr_unparsed; exact En].
      destruct (truthy nv) eqn:Tn.
      * unfold check_pr. rewrite En, Tn, Hg. simpl.
        fold (entry_weight b). rewrite Eb, (gtb_zero_truthy _ Hpos), Et. simpl.
        destruct (gtb nv bw); reflexivity.
      * rewrite (check_pr_falsy d exercise new_weight nv En Tn).
        destruct nv as [s|s| |s m e]; try discriminate.
        destruct bw as [sb|sb| |sb mb eb]; try destruct sb; try discriminate;
          reflexivity.
Qed.

(** The history of the worked example: one set of Squat at 100kg, and a
    new lift of 105kg. *)
Lemma check_pr_against_prior_best_witness :
  exists b t bw,
    In b [entry "Squat" "100kg"] /\ same_exercise "squat" b = true /\
    w_weight b = Some t /\ parse_weight (Some t) = Some bw /\
    (forall w v, In w [entry "Squat" "100kg"] -> same_exercise "squat" w = true ->
                 entry_weight w = Some v -> gtb v bw = false) /\
    check_pr (disk_of [entry "Squat" "100kg"]) "squat" "105kg" =
      Ok (match parse_weight (Some "105kg") with
          | Some nv => if gtb nv bw then (true, Some t) else (false, None)
          | None => (false, None)
          end).
Proof.
  apply (check_pr_against_prior_best (disk_of [entry "Squat" "100kg"])
           [entry "Squat" "100kg"] "squat" "105kg").
  - reflexivity.
  - exists (entry "Squat" "100kg"), (of_Z 100).
    split; [left; reflexivity|]. vm_compute. auto.
Defined.

(** The worked examples of PR detection. *)
Lemma check_pr_examples :
  check_pr (disk_of [entry "Squat" "100kg"]) "Squat" "105kg" = Ok (true, Some "100kg")
  /\ check_pr (disk_of [entry "Squat" "100kg"]) "Squat" "100kg" = Ok (false, None)
  /\ check_pr (disk_of [entry "Squat" "100kg"]) "Squat" "50kg" = Ok (false, None)
  /\ check_pr (disk_of []) "Deadlift" "60kg" = Ok (true, None)
  /\ check_pr first_run "Deadlift" "60kg" = Ok (true, None).
Proof. vm_compute. auto. Qed.

(** C1 as stated fails: a stored "0kg" is a parseable weight and the new
    5kg exceeds it, yet no previous value is reported; likewise for a
    stored "-5kg". *)
Lemma check_pr_zero_history_counterexample :
  entry_weight (entry "Squat" "0kg") = Some (of_Z 0)
  /\ (exists nv, parse_weight (Some "5kg") = Some nv /\ gtb nv (of_Z 0) = true)
  /\ check_pr (disk_of [entry "Squat" "0kg"]) "Squat" "5kg" = Ok (true, None)
  /\ check_pr (disk_of [entry "Squat" "0kg"]) "Squat" "5kg" <> Ok (true, Some "0kg")
  /\ entry_weight (entry "Squat" "-5kg") = Some (of_Z (-5))
  /\ check_pr (disk_of [entry "Squat" "-5kg"]) "Squat" "5kg" = Ok (true, None).
Proof.
  split; [reflexivity|]. split; [eexists; split; vm_compute; reflexivity|].
  split; [vm_compute; reflexivity|]. split; [vm_compute; discriminate|].
  split; vm_compute; reflexivity.
Qed.

(** C2 (amended).  When no stored entry for the exercise has a parseable
    weight (the empty history and the missing file included) and the new
    weight parses to a value other than zero, [check_pr] returns
    [(True, None)]. *)
Theorem check_pr_first_recorded_lift
    (d : disk) (h : list workout) (exercise new_weight : string) (nv : float) :
  WORKOUT_FILE d = Stored h \/ (WORKOUT_FILE d = Missing /\ h = []) ->
  (forall w, In w h -> same_exercise exercise w = true -> entry_weight w = None) ->
  parse_weight (Some new_weight) = Some nv ->
  eqb nv (of_Z 0) = false ->
  check_pr d exercise new_weight = Ok (true, None).
Proof.
  intros Ed Hnone En Hnz.
  assert (Tn : truthy nv = true) by (rewrite truthy_eqb, Hnz; reflexivity).
  unfold check_pr. rewrite En, Tn. simpl.
  destruct Ed as [Ed|[Ed _]].
  - rewrite (get_pr_stored d h exercise Ed).
    destruct (scan_result (filter (same_exercise exercise) h))
      as [[Eg _] | (b & bw & _ & Hb & Eb & _ & _)]; [rewrite Eg; reflexivity|].
    apply filter_scan_in in Hb. destruct Hb as [Hbh Hbm].
    rewrite (Hnone b Hbh Hbm) in Eb. discriminate.
  - rewrite (get_pr_missing d exercise Ed). reflexivity.
Qed.

Lemma check_pr_first_recorded_lift_witness :
  check_pr (disk_of []) "Deadlift" "60kg" = Ok (true, None).
Proof.
  apply (check_pr_first_recorded_lift (disk_of []) [] "Deadlift" "60kg" (of_Z 60)).
  - left. reflexivity.
  - intros w [].
  - vm_compute. reflexivity.
  - vm_compute. reflexivity.
Defined.

(** C2 as stated fails: on the empty history "0kg" parses to a value and
    is still not a record. *)
Lemma check_pr_zero_new_weight_counterexample :
  parse_weight (Some "0kg") = Some (of_Z 0)
  /\ check_pr (disk_of []) "Deadlift" "0kg" = Ok (false, None)
  /\ check_pr (disk_of []) "Deadlift" "0kg" <> Ok (true, None).
Proof.
  split; [reflexivity|]. split; [reflexivity|]. vm_compute. discriminate.
Qed.

(** C10.  A new weight that parses to zero ("0kg", "0") gives
    [(False, None)] whatever the data directory holds, and the entry
    [get_pr_for_exercise] selects never has a weight that parses to zero. *)
Theorem zero_weight_is_absent :
  (forall (d : disk) (exercise new_weight : string) (nv : float),
      parse_weight (Some new_weight) = Some nv ->
      eqb nv (of_Z 0) = true ->
      check_pr d exercise new_weight = Ok (false, None))
  /\ (forall (d : disk) (exercise : string) (b : workout),
        get_pr_for_exercise d exercise = Ok (Some b) ->
        exists bw, entry_weight b = Some bw /\ eqb bw (of_Z 0) = false)
  /\ parse_weight (Some "0kg") = Some (of_Z 0)
  /\ parse_weight (Some "0") = Some (of_Z 0).
Proof.
  split; [|split; [|split; reflexivity]].
  - intros d exercise new_weight nv En Hz.
    apply (check_pr_falsy d exercise new_weight nv En).
    rewrite truthy_eqb, Hz. reflexivity.
  - intros d exercise b Hg.
    destruct (get_pr_some_truthy d exercise b Hg) as [bw [Eb Tb]].
    exists bw. split; [exact Eb|].
    rewrite truthy_eqb in Tb. destruct (eqb bw (of_Z 0)); [discriminate|reflexivity].
Qed.

Lemma zero_weight_is_absent_witness :
  check_pr (disk_of [entry "Squat" "100kg"]) "Squat" "0kg" = Ok (false, None)
  /\ exists bw, entry_weight (entry "Squat" "100kg") = Some bw /\ eqb bw (of_Z 0) = false.
Proof.
  split.
  - apply (proj1 zero_weight_is_absent
             (disk_of [entry "Squat" "100kg"]) "Squat" "0kg" (of_Z 0));
      reflexivity.
  - apply (proj1 (proj2 zero_weight_is_absent)
             (disk_of [entry "Squat" "100kg"]) "Squat" (entry "Squat" "100kg")).
    reflexivity.
Defined.

End PRClaims.

(** ** Progress chart *)

Section ChartFacts.

Import PyFloat PyNum PyList Chart Sample.

Lemma string_leb_not_ltb (a b : string) :
  String.leb a b = true -> String.ltb b a = false.
Proof.
  unfold String.leb, String.ltb. rewrite (String.compare_antisym a b).
  destruct (String.compare b a); simpl; congruence.
Qed.

Lemma length_insert_by {A K : Type} (ltb : K -> K -> bool) (key : A -> K)
    (x : A) (l : list A) :
  List.length (insert_by ltb key x l) = S (List.length l).
Proof.
  induction l as [|y r IH]; simpl; [reflexivity|].
  destruct (ltb (key y) (key x)); simpl; [rewrite IH|]; reflexivity.
Qed.

Lemma length_sorted_by {A K : Type} (ltb : K -> K -> bool) (key : A -> K)
    (l : list A) :
  List.length (sorted_by ltb key l) = List.length l.
Proof.
  induction l as [|x r IH]; simpl; [reflexivity|].
  rewrite length_insert_by, IH. reflexivity.
Qed.

(** Sorting leaves a chronological series as it is. *)
Lemma sorted_by_chronological (l : list record) :
  chronological l = true -> sorted_by String.ltb r_date l = l.
Proof.
  induction l as [|a r IH]; [reflexivity|].
  intros Hc. simpl. destruct r as [|b r'].
  - reflexivity.
  - simpl in Hc. apply andb_true_iff in Hc. destruct Hc as [Hab Hr].
    change (fold_right (insert_by String.ltb r_date) [] (b :: r'))
      with (sorted_by String.ltb r_date (b :: r')).
    rewrite (IH Hr). simpl.
    rewrite (string_leb_not_ltb _ _ Hab). reflexivity.
Qed.

Lemma py_min_fold (l seen : list float) (m : float) :
  (forall y, In y seen -> ltb y m = false) ->
  forall y, In y (seen ++ l) -> ltb y (py_min m l) = false.
Proof.
  revert seen m. induction l as [|z l IH]; intros seen m Hseen y Hy.
  - rewrite app_nil_r in Hy. simpl. auto.
  - unfold py_min. simpl.
    change (ltb y (py_min (if ltb z m then z else m) l) = false).
    apply (IH (seen ++ [z])); [|rewrite <- app_assoc; exact Hy].
    intros y' Hy'. apply in_app_or in Hy'.
    destruct (ltb z m) eqn:Ez; destruct Hy' as [Hy'|[->|[]]].
    + eapply ltb_lower; [apply Hseen; exact Hy'|exact Ez].
    + apply ltb_irrefl.
    + auto.
    + exact Ez.
Qed.

Lemma py_max_fold (l seen : list float) (m : float) :
  (forall y, In y seen -> gtb y m = false) ->
  forall y, In y (seen ++ l) -> gtb y (py_max m l) = false.
Proof.
  revert seen m. induction l as [|z l IH]; intros seen m Hseen y Hy.
  - rewrite app_nil_r in Hy. simpl. auto.
  - unfold py_max. simpl.
    change (gtb y (py_max (if gtb z m then z else m) l) = false).
    apply (IH (seen ++ [z])); [|rewrite <- app_assoc; exact Hy].
    intros y' Hy'. apply in_app_or in Hy'.
    destruct (gtb z m) eqn:Ez; destruct Hy' as [Hy'|[->|[]]].
    + eapply gtb_raise; [apply Hseen; exact Hy'|exact Ez].
    + apply ltb_irrefl.
    + auto.
    + exact Ez.
Qed.

(** Python's [min] returns an item that no item is strictly below. *)
Lemma py_min_least (x : float) (l : list float) :
  In (py_min x l) (x :: l) /\
  forall y, In y (x :: l) -> ltb y (py_min x l) = false.
Proof.
  split.
  - revert x. induction l as [|z l IH]; intros x; [left; reflexivity|].
    unfold py_min. simpl.
    change (x = py_min (if ltb z x then z else x) l \/
            (z = py_min (if ltb z x then z else x) l \/
             In (py_min (if ltb z x then z else x) l) l)).
    destruct (IH (if ltb z x then z else x)) as [H|H]; [|auto].
    destruct (ltb z x); auto.
  - apply (py_min_fold l [x] x).
    intros y [<-|[]]. apply ltb_irrefl.
Qed.

(** Python's [max] returns an item that no item is strictly above. *)
Lemma py_max_greatest (x : float) (l : list float) :
  In (py_max x l) (x :: l) /\
  forall y, In y (x :: l) -> gtb y (py_max x l) = false.
Proof.
  split.
  - revert x. induction l as [|z l IH]; intros x; [left; reflexivity|].
    unfold py_max. simpl.
    change (x = py_max (if gtb z x then z else x) l \/
            (z = py_max (if gtb z x then z else x) l \/
             In (py_max (if gtb z x then z else x) l) l)).
    destruct (IH (if gtb z x then z else x)) as [H|H]; [|auto].
    destruct (gtb z x); auto.
  - apply (py_max_fold l [x] x).
    intros y [<-|[]]. apply ltb_irrefl.
Qed.

(** The threshold of a row, with the range taken as a float. *)
Lemma threshold_float (min_w max_w : float) (row : Z) :
  In row (range_down (chart_height - 1)) ->
  threshold min_w (weight_range min_w max_w) row =
    add min_w
      (div (mul (if neb max_w min_w then sub max_w min_w else of_Z 1) (of_Z row))
           (of_Z 7)).
Proof.
  intros Hrow. unfold threshold, weight_range.
  destruct (neb max_w min_w); [reflexivity|].
  f_equal. simpl in Hrow.
  repeat (destruct Hrow as [<-|Hrow]; [reflexivity|]). destruct Hrow.
Qed.

Lemma last_n_all {A : Type} (n : nat) (l : list A) :
  (List.length l <= n)%nat -> last_n n l = l.
Proof.
  intros H. unfold last_n.
  replace (List.length l - n)%nat with 0%nat by lia. reflexivity.
Qed.

Lemma last_n_suffix {A : Type} (n : nat) (l : list A) :
  exists older, l = older ++ last_n n l /\
                List.length (last_n n l) = Nat.min n (List.length l).
Proof.
  unfold last_n. exists (firstn (List.length l - n) l). split.
  - symmetry. apply firstn_skipn.
  - rewrite length_skipn. lia.
Qed.

Lemma last_skipn {A : Type} (k : nat) (l : list A) (d : A) :
  (k < List.length l)%nat -> List.last (skipn k l) d = List.last l d.
Proof.
  revert l. induction k as [|k IH]; intros l Hk; [reflexivity|].
  destruct l as [|a l]; [simpl in Hk; lia|].
  simpl in Hk. rewrite skipn_cons, (IH l) by lia.
  destruct l; [simpl in Hk; lia|reflexivity].
Qed.

End ChartFacts.

Section ChartClaims.

Import PyFloat PyNum PyList Chart Sample.

(** The output for a chronological series of two records or more. *)
Lemma chart_of_series (exercise : string) (first second : record)
    (rest : list record) :
  chronological (first :: second :: rest) = true ->
  show_progress_chart exercise (first :: second :: rest) =
    let series := first :: second :: rest in
    let min_w := py_min (r_weight first) (List.map r_weight (second :: rest)) in
    let max_w := py_max (r_weight first) (List.map r_weight (second :: rest)) in
    let range := weight_range min_w max_w in
    let recent := last_n 10 series in
    let last_weight := r_weight (List.last series first) in
    let diff := sub last_weight (r_weight first) in
    [Title exercise; Rule; TopLabel max_w]
    ++ List.map (chart_row min_w range recent) (range_down (chart_height - 1))
    ++ [BottomLabel min_w (List.length recent);
        DateLabels (List.map (fun r => PyStr.slice 5 10 (r_date r)) recent);
        Progress (r_weight first) last_weight
          (if geb diff (of_Z 0) then "+" else "") diff].
Proof.
  intros Hc. unfold show_progress_chart.
  rewrite (sorted_by_chronological _ Hc). reflexivity.
Qed.

(** C9.  A series of fewer than two records gives the title, the rule and
    the "need at least 2 records" line, and nothing of a chart; the call
    returns normally. *)
Theorem chart_needs_two_records (exercise : string) (records : list record) :
  (List.length records < 2)%nat ->
  show_progress_chart exercise records = [Title exercise; Rule; NeedTwoRecords].
Proof.
  intros Hlen. unfold show_progress_chart.
  pose proof (length_sorted_by String.ltb r_date records) as Hl.
  destruct (sorted_by String.ltb r_date records) as [|a [|b r]];
    try reflexivity.
  simpl in Hl. lia.
Qed.

Lemma chart_needs_two_records_witness :
  show_progress_chart "Squat" [point 100 "2024-01-01 18:30"]
  = [Title "Squat"; Rule; NeedTwoRecords].
Proof.
  apply (chart_needs_two_records "Squat" [point 100 "2024-01-01 18:30"]).
  simpl. lia.
Defined.

(** C7.  For a chronological series of two records or more the chart shows
    the last ten records at most, in order; the minimum and the maximum are
    items of the whole series that no item of the whole series is below
    (above); the range is taken as 1 when they are equal; there are eight
    rows, for row 7 at the top down to row 0; and a shown record is filled
    in a row exactly when its weight >= min + range * row / 7. *)
Theorem chart_rows_of_whole_series (exercise : string) (series : list record) :
  chronological series = true ->
  (2 <= List.length series)%nat ->
  exists (min_w max_w : float) (older shown : list record) (summary : line),
    (In min_w (List.map r_weight series) /\
     forall r, In r series -> ltb (r_weight r) min_w = false) /\
    (In max_w (List.map r_weight series) /\
     forall r, In r series -> gtb (r_weight r) max_w = false) /\
    series = older ++ shown /\
    List.length shown = Nat.min 10 (List.length series) /\
    show_progress_chart exercise series =
      [Title exercise; Rule; TopLabel max_w]
      ++ List.map
           (fun row =>
              Row (List.map
                     (fun r =>
                        geb (r_weight r)
                          (add min_w
                             (div (mul (if neb max_w min_w then sub max_w min_w
                                        else of_Z 1) (of_Z row))
                                  (of_Z 7))))
                     shown))
           [7; 6; 5; 4; 3; 2; 1; 0]
      ++ [BottomLabel min_w (List.length shown);
          DateLabels (List.map (fun r => PyStr.slice 5 10 (r_date r)) shown);
          summary].
Proof.
  intros Hc Hlen.
  destruct series as [|first [|second rest]]; try (simpl in Hlen; lia).
  set (series := first :: second :: rest) in *.
  set (ws := List.map r_weight (second :: rest)).
  destruct (py_min_least (r_weight first) ws) as [Hmin_in Hmin].
  destruct (py_max_greatest (r_weight first) ws) as [Hmax_in Hmax].
  destruct (last_n_suffix 10 series) as [older [Hsplit Hshown]].
  exists (py_min (r_weight first) ws), (py_max (r_weight first) ws),
    older, (last_n 10 series).
  eexists. repeat split.
  - exact Hmin_in.
  - intros r Hr. apply Hmin. apply (in_map r_weight) in Hr. exact Hr.
  - exact Hmax_in.
  - intros r Hr. apply Hmax. apply (in_map r_weight) in Hr. exact Hr.
  - exact Hsplit.
  - exact Hshown.
  - unfold series. rewrite (chart_of_series exercise first second rest Hc).
    cbv zeta. fold series. fold ws.
    f_equal. f_equal.
    change [7; 6; 5; 4; 3; 2; 1; 0] with (range_down (chart_height - 1)).
    apply map_ext_in. intros row Hrow. unfold chart_row.
    rewrite (threshold_float _ _ row Hrow). reflexivity.
Qed.

Lemma chart_rows_of_whole_series_witness :
  exists (min_w max_w : float) (older shown : list record) (summary : line),
    (In min_w (List.map r_weight ramp) /\
     forall r, In r ramp -> ltb (r_weight r) min_w = false) /\
    (In max_w (List.map r_weight ramp) /\
     forall r, In r ramp -> gtb (r_weight r) max_w = false) /\
    ramp = older ++ shown /\
    List.length shown = Nat.min 10 (List.length ramp) /\
    show_progress_chart "Squat" ramp =
      [Title "Squat"; Rule; TopLabel max_w]
      ++ List.map
           (fun row =>
              Row (List.map
                     (fun r =>
                        geb (r_weight r)
                          (add min_w
                             (div (mul (if neb max_w min_w then sub max_w min_w
                                        else of_Z 1) (of_Z row))
                                  (of_Z 7))))
                     shown))
           [7; 6; 5; 4; 3; 2; 1; 0]
      ++ [BottomLabel min_w (List.length shown);
          DateLabels (List.map (fun r => PyStr.slice 5 10 (r_date r)) shown);
          summary].
Proof.
  apply (chart_rows_of_whole_series "Squat" ramp).
  - reflexivity.
  - simpl. lia.
Defined.

(** C5 (amended).  For a chronological series of two records or more the
    last line reports the first value of the whole series, the last value
    (which is the last one shown), and last minus first, with a "+" before
    a difference >= 0; the first value is the first one shown when the
    series has ten records at most. *)
Theorem chart_summary_of_whole_series (exercise : string) (series : list record) :
  chronological series = true ->
  (2 <= List.length series)%nat ->
  exists first last_shown : record,
    hd_error series = Some first /\
    List.last (last_n 10 series) first = last_shown /\
    List.last (show_progress_chart exercise series) Rule =
      Progress (r_weight first) (r_weight last_shown)
        (if geb (sub (r_weight last_shown) (r_weight first)) (of_Z 0)
         then "+" else "")
        (sub (r_weight last_shown) (r_weight first)) /\
    ((List.length series <= 10)%nat ->
     hd_error (last_n 10 series) = Some first).
Proof.
  intros Hc Hlen.
  destruct series as [|first [|second rest]]; try (simpl in Hlen; lia).
  set (series := first :: second :: rest) in *.
  assert (Hlast : List.last (last_n 10 series) first = List.last series first).
  { unfold last_n. apply last_skipn. simpl. lia. }
  exists first, (List.last series first). repeat split.
  - exact Hlast.
  - unfold series at 1. rewrite (chart_of_series exercise first second rest Hc).
    cbv zeta. fold series.
    rewrite app_assoc.
    match goal with
    | |- List.last (?p ++ [?a; ?b; ?c]) _ = _ =>
        change (p ++ [a; b; c]) with (p ++ [a; b] ++ [c]);
        rewrite (app_assoc p [a; b] [c]); rewrite last_last
    end.
    reflexivity.
  - intros Hle. rewrite last_n_all by exact Hle. reflexivity.
Qed.

Lemma chart_summary_of_whole_series_witness :
  exists first last_shown : record,
    hd_error ramp = Some first /\
    List.last (last_n 10 ramp) first = last_shown /\
    List.last (show_progress_chart "Squat" ramp) Rule =
      Progress (r_weight first) (r_weight last_shown)
        (if geb (sub (r_weight last_shown) (r_weight first)) (of_Z 0)
         then "+" else "")
        (sub (r_weight last_shown) (r_weight first)) /\
    ((List.length ramp <= 10)%nat ->
     hd_error (last_n 10 ramp) = Some first).
Proof.
  apply (chart_summary_of_whole_series "Squat" ramp).
  - reflexivity.
  - simpl. lia.
Defined.

(** C5 as stated fails: with eleven records the first one shown weighs 2kg,
    and the summary starts from the 1kg of the record no longer shown. *)
Lemma chart_summary_first_shown_counterexample :
  chronological ramp = true
  /\ List.length ramp = 11%nat
  /\ option_map r_weight (hd_error (last_n 10 ramp)) = Some (of_Z 2)
  /\ List.last (show_progress_chart "Squat" ramp) Rule =
       Progress (of_Z 1) (of_Z 11) "+" (of_Z 10)
  /\ of_Z 1 <> of_Z 2.
Proof.
  split; [reflexivity|]. split; [reflexivity|]. split; [reflexivity|].
  split; [vm_compute; reflexivity|]. vm_compute. discriminate.
Qed.

End ChartClaims.

(** ** Weight parser *)

Section ParserClaims.

Import PyStr PyFloat PR.

Lemma is_space_lower_char (c : ascii) : is_space (lower_char c) = is_space c.
Proof. destruct c as [[] [] [] [] [] [] [] []]; reflexivity. Qed.

Lemma lower_lstrip (s : string) : lower (lstrip s) = lstrip (lower s).
Proof.
  induction s as [|c r IH]; [reflexivity|]. simpl.
  rewrite is_space_lower_char. destruct (is_space c); [exact IH|reflexivity].
Qed.

Lemma lower_rstrip (s : string) : lower (rstrip s) = rstrip (lower s).
Proof.
  induction s as [|c r IH]; [reflexivity|]. simpl.
  rewrite <- IH, is_space_lower_char.
  destruct (rstrip r) as [|c' r']; simpl; [destruct (is_space c)|]; reflexivity.
Qed.

Lemma lower_strip (s : string) : lower (strip s) = strip (lower s).
Proof. unfold strip. rewrite lower_rstrip, lower_lstrip. reflexivity. Qed.

Lemma rstrip_idem (s : string) : rstrip (rstrip s) = rstrip s.
Proof.
  induction s as [|c r IH]; [reflexivity|]. simpl.
  destruct (rstrip r) as [|c' r'] eqn:E.
  - destruct (is_space c) eqn:Ec; simpl; [|rewrite Ec]; reflexivity.
  - change (rstrip (String c (String c' r'))) with
      (match rstrip (String c' r') with
       | EmptyString => if is_space c then EmptyString else String c EmptyString
       | r'' => String c r''
       end).
    rewrite IH. reflexivity.
Qed.

Lemma lstrip_head (s : string) :
  lstrip s = EmptyString \/
  exists c r, lstrip s = String c r /\ is_space c = false.
Proof.
  induction s as [|c r IH]; [left; reflexivity|]. simpl.
  destruct (is_space c) eqn:Ec; [exact IH|].
  right. exists c, r. split; [reflexivity|exact Ec].
Qed.

Lemma strip_idem (s : string) : strip (strip s) = strip s.
Proof.
  unfold strip. destruct (lstrip_head s) as [E|(c & r & E & Ec)]; rewrite E.
  - reflexivity.
  - assert (H : exists r', rstrip (String c r) = String c r').
    { simpl. destruct (rstrip r); [rewrite Ec|]; eauto. }
    destruct H as [r' H]. rewrite H. simpl. rewrite Ec.
    rewrite <- H. apply rstrip_idem.
Qed.

(** C3.  [parse_weight] agrees on every input with the parser worded in
    the specification: trim and lowercase, then the "kg" case, else the
    "lb"/"lbs" case with the factor 0.453592, else a bare parse, with no
    value for a failed parse and for empty or absent input.  "225lbs" gives
    a weight within 0.01 of 102.06, "100kg" gives 100.0 and "bogus" gives
    no value. *)
Theorem parse_weight_meets_spec :
  (forall input : option string, parse_weight input = parse_weight_spec input)
  /\ parse_weight None = None
  /\ parse_weight (Some "") = None
  /\ (exists v, parse_weight (Some "225lbs") = Some v /\
                (Qabs (to_Q v - (10206 # 100)) <= (1 # 100))%Q)
  /\ parse_weight (Some "100kg") = Some (of_Z 100)
  /\ parse_weight (Some "bogus") = None.
Proof.
  split.
  - intros [text|]; [|reflexivity].
    destruct text as [|c r]; [reflexivity|].
    unfold parse_weight, parse_weight_spec, float_of_text, LB_TO_KG.
    rewrite lower_strip.
    set (t := strip (lower (String c r))).
    destruct (contains "kg" t); [reflexivity|].
    destruct (contains "lb" t).
    + destruct (of_string _); reflexivity.
    + unfold t. rewrite strip_idem. reflexivity.
  - split; [reflexivity|]. split; [reflexivity|].
    split; [|split; reflexivity].
    eexists. split; [vm_compute; reflexivity|].
    apply Qle_bool_imp_le. vm_compute. reflexivity.
Qed.

End ParserClaims.

(** ** Calendar *)

Section CalendarFacts.

Import PyDate.

Lemma is_leap_cases (y : Z) :
  (is_leap y = true /\ y mod 4 = 0 /\ (y mod 100 <> 0 \/ y mod 400 = 0)) \/
  (is_leap y = false /\ (y mod 4 <> 0 \/ (y mod 100 = 0 /\ y mod 400 <> 0))).
Proof.
  unfold is_leap.
  destruct (Z.eqb_spec (y mod 4) 0), (Z.eqb_spec (y mod 100) 0),
    (Z.eqb_spec (y mod 400) 0); simpl; intuition.
Qed.

Lemma days_before_year_succ (y : Z) :
  days_before_year (y + 1) =
    days_before_year y + 365 + (if is_leap y then 1 else 0).
Proof.
  unfold days_before_year.
  replace (y + 1 - 1) with y by lia.
  destruct (is_leap_cases y) as [(-> & H4 & H)|(-> & H)];
    Z.div_mod_to_equations; lia.
Qed.

Lemma month_cases (m : Z) :
  1 <= m <= 12 ->
  m = 1 \/ m = 2 \/ m = 3 \/ m = 4 \/ m = 5 \/ m = 6 \/
  m = 7 \/ m = 8 \/ m = 9 \/ m = 10 \/ m = 11 \/ m = 12.
Proof. lia. Qed.

Ltac each_month m H :=
  destruct (month_cases m H) as
    [->|[->|[->|[->|[->|[->|[->|[->|[->|[->|[->| ->]]]]]]]]]]].

Lemma days_before_year_le (y y' : Z) :
  y <= y' -> days_before_year y <= days_before_year y'.
Proof.
  intros H. replace y' with (y + Z.of_nat (Z.to_nat (y' - y))) by lia.
  induction (Z.to_nat (y' - y)) as [|k IH]; [rewrite Z.add_0_r; lia|].
  rewrite Nat2Z.inj_succ.
  replace (y + Z.succ (Z.of_nat k)) with (y + Z.of_nat k + 1) by lia.
  rewrite days_before_year_succ. destruct (is_leap _); lia.
Qed.

Lemma valid_bounds (dt : datetime) :
  valid dt = true ->
  1 <= year dt <= 9999 /\ 1 <= month dt <= 12 /\
  1 <= day dt <= days_in_month (year dt) (month dt).
Proof. unfold valid. rewrite !andb_true_iff, !Z.leb_le. tauto. Qed.

(** The month tables, with [leap] the extra day of a leap year. *)
Lemma month_tables (y : Z) :
  let leap := if is_leap y then 1 else 0 in
  (days_in_month y 1 = 31 /\ days_in_month y 2 = 28 + leap /\
   days_in_month y 3 = 31 /\ days_in_month y 4 = 30 /\
   days_in_month y 5 = 31 /\ days_in_month y 6 = 30 /\
   days_in_month y 7 = 31 /\ days_in_month y 8 = 31 /\
   days_in_month y 9 = 30 /\ days_in_month y 10 = 31 /\
   days_in_month y 11 = 30 /\ days_in_month y 12 = 31) /\
  (days_before_month y 1 = 0 /\ days_before_month y 2 = 31 /\
   days_before_month y 3 = 59 + leap /\ days_before_month y 4 = 90 + leap /\
   days_before_month y 5 = 120 + leap /\ days_before_month y 6 = 151 + leap /\
   days_before_month y 7 = 181 + leap /\ days_before_month y 8 = 212 + leap /\
   days_before_month y 9 = 243 + leap /\ days_before_month y 10 = 273 + leap /\
   days_before_month y 11 = 304 + leap /\ days_before_month y 12 = 334 + leap).
Proof.
  unfold days_in_month, days_before_month.
  destruct (is_leap y); cbv zeta; repeat split; reflexivity.
Qed.

Ltac by_month_tables y :=
  pose proof (month_tables y) as [? ?]; cbv zeta in *;
  destruct (is_leap y); lia.

(** A date of the year [y] is one of its 365 or 366 days. *)
Lemma day_of_year_bounds (y m d : Z) :
  1 <= m <= 12 -> 1 <= d <= days_in_month y m ->
  1 <= days_before_month y m + d <= 365 + (if is_leap y then 1 else 0).
Proof. intros Hm Hd. each_month m Hm; by_month_tables y. Qed.

Lemma days_before_month_succ (y m : Z) :
  1 <= m <= 11 ->
  days_before_month y (m + 1) = days_before_month y m + days_in_month y m.
Proof.
  intros Hm. assert (Hm' : 1 <= m <= 12) by lia.
  each_month m Hm'; try lia; simpl (_ + 1); by_month_tables y.
Qed.

Lemma days_before_month_le (y m m' : Z) :
  1 <= m <= 12 -> 1 <= m' <= 12 -> m <= m' ->
  days_before_month y m <= days_before_month y m'.
Proof.
  intros Hm Hm' Hle.
  each_month m Hm; each_month m' Hm'; try lia; by_month_tables y.
Qed.

Lemma days_in_month_pos (y m : Z) : 1 <= m <= 12 -> 28 <= days_in_month y m <= 31.
Proof. intros Hm. each_month m Hm; by_month_tables y. Qed.

Lemma toordinal_lt_year (a b : datetime) :
  valid a = true -> valid b = true -> year a < year b ->
  toordinal a < toordinal b.
Proof.
  intros Ha Hb Hy.
  destruct (valid_bounds a Ha) as (_ & Hma & Hda).
  destruct (valid_bounds b Hb) as (_ & Hmb & Hdb).
  pose proof (day_of_year_bounds _ _ _ Hma Hda) as Ba.
  pose proof (day_of_year_bounds _ _ _ Hmb Hdb) as Bb.
  pose proof (days_before_year_succ (year a)) as Hs.
  pose proof (days_before_year_le (year a + 1) (year b)) as Hle.
  unfold toordinal. lia.
Qed.

Lemma toordinal_lt_month (a b : datetime) :
  valid a = true -> valid b = true ->
  year a = year b -> month a < month b ->
  toordinal a < toordinal b.
Proof.
  intros Ha Hb Hy Hm.
  destruct (valid_bounds a Ha) as (_ & Hma & Hda).
  destruct (valid_bounds b Hb) as (_ & Hmb & Hdb).
  pose proof (days_before_month_succ (year a) (month a)) as Hs.
  pose proof (days_before_month_le (year a) (month a + 1) (month b)) as Hle.
  unfold toordinal. rewrite <- Hy. lia.
Qed.

Lemma compare_ymd_toordinal (a b : datetime) :
  valid a = true -> valid b = true ->
  compare_ymd a b = (toordinal a ?= toordinal b).
Proof.
  intros Ha Hb. unfold compare_ymd. symmetry.
  destruct (Z.compare_spec (year a) (year b)) as [Ey|Ly|Gy].
  - destruct (Z.compare_spec (month a) (month b)) as [Em|Lm|Gm].
    + unfold toordinal. rewrite Ey, Em.
      destruct (Z.compare_spec (day a) (day b)); 
        [apply Z.compare_eq_iff|apply Z.compare_lt_iff|apply Z.compare_gt_iff]; lia.
    + apply Z.compare_lt_iff. apply toordinal_lt_month; assumption.
    + apply Z.compare_gt_iff. apply toordinal_lt_month; auto.
  - apply Z.compare_lt_iff. apply toordinal_lt_year; assumption.
  - apply Z.compare_gt_iff. apply toordinal_lt_year; assumption.
Qed.

Lemma prev_day_toordinal (dt : datetime) :
  valid dt = true -> 1 < toordinal dt ->
  valid (prev_day dt) = true /\ toordinal (prev_day dt) = toordinal dt - 1.
Proof.
  intros Hv Hord.
  destruct (valid_bounds dt Hv) as (Hy & Hm & Hd).
  unfold prev_day.
  destruct (Z.ltb_spec 1 (day dt)) as [Hd1|Hd1].
  - split; [|unfold toordinal; simpl; lia].
    unfold valid; simpl. rewrite !andb_true_iff, !Z.leb_le. lia.
  - assert (Ed : day dt = 1) by lia.
    destruct (Z.ltb_spec 1 (month dt)) as [Hm1|Hm1].
    + pose proof (days_before_month_succ (year dt) (month dt - 1)) as Hs.
      replace (month dt - 1 + 1) with (month dt) in Hs by lia.
      split.
      * unfold valid; simpl. rewrite !andb_true_iff, !Z.leb_le.
        pose proof (days_in_month_pos (year dt) (month dt - 1)). lia.
      * unfold toordinal; simpl. lia.
    + assert (Em : month dt = 1) by lia.
      assert (Hy1 : 1 < year dt).
      { unfold toordinal in Hord. rewrite Em, Ed in Hord.
        destruct (Z.eq_dec (year dt) 1) as [E1|]; [|lia].
        rewrite E1 in Hord. vm_compute in Hord. discriminate. }
      pose proof (days_before_year_succ (year dt - 1)) as Hs.
      replace (year dt - 1 + 1) with (year dt) in Hs by lia.
      split.
      * unfold valid; simpl. rewrite !andb_true_iff, !Z.leb_le.
        pose proof (days_in_month_pos (year dt - 1) 12). lia.
      * unfold toordinal; simpl. rewrite Em, Ed.
        pose proof (month_tables (year dt)) as [_ Ht].
        pose proof (month_tables (year dt - 1)) as [_ Ht'].
        cbv zeta in *. lia.
Qed.

Lemma digit_cases (k : Z) :
  k mod 10 = 0 \/ k mod 10 = 1 \/ k mod 10 = 2 \/ k mod 10 = 3 \/ k mod 10 = 4 \/
  k mod 10 = 5 \/ k mod 10 = 6 \/ k mod 10 = 7 \/ k mod 10 = 8 \/ k mod 10 = 9.
Proof. pose proof (Z.mod_pos_bound k 10). lia. Qed.

Ltac each_digit k :=
  unfold digit_char;
  destruct (digit_cases k) as [E|[E|[E|[E|[E|[E|[E|[E|[E|E]]]]]]]]];
  rewrite E; clear E.

Lemma digit_value_char (k : Z) : digit_value (digit_char k) = Some (k mod 10).
Proof. each_digit k; reflexivity. Qed.

Lemma compare_digit_char (a b : Z) :
  Ascii.compare (digit_char a) (digit_char b) = (a mod 10 ?= b mod 10).
Proof. each_digit a; each_digit b; reflexivity. Qed.

Lemma compare_cons_digit (a b : Z) (s t : string) :
  String.compare (String (digit_char a) s) (String (digit_char b) t) =
    match a mod 10 ?= b mod 10 with
    | Eq => String.compare s t
    | c => c
    end.
Proof. simpl. rewrite compare_digit_char. reflexivity. Qed.

Ltac compare_by_digits :=
  repeat match goal with
    | |- context [Z.compare ?x ?y] => destruct (Z.compare_spec x y)
    end;
  try reflexivity; exfalso; Z.div_mod_to_equations; lia.

Lemma compare_two_digits (a b : Z) :
  0 <= a < 100 -> 0 <= b < 100 ->
  String.compare (two_digits a) (two_digits b) = (a ?= b).
Proof.
  intros Ha Hb. unfold two_digits. rewrite !compare_cons_digit. simpl.
  compare_by_digits.
Qed.

Lemma compare_four_digits (a b : Z) :
  0 <= a < 10000 -> 0 <= b < 10000 ->
  String.compare (four_digits a) (four_digits b) = (a ?= b).
Proof.
  intros Ha Hb. unfold four_digits, two_digits. rewrite !compare_cons_digit. simpl.
  compare_by_digits.
Qed.

Lemma compare_app (p q s t : string) :
  String.length p = String.length q ->
  String.compare (p ++ s) (q ++ t) =
    match String.compare p q with
    | Eq => String.compare s t
    | c => c
    end.
Proof.
  revert q. induction p as [|a p IH]; intros [|b q] Hlen; try discriminate.
  - reflexivity.
  - simpl in *. destruct (Ascii.compare a b); auto.
Qed.

(** Dates print in the order of the calendar. *)
Lemma compare_strftime (a b : datetime) :
  valid a = true -> valid b = true ->
  String.compare (strftime_Ymd a) (strftime_Ymd b) = (toordinal a ?= toordinal b).
Proof.
  intros Ha Hb. rewrite <- (compare_ymd_toordinal a b Ha Hb).
  destruct (valid_bounds a Ha) as (Hya & Hma & Hda).
  destruct (valid_bounds b Hb) as (Hyb & Hmb & Hdb).
  pose proof (days_in_month_pos (year a) (month a) Hma).
  pose proof (days_in_month_pos (year b) (month b) Hmb).
  unfold strftime_Ymd, compare_ymd.
  rewrite compare_app by reflexivity.
  rewrite compare_four_digits by lia.
  destruct (year a ?= year b); try reflexivity.
  change ("-" ++ ?x)%string with (String "-" x). 
  cbn [String.compare Ascii.compare].
  change (N.compare (N_of_ascii "-") (N_of_ascii "-")) with Eq. cbv iota.
  rewrite compare_app by reflexivity.
  rewrite compare_two_digits by lia.
  destruct (month a ?= month b); try reflexivity.
  cbn [String.compare append].
  change (Ascii.compare "-" "-") with Eq. cbv iota.
  apply compare_two_digits; lia.
Qed.

Lemma month_token_two_digits (m : Z) (rest : string) :
  1 <= m <= 12 ->
  month_token (String (digit_char (m / 10)) (String (digit_char m) (String "-" rest)))
  = Some (m, String "-" rest).
Proof. intros Hm. each_month m Hm; reflexivity. Qed.

Lemma day_cases (d : Z) :
  1 <= d <= 31 ->
  exists n : nat, (n < 31)%nat /\ d = Z.of_nat n + 1.
Proof. intros H. exists (Z.to_nat (d - 1)). lia. Qed.

Lemma day_token_two_digits (d : Z) :
  1 <= d <= 31 ->
  day_token (String (digit_char (d / 10)) (String (digit_char d) EmptyString))
  = Some (d, EmptyString).
Proof.
  intros Hd. destruct (day_cases d Hd) as [n [Hn ->]].
  do 31 (destruct n as [|n]; [reflexivity|]). lia.
Qed.

Lemma four_digits_value (y : Z) :
  0 <= y < 10000 ->
  1000 * ((y / 1000) mod 10) + 100 * ((y / 100) mod 10)
  + 10 * ((y / 10) mod 10) + y mod 10 = y.
Proof. intros H. Z.div_mod_to_equations. lia. Qed.

(** Reading back a printed date gives the date, at midnight. *)
Lemma strptime_strftime (dt : datetime) :
  valid dt = true ->
  strptime_Ymd (strftime_Ymd dt) =
    Ok {| year := year dt; month := month dt; day := day dt;
          hour := 0; minute := 0 |}.
Proof.
  intros Hv. destruct (valid_bounds dt Hv) as (Hy & Hm & Hd).
  pose proof (days_in_month_pos (year dt) (month dt) Hm) as Hdim.
  unfold strftime_Ymd, four_digits, two_digits.
  cbn [append]. unfold strptime_Ymd.
  rewrite !digit_value_char.
  rewrite month_token_two_digits by exact Hm.
  rewrite day_token_two_digits by lia.
  rewrite four_digits_value by lia.
  change (valid {| year := year dt; month := month dt; day := day dt;
                   hour := 0; minute := 0 |}) with (valid dt).
  rewrite Hv. reflexivity.
Qed.

End CalendarFacts.

(** ** Streak *)

Section StreakFacts.

Import PyList PyDate Weekly Sample.

Lemma string_compare_refl (s : string) : String.compare s s = Eq.
Proof.
  pose proof (String.compare_antisym s s) as H.
  destruct (String.compare s s); simpl in H; congruence.
Qed.

Lemma strftime_eq_iff (a b : datetime) :
  valid a = true -> valid b = true ->
  strftime_Ymd a = strftime_Ymd b <-> toordinal a = toordinal b.
Proof.
  intros Ha Hb. rewrite <- Z.compare_eq_iff, <- compare_strftime by assumption.
  split.
  - intros ->. apply string_compare_refl.
  - apply String.compare_eq_iff.
Qed.

Lemma strftime_eqb (a b : datetime) :
  valid a = true -> valid b = true ->
  String.eqb (strftime_Ymd a) (strftime_Ymd b) = (toordinal a =? toordinal b).
Proof.
  intros Ha Hb. pose proof (strftime_eq_iff a b Ha Hb) as H.
  destruct (String.eqb_spec (strftime_Ymd a) (strftime_Ymd b)),
    (Z.eqb_spec (toordinal a) (toordinal b)); intuition congruence.
Qed.

Lemma strftime_ltb (a b : datetime) :
  valid a = true -> valid b = true ->
  String.ltb (strftime_Ymd a) (strftime_Ymd b) = (toordinal a <? toordinal b).
Proof.
  intros Ha Hb. unfold String.ltb, Z.ltb. rewrite compare_strftime by assumption.
  reflexivity.
Qed.


Lemma in_strftime_iff (a : datetime) (l : list datetime) :
  valid a = true -> all_valid l ->
  In (strftime_Ymd a) (List.map strftime_Ymd l) <->
  In (toordinal a) (List.map toordinal l).
Proof.
  intros Ha Hl. rewrite !in_map_iff. unfold all_valid in Hl. rewrite Forall_forall in Hl.
  split; intros (x & E & Hx); exists x; split; auto;
    apply (strftime_eq_iff x a (Hl x Hx) Ha); auto.
Qed.

(** The distinct date texts and the distinct day numbers come from the
    same dates. *)
Lemma set_of_dates (l : list datetime) :
  all_valid l ->
  exists l', all_valid l' /\
             set_of (List.map strftime_Ymd l) = List.map strftime_Ymd l' /\
             nodup Z.eq_dec (List.map toordinal l) = List.map toordinal l'.
Proof.
  induction 1 as [|a l Ha Hl IH].
  - exists []. repeat split. constructor.
  - destruct IH as (l' & Hl' & Es & Ez).
    pose proof (in_strftime_iff a l Ha Hl) as Hin.
    unfold set_of in *. simpl.
    destruct (in_dec string_dec (strftime_Ymd a) (List.map strftime_Ymd l)) as [Hs|Hs],
      (in_dec Z.eq_dec (toordinal a) (List.map toordinal l)) as [Hz|Hz];
      try (exfalso; tauto).
    + exists l'. auto.
    + exists (a :: l'). split; [constructor; assumption|].
      simpl. rewrite Es, Ez. auto.
Qed.

Abbreviation later := (fun a b : Z => b <? a) (only parsing).

Lemma insert_by_dates (x : datetime) (l : list datetime) :
  valid x = true -> all_valid l ->
  insert_by (fun a b => String.ltb b a) (fun s => s)
    (strftime_Ymd x) (List.map strftime_Ymd l)
  = List.map strftime_Ymd (insert_by later toordinal x l)
  /\ insert_by later (fun d => d) (toordinal x) (List.map toordinal l)
     = List.map toordinal (insert_by later toordinal x l)
  /\ all_valid (insert_by later toordinal x l).
Proof.
  intros Hx Hl. induction Hl as [|y l Hy Hl IH].
  - repeat split. constructor; [assumption|constructor].
  - destruct IH as (Es & Ez & Hv). simpl.
    rewrite (strftime_ltb x y Hx Hy).
    destruct (toordinal x <? toordinal y).
    + simpl. rewrite Es, Ez. repeat split. constructor; assumption.
    + repeat split. constructor; [assumption|constructor; assumption].
Qed.

Lemma sorted_dates (l : list datetime) :
  all_valid l ->
  sorted_reverse (List.map strftime_Ymd l)
  = List.map strftime_Ymd (sorted_by later toordinal l)
  /\ sorted_by later (fun d => d) (List.map toordinal l)
     = List.map toordinal (sorted_by later toordinal l)
  /\ all_valid (sorted_by later toordinal l).
Proof.
  unfold sorted_reverse.
  induction 1 as [|x l Hx Hl (Es & Ez & Hv)].
  - repeat split. constructor.
  - simpl.
    change (fold_right (insert_by (fun a b => String.ltb b a) (fun s => s)) []
              (List.map strftime_Ymd l))
      with (sorted_by (fun a b => String.ltb b a) (fun s => s) (List.map strftime_Ymd l)).
    change (fold_right (insert_by later (fun d => d)) [] (List.map toordinal l))
      with (sorted_by later (fun d => d) (List.map toordinal l)).
    change (fold_right (insert_by later toordinal) [] l)
      with (sorted_by later toordinal l).
    rewrite Es, Ez. apply insert_by_dates; assumption.
Qed.

(** The loop counts the leading run of consecutive days. *)
Lemma streak_loop_run (l : list datetime) (streak : Z) :
  all_valid l -> l <> [] ->
  streak_loop (List.map strftime_Ymd l) streak
  = Ok (streak - 1 + run_length (List.map toordinal l)).
Proof.
  intros Hl. revert streak. induction Hl as [|a l Ha Hl IH]; intros streak Hne.
  - congruence.
  - destruct Hl as [|b l Hb Hl].
    + simpl. f_equal. lia.
    + change (streak_loop (List.map strftime_Ymd (a :: b :: l)) streak)
        with (current <- strptime_Ymd (strftime_Ymd a) ;;
              prev <- strptime_Ymd (strftime_Ymd b) ;;
              if days_between current prev =? 1
              then streak_loop (List.map strftime_Ymd (b :: l)) (streak + 1)
              else Ok streak).
      rewrite (strptime_strftime a Ha), (strptime_strftime b Hb).
      cbn [bind].
      change (days_between _ _) with (toordinal a - toordinal b).
      change (run_length (List.map toordinal (a :: b :: l)))
        with (if toordinal a - toordinal b =? 1
              then 1 + run_length (List.map toordinal (b :: l)) else 1).
      destruct (toordinal a - toordinal b =? 1).
      * rewrite IH by discriminate. f_equal. lia.
      * f_equal. lia.
Qed.

Lemma logged_on_dates (workouts : list workout) (dates : list datetime) :
  logged_on workouts dates ->
  all_valid dates /\ List.map date_part workouts = List.map strftime_Ymd dates.
Proof.
  induction 1 as [|w d ws ds [Hv E] _ [IHv IHe]].
  - split; [constructor|reflexivity].
  - split; [constructor; assumption|]. simpl. rewrite E, IHe. reflexivity.
Qed.


(** On entries logged on valid calendar days the program computes the
    specified streak. *)
Lemma calculate_streak_refines (now : datetime) (workouts : list workout)
    (dates : list datetime) :
  clock_ok now 1 ->
  logged_on workouts dates ->
  calculate_streak now workouts =
    Ok (current_streak_spec (toordinal now) (List.map toordinal dates)).
Proof.
  intros [Hnow Hclock] Hlog.
  assert (Hord : 1 < toordinal now).
  { change (toordinal year_1000) with 364878 in Hclock. lia. }
  destruct (logged_on_dates workouts dates Hlog) as [Hv Emap].
  destruct (set_of_dates dates Hv) as (l' & Hv' & Es & Ez).
  destruct (sorted_dates l' Hv') as (Ss & Sz & Hv'').
  unfold calculate_streak, current_streak_spec, distinct_desc.
  rewrite Emap, Es, Ss, Ez, Sz.
  destruct workouts as [|w ws].
  - inversion Hlog; subst. simpl in Ez.
    destruct l' as [|? ?]; [reflexivity|discriminate].
  - set (L := sorted_by later toordinal l') in *.
    destruct L as [|x0 L0] eqn:EL; [reflexivity|].
    destruct (prev_day_toordinal now Hnow Hord) as [Hpv Hpo].
    assert (Hsub : sub_days now 1 = Ok (prev_day now)).
    { simpl. destruct (Z.leb_spec (toordinal now) 1); [lia|reflexivity]. }
    rewrite Hsub. cbn [bind List.map].
    assert (Hx0 : valid x0 = true) by (inversion Hv''; assumption).
    rewrite (strftime_eqb x0 now Hx0 Hnow), (strftime_eqb x0 (prev_day now) Hx0 Hpv), Hpo.
    change (strftime_Ymd x0 :: List.map strftime_Ymd L0)
      with (List.map strftime_Ymd (x0 :: L0)).
    change (toordinal x0 :: List.map toordinal L0)
      with (List.map toordinal (x0 :: L0)).
    rewrite (streak_loop_run (x0 :: L0) 1 Hv'') by discriminate.
    destruct (toordinal x0 =? toordinal now), (toordinal x0 =? toordinal now - 1);
      cbn [negb andb orb]; f_equal; lia.
Qed.


Lemma in_insert_by_later (x a : Z) (l : list Z) :
  In x (insert_by later (fun d => d) a l) <-> x = a \/ In x l.
Proof.
  induction l as [|y r IH]; simpl; [intuition|].
  destruct (a <? y); simpl; [rewrite IH|]; intuition.
Qed.

Lemma in_sorted_by_later (x : Z) (l : list Z) :
  In x (sorted_by later (fun d => d) l) <-> In x l.
Proof.
  induction l as [|a l IH]; simpl; [reflexivity|].
  rewrite in_insert_by_later, IH. intuition.
Qed.

Lemma insert_descending (a : Z) (l : list Z) :
  descending l -> ~ In a l -> descending (insert_by later (fun d => d) a l).
Proof.
  unfold descending. induction 1 as [|y r Hr IH Hy]; intros Hnot; simpl.
  - constructor; constructor.
  - rewrite Forall_forall in Hy.
    destruct (Z.ltb_spec a y) as [Hay|Hay].
    + constructor.
      * apply IH. intros Hin. apply Hnot. right. exact Hin.
      * apply Forall_forall. intros x Hx.
        apply in_insert_by_later in Hx. destruct Hx as [->|Hx]; [exact Hay|auto].
    + assert (Hlt : y < a).
      { destruct (Z.eq_dec a y) as [->|]; [|lia]. exfalso. apply Hnot. left. reflexivity. }
      constructor.
      * constructor; [exact Hr|apply Forall_forall; exact Hy].
      * apply Forall_forall. intros x [<-|Hx]; [exact Hlt|].
        specialize (Hy x Hx). lia.
Qed.

(** [distinct_desc] lists every day once, most recent first. *)
Lemma distinct_desc_descending (days : list Z) :
  descending (distinct_desc days) /\
  forall d, In d (distinct_desc days) <-> In d days.
Proof.
  unfold distinct_desc. split.
  - pose proof (NoDup_nodup Z.eq_dec days) as Hnd.
    induction Hnd as [|a l Ha Hl IH]; simpl; [constructor|].
    apply insert_descending; [exact IH|].
    rewrite in_sorted_by_later. exact Ha.
  - intros d. rewrite in_sorted_by_later. apply nodup_In.
Qed.

Lemma sorted_by_descending (l : list Z) :
  descending l -> sorted_by later (fun d => d) l = l.
Proof.
  unfold descending. induction 1 as [|a l Hl IH Ha]; [reflexivity|].
  simpl.
  change (fold_right (insert_by later (fun d => d)) [] l)
    with (sorted_by later (fun d => d) l).
  rewrite IH. destruct l as [|b r]; [reflexivity|]. simpl.
  inversion Ha as [|? ? Hb _]; subst.
  destruct (Z.ltb_spec a b); [lia|reflexivity].
Qed.

Lemma descending_NoDup (l : list Z) : descending l -> NoDup l.
Proof.
  unfold descending. induction 1 as [|a l Hl IH Ha]; constructor; [|exact IH].
  rewrite Forall_forall in Ha. intros Hin. specialize (Ha a Hin). lia.
Qed.

Lemma distinct_desc_fixed (l : list Z) : descending l -> distinct_desc l = l.
Proof.
  intros H. unfold distinct_desc.
  rewrite (nodup_fixed_point Z.eq_dec (descending_NoDup l H)).
  apply sorted_by_descending. exact H.
Qed.

Lemma streak_spec_examples (t : Z) :
  current_streak_spec t [t; t - 1; t - 2] = 3
  /\ current_streak_spec t [t - 2; t - 3] = 0
  /\ current_streak_spec t [t; t - 2] = 1.
Proof.
  unfold current_streak_spec.
  rewrite !distinct_desc_fixed
    by (repeat constructor; lia).
  cbn [run_length].
  rewrite Z.eqb_refl. cbn [orb].
  replace (t - (t - 1)) with 1 by lia.
  replace (t - 1 - (t - 2)) with 1 by lia.
  replace (t - (t - 2)) with 2 by lia.
  destruct (Z.eqb_spec (t - 2) t); [lia|].
  destruct (Z.eqb_spec (t - 2) (t - 1)); [lia|].
  repeat split.
Qed.

Lemma days_ago_toordinal (now : datetime) (n : nat) :
  valid now = true -> Z.of_nat n < toordinal now ->
  valid (days_ago now n) = true /\
  toordinal (days_ago now n) = toordinal now - Z.of_nat n.
Proof.
  intros Hv Hn. induction n as [|n IH].
  - split; [exact Hv|simpl; lia].
  - destruct IH as [Hvn Hon]; [lia|].
    change (days_ago now (S n)) with (prev_day (days_ago now n)).
    destruct (prev_day_toordinal (days_ago now n) Hvn) as [Hv' Ho']; [lia|].
    split; [exact Hv'|]. rewrite Ho', Hon. lia.
Qed.

Lemma sub_days_days_ago (now : datetime) (n : nat) :
  valid now = true -> Z.of_nat n < toordinal now ->
  sub_days now n = Ok (days_ago now n).
Proof.
  revert now. induction n as [|n IH]; intros now Hv Hn; [reflexivity|].
  cbn [sub_days]. destruct (Z.leb_spec (toordinal now) 1) as [Hle|Hgt]; [lia|].
  destruct (prev_day_toordinal now Hv Hgt) as [Hv' Ho'].
  rewrite IH by (assumption || lia).
  unfold days_ago. rewrite Nat.iter_succ_r. reflexivity.
Qed.

(** C4.  For entries logged on calendar days, [calculate_streak] returns
    the specified streak: 0 when the most recent distinct date is neither
    today nor yesterday, else the number of entries of the descending
    distinct-date list up to and including the first whose gap to the next
    is not exactly one day.  Entries on today, yesterday and the day before
    give 3; on the two days before yesterday, 0; on today and the day
    before yesterday, 1. *)
Theorem calculate_streak_meets_spec :
  (forall (now : datetime) (workouts : list workout) (dates : list datetime),
      clock_ok now 1 ->
      logged_on workouts dates ->
      calculate_streak now workouts =
        Ok (current_streak_spec (toordinal now) (List.map toordinal dates)))
  /\ (forall days : list Z,
        descending (distinct_desc days) /\
        forall d, In d (distinct_desc days) <-> In d days)
  /\ (forall (now : datetime) (workouts : list workout),
        clock_ok now 3 ->
        (logged_on workouts [days_ago now 0; days_ago now 1; days_ago now 2] ->
         calculate_streak now workouts = Ok 3)
        /\ (logged_on workouts [days_ago now 2; days_ago now 3] ->
            calculate_streak now workouts = Ok 0)
        /\ (logged_on workouts [days_ago now 0; days_ago now 2] ->
            calculate_streak now workouts = Ok 1)).
Proof.
  split; [exact calculate_streak_refines|].
  split; [exact distinct_desc_descending|].
  intros now workouts [Hv Hn].
  assert (H1 : clock_ok now 1) by (split; [exact Hv|lia]).
  change (toordinal year_1000) with 364878 in Hn.
  destruct (days_ago_toordinal now 1 Hv) as [_ E1]; [lia|].
  destruct (days_ago_toordinal now 2 Hv) as [_ E2]; [lia|].
  destruct (days_ago_toordinal now 3 Hv) as [_ E3]; [lia|].
  destruct (streak_spec_examples (toordinal now)) as (S1 & S2 & S3).
  change (Z.of_nat 1) with 1 in E1. change (Z.of_nat 2) with 2 in E2.
  change (Z.of_nat 3) with 3 in E3.
  repeat split; intros Hlog;
    rewrite (calculate_streak_refines now workouts _ H1 Hlog);
    cbn [List.map]; change (days_ago now 0) with now;
    rewrite ?E1, ?E2, ?E3; f_equal; assumption.
Qed.

Lemma calculate_streak_meets_spec_witness :
  calculate_streak march_1st
    [session "2024-03-01 07:15"; session "2024-02-29 18:30";
     session "2024-03-01 19:40"; session "2024-02-27 18:30"]
  = Ok (current_streak_spec (toordinal march_1st)
          (List.map toordinal
             [on_day 2024 3 1; on_day 2024 2 29; on_day 2024 3 1; on_day 2024 2 27])).
Proof.
  apply (proj1 calculate_streak_meets_spec march_1st).
  - split; [reflexivity|vm_compute; discriminate].
  - repeat constructor.
Defined.

(** The worked examples on 1 March 2024. *)
Lemma calculate_streak_examples :
  calculate_streak march_1st
    [session "2024-03-01 07:15"; session "2024-02-29 18:30";
     session "2024-02-28 18:30"] = Ok 3
  /\ calculate_streak march_1st
       [session "2024-02-28 18:30"; session "2024-02-27 18:30"] = Ok 0
  /\ calculate_streak march_1st
       [session "2024-03-01 07:15"; session "2024-02-28 18:30"] = Ok 1
  /\ calculate_streak march_1st [] = Ok 0.
Proof. vm_compute. auto. Qed.

End StreakFacts.

(** ** Record store *)

Section StoreClaims.

Import PR PyDate Weekly Sample.

(** C8 (amended).  A missing file loads as the empty collection, so the
    operations work on a first run; a file that is not JSON makes the load
    raise the decoder's error. *)
Theorem load_missing_is_empty :
  (forall A : Type, load_data (Missing : file (list A)) = Ok [])
  /\ (forall V : Type, load_dict_data (Missing : file (dict V)) = Ok [])
  /\ (forall (A : Type) (raw : string),
        load_data (Corrupt raw : file (list A)) = Raise JSONDecodeError)
  /\ (forall (V : Type) (raw : string),
        load_dict_data (Corrupt raw : file (dict V)) = Raise JSONDecodeError)
  /\ load_templates first_run = Ok []
  /\ (forall exercise, get_pr_for_exercise first_run exercise = Ok None)
  /\ (forall exercise new_weight,
        exists r, check_pr first_run exercise new_weight = Ok r)
  /\ (forall today,
        clock_ok today 7 ->
        view_weekly_summary first_run today =
          Ok [Banner;
              Period (strftime_Ymd (days_ago today 7)) (strftime_Ymd today);
              Weekly.Rule; WorkoutsHeading; NoWorkouts; NutritionHeading; NoMeals]).
Proof.
  do 6 (split; [reflexivity|]). split.
  - intros exercise new_weight. unfold check_pr.
    destruct (parse_weight (Some new_weight)) as [nv|]; [|eexists; reflexivity].
    destruct (negb (PyFloat.truthy nv)); eexists; reflexivity.
  - intros today [Hv Hn]. change (toordinal year_1000) with 364878 in Hn.
    unfold view_weekly_summary.
    rewrite (sub_days_days_ago today 7 Hv) by lia. reflexivity.
Qed.

Lemma load_missing_is_empty_witness :
  view_weekly_summary first_run march_1st =
    Ok [Banner; Period "2024-02-23" "2024-03-01";
        Weekly.Rule; WorkoutsHeading; NoWorkouts; NutritionHeading; NoMeals].
Proof.
  apply (proj2 (proj2 (proj2 (proj2 (proj2 (proj2 (proj2 load_missing_is_empty))))))
           march_1st).
  split; [reflexivity|vm_compute; discriminate].
Defined.

(** C8 as stated fails: a workout file that is not JSON is not read as the
    empty collection; the decoder's error leaves [load_data] and every
    caller. *)
Lemma load_corrupt_counterexample :
  load_data (WORKOUT_FILE damaged) = Raise JSONDecodeError
  /\ load_data (WORKOUT_FILE damaged) <> Ok []
  /\ load_dict_data (TEMPLATES_FILE damaged) = Raise JSONDecodeError
  /\ get_pr_for_exercise damaged "Squat" = Raise JSONDecodeError
  /\ check_pr damaged "Squat" "100kg" = Raise JSONDecodeError
  /\ view_weekly_summary damaged march_1st = Raise JSONDecodeError.
Proof.
  split; [reflexivity|]. split; [discriminate|].
  repeat (split; [reflexivity|]). reflexivity.
Qed.

End StoreClaims.

(** ** Weekly nutrition *)

Section NutritionClaims.

Import PyFloat PyNum PyList PyDate Weekly Sample.

Lemma set_of_nonempty (l : list string) : l <> [] -> set_of l <> [].
Proof.
  destruct l as [|a l]; [congruence|]. intros _ E.
  assert (H : In a (set_of (a :: l))) by (apply nodup_In; left; reflexivity).
  rewrite E in H. destruct H.
Qed.

Lemma distinct_days_positive (week_meals : list meal) :
  week_meals <> [] ->
  (1 <= List.length (set_of (List.map m_date week_meals)))%nat.
Proof.
  intros Hne.
  assert (H : set_of (List.map m_date week_meals) <> []).
  { apply set_of_nonempty. destruct week_meals; [congruence|discriminate]. }
  destruct (set_of (List.map m_date week_meals)); [congruence|simpl; lia].
Qed.

(** The meals that reach the nutrition block are those dated from seven
    days before today. *)
Lemma weekly_summary_nutrition (d : disk) (today : datetime) (lines : list line) :
  view_weekly_summary d today = Ok lines ->
  exists week_ago meals above nutrition,
    sub_days today 7 = Ok week_ago /\
    load_data (MEALS_FILE d) = Ok meals /\
    nutrition_stats
      (filter (fun m => String.leb (strftime_Ymd week_ago) (m_date m)) meals)
    = Ok nutrition /\
    lines = above ++ nutrition.
Proof.
  unfold view_weekly_summary.
  destruct (sub_days today 7) as [week_ago|e]; simpl; [|discriminate].
  destruct (load_data (WORKOUT_FILE d)) as [workouts|e]; simpl; [|discriminate].
  destruct (load_data (MEALS_FILE d)) as [meals|e]; simpl; [|discriminate].
  destruct (workout_stats today workouts _) as [ws|e]; simpl; [|discriminate].
  destruct (nutrition_stats _) as [ns|e] eqn:En; simpl; [|discriminate].
  intros E. injection E as <-.
  exists week_ago, meals,
    ([Banner; Period (strftime_Ymd week_ago) (strftime_Ymd today); Weekly.Rule] ++ ws),
    ns.
  split; [reflexivity|]. split; [reflexivity|]. split; [exact En|].
  rewrite <- app_assoc. reflexivity.
Qed.

(** With a day to divide by, the integer division fails by overflow
    only. *)
Lemma truediv_cases (n d : Z) :
  d <> 0 ->
  (exists q, truediv n d = Ok q /\ quotient n d = q)
  \/ truediv n d = Raise OverflowError.
Proof.
  intros Hd. unfold truediv.
  replace (d =? 0) with false by (symmetry; apply Z.eqb_neq; exact Hd).
  destruct (quotient n d) as [s|s| |s m e]; eauto.
Qed.

(** The nutrition block follows the division. *)
Lemma nutrition_stats_average (week_meals : list meal) :
  week_meals <> [] ->
  let total := fold_left Z.add (List.map m_calories week_meals) 0 in
  let days := List.length (set_of (List.map m_date week_meals)) in
  nutrition_stats week_meals =
    match truediv total (Z.of_nat days) with
    | Ok avg =>
        Ok ([NutritionHeading; TotalCalories total; DaysLogged days;
             DailyAverage (Float avg); TopFoods]
            ++ List.map (fun x => TopFood (fst x) (snd x))
                 (firstn 3 (by_count_desc (count_all (List.map m_food week_meals)))))
    | Raise e => Raise e
    end.
Proof.
  intros Hne total days.
  pose proof (distinct_days_positive week_meals Hne) as Hd. fold days in Hd.
  assert (Hn : nutrition_stats week_meals =
               bind (avg_daily total days) (fun avg =>
                 Ok ([NutritionHeading; TotalCalories total; DaysLogged days;
                      DailyAverage avg; TopFoods]
                     ++ List.map (fun x => TopFood (fst x) (snd x))
                          (firstn 3 (by_count_desc
                                       (count_all (List.map m_food week_meals)))))))
    by (destruct week_meals; [congruence|reflexivity]).
  rewrite Hn. unfold avg_daily.
  destruct (Nat.ltb_spec 0 days); [|lia].
  destruct (truediv total (Z.of_nat days)); reflexivity.
Qed.

(** C6 (amended).  For the meals of the weekly window, when there is at
    least one, the summary reports the sum of their calories, the number of
    distinct days among them (at least 1) and the correctly rounded
    quotient of the two; 2100 calories over 3 days give 700.  When that
    quotient is too large for a float the division raises [OverflowError]
    and the summary stops before the nutrition figures, as for two meals
    of 1e308 grams of chicken breast on one day.  When there is no meal in
    the window it reports "no meals logged this week" and no total or
    average. *)
Theorem weekly_nutrition_totals :
  (forall d today lines,
      view_weekly_summary d today = Ok lines ->
      exists week_ago meals above nutrition,
        sub_days today 7 = Ok week_ago /\
        load_data (MEALS_FILE d) = Ok meals /\
        nutrition_stats
          (filter (fun m => String.leb (strftime_Ymd week_ago) (m_date m)) meals)
        = Ok nutrition /\
        lines = above ++ nutrition)
  /\ (forall week_meals : list meal,
        week_meals <> [] ->
        let total := fold_left Z.add (List.map m_calories week_meals) 0 in
        let days := List.length (set_of (List.map m_date week_meals)) in
        (1 <= days)%nat /\
        ((exists avg top_foods,
            truediv total (Z.of_nat days) = Ok avg /\
            quotient total (Z.of_nat days) = avg /\
            nutrition_stats week_meals =
              Ok ([NutritionHeading; TotalCalories total; DaysLogged days;
                   DailyAverage (Float avg); TopFoods]
                  ++ top_foods))
         \/ (truediv total (Z.of_nat days) = Raise OverflowError /\
             nutrition_stats week_meals = Raise OverflowError)))
  /\ truediv 2100 3 = Ok (of_Z 700)
  /\ nutrition_stats banquets = Raise OverflowError
  /\ view_weekly_summary banquet_week march_1st = Raise OverflowError
  /\ nutrition_stats [] = Ok [NutritionHeading; NoMeals].
Proof.
  split; [exact weekly_summary_nutrition|].
  split; [|split; [reflexivity|split; [vm_compute; reflexivity|split;
                                       [vm_compute; reflexivity|reflexivity]]]].
  intros week_meals Hne total days.
  pose proof (distinct_days_positive week_meals Hne) as Hd.
  split; [exact Hd|].
  pose proof (nutrition_stats_average week_meals Hne) as Hn. cbv zeta in Hn.
  fold total days in Hn.
  destruct (truediv_cases total (Z.of_nat days)) as [(q & Eq & Hq)|Eo]; [lia| |].
  - left. rewrite Eq in Hn. eexists. eexists.
    split; [exact Eq|]. split; [exact Hq|exact Hn].
  - right. rewrite Eo in Hn. auto.
Qed.

Lemma weekly_nutrition_totals_witness :
  (1 <= 3)%nat /\
  exists top_foods,
    nutrition_stats week_of_meals =
      Ok ([NutritionHeading; TotalCalories 2100; DaysLogged 3;
           DailyAverage (Float (of_Z 700)); TopFoods]
          ++ top_foods).
Proof.
  destruct (proj1 (proj2 weekly_nutrition_totals) week_of_meals
              ltac:(discriminate))
    as [Hd [(avg & top_foods & Ea & _ & En)|[Eo _]]].
  - split; [exact Hd|]. exists top_foods.
    vm_compute in Ea. injection Ea as <-. exact En.
  - vm_compute in Eo. discriminate.
Defined.

(** C6 as stated fails: with no meal in the window there is no day to
    divide by, and the summary prints no average at all, not 0. *)
Lemma weekly_no_meals_counterexample :
  view_weekly_summary first_run march_1st =
    Ok [Banner; Period "2024-02-23" "2024-03-01";
        Weekly.Rule; WorkoutsHeading; NoWorkouts; NutritionHeading; NoMeals]
  /\ forall lines avg,
       view_weekly_summary first_run march_1st = Ok lines ->
       ~ In (DailyAverage avg) lines.
Proof.
  split; [reflexivity|].
  intros lines avg E. vm_compute in E. injection E as <-.
  simpl. intuition discriminate.
Qed.

End NutritionClaims.

(* ================================================================== *)
(** * Further properties *)
(* ================================================================== *)

(** ** PR tracker *)

Section PRMore.

Import PyStr PyFloat PR Sample.

Lemma ltb_leb_trans (a b c : float) :
  ltb a b = true -> leb b c = true -> ltb a c = true.
Proof.
  unfold ltb, leb, SFltb, SFleb, SFcompare.
  destruct a as [sa|sa| |sa ma ea], b as [sb|sb| |sb mb eb],
           c as [sc|sc| |sc mc ec];
    try destruct sa; try destruct sb; try destruct sc;
    try reflexivity; try discriminate;
    repeat match goal with
      | |- context [Pos.compare_cont Eq ?x ?y] =>
          change (Pos.compare_cont Eq x y) with (Pos.compare x y)
      end;
    repeat match goal with
      | |- context [Z.compare ?x ?y] => destruct (Z.compare_spec x y)
      | |- context [Pos.compare ?x ?y] => destruct (Pos.compare_spec x y)
      end;
    simpl; try reflexivity; try discriminate; intros _ _; lia.
Qed.

Lemma scanned_first_step (seen : list workout) (st : option workout * float)
    (w : workout) :
  scanned_first seen st -> scanned_first (seen ++ [w]) (pr_step st w).
Proof.
  intros Hs. unfold pr_step. destruct st as [best best_weight].
  fold (entry_weight w).
  assert (Hmax : forall x v, In x seen -> entry_weight x = Some v ->
                             gtb v best_weight = false)
    by (inversion Hs; subst; auto).
  assert (Hnonneg : gtb best_weight (of_Z 0) = true \/ best_weight = of_Z 0)
    by (inversion Hs; subst; auto).
  assert (Hkeep : (forall v, entry_weight w = Some v -> gtb v best_weight = false) ->
                  scanned_first (seen ++ [w]) (best, best_weight)).
  { intros Hw.
    assert (Hall : forall x v, In x (seen ++ [w]) -> entry_weight x = Some v ->
                               gtb v best_weight = false).
    { intros x v Hin Ev. apply in_app_or in Hin.
      destruct Hin as [Hin|[->|[]]]; eauto. }
    inversion Hs as [Hnone | b bw before after Eseen Eb Hpos Hm Hbefore]; subst.
    - apply scanned_first_none. exact Hall.
    - apply (scanned_first_best _ b best_weight before (after ++ [w])); auto.
      rewrite <- app_assoc. reflexivity. }
  destruct (entry_weight w) as [weight|] eqn:Ew.
  - destruct (gtb weight best_weight) eqn:Hgt.
    + assert (H0 : gtb weight (of_Z 0) = true).
      { destruct Hnonneg as [Hp| ->]; [|exact Hgt].
        unfold gtb in *. eapply ltb_trans; eassumption. }
      rewrite (gtb_zero_truthy _ H0). simpl.
      apply (scanned_first_best _ w weight seen []); auto.
      * intros x v Hin Ev. apply in_app_or in Hin. destruct Hin as [Hin|[->|[]]].
        -- eapply gtb_raise; [|exact Hgt]. eauto.
        -- rewrite Ew in Ev. injection Ev as <-. apply ltb_irrefl.
      * intros x v Hin Ev. unfold geb.
        destruct (leb weight v) eqn:Hle; [|reflexivity].
        assert (Hc : ltb best_weight v = true)
          by (eapply ltb_leb_trans; [exact Hgt|exact Hle]).
        change (ltb best_weight v) with (gtb v best_weight) in Hc.
        rewrite (Hmax x v Hin Ev) in Hc. discriminate.
    + rewrite andb_false_r. apply Hkeep.
      intros v Ev. injection Ev as <-. exact Hgt.
  - apply Hkeep. intros v Ev. discriminate.
Qed.

Lemma scanned_first_fold (l seen : list workout) (st : option workout * float) :
  scanned_first seen st -> scanned_first (seen ++ l) (fold_left pr_step l st).
Proof.
  revert seen st. induction l as [|w l IH]; intros seen st Hs; simpl.
  - rewrite app_nil_r. exact Hs.
  - replace (seen ++ w :: l) with ((seen ++ [w]) ++ l)
      by (rewrite <- app_assoc; reflexivity).
    apply IH. apply scanned_first_step. exact Hs.
Qed.

Lemma scan_first_result (l : list workout) :
  scanned_first l (fold_left pr_step l (None, of_Z 0)).
Proof.
  apply (scanned_first_fold l []). apply scanned_first_none. intros w v [].
Qed.

End PRMore.

Section PRExtras.

Import PyStr PyFloat PR Sample.

(** The scan of a readable history, read through [get_pr_for_exercise]. *)
Lemma get_pr_scan (d : disk) (h : list workout) (exercise : string) :
  WORKOUT_FILE d = Stored h ->
  (get_pr_for_exercise d exercise = Ok None
   /\ forall w v, In w h -> same_exercise exercise w = true ->
                  entry_weight w = Some v -> gtb v (of_Z 0) = false)
  \/ exists b bw,
       get_pr_for_exercise d exercise = Ok (Some b)
       /\ In b h /\ same_exercise exercise b = true
       /\ entry_weight b = Some bw /\ gtb bw (of_Z 0) = true
       /\ forall w v, In w h -> same_exercise exercise w = true ->
                      entry_weight w = Some v -> gtb v bw = false.
Proof.
  intros Ed. rewrite (get_pr_stored d h exercise Ed).
  destruct (scan_result (filter (same_exercise exercise) h))
    as [[En Hnone] | (b & bw & Eb & Hb & Ew & Hpos & Hmax)].
  - left. rewrite En. split; [reflexivity|].
    intros w v Hin Hm Ev. apply (Hnone w v); [apply filter_In; auto|exact Ev].
  - right. apply filter_In in Hb. destruct Hb as [Hbh Hbm].
    exists b, bw. rewrite Eb. repeat split; auto.
    intros w v Hin Hm Ev. apply (Hmax w v); [apply filter_In; auto|exact Ev].
Qed.

(** X1.  On a readable history [get_pr_for_exercise] returns nothing exactly
    when no entry of the exercise has a weight above zero; what it returns
    is a stored entry of the exercise whose weight is above zero and is
    exceeded by no entry of the exercise. *)
Theorem get_pr_is_best_stored_entry
    (d : disk) (h : list workout) (exercise : string) :
  WORKOUT_FILE d = Stored h ->
  (get_pr_for_exercise d exercise = Ok None <->
   forall w v, In w h -> same_exercise exercise w = true ->
               entry_weight w = Some v -> gtb v (of_Z 0) = false)
  /\ (forall b, get_pr_for_exercise d exercise = Ok (Some b) ->
        In b h /\ same_exercise exercise b = true /\
        exists bw, entry_weight b = Some bw /\ gtb bw (of_Z 0) = true /\
          forall w v, In w h -> same_exercise exercise w = true ->
                      entry_weight w = Some v -> gtb v bw = false).
Proof.
  intros Ed.
  destruct (get_pr_scan d h exercise Ed)
    as [[En Hnone] | (b & bw & Eb & Hbh & Hbm & Ew & Hpos & Hmax)].
  - rewrite En. split.
    + split; [intros _; exact Hnone|reflexivity].
    + intros b E. discriminate.
  - rewrite Eb. split.
    + split; [discriminate|]. intros Hall.
      rewrite (Hall b bw Hbh Hbm Ew) in Hpos. discriminate.
    + intros b' E. injection E as <-. split; [exact Hbh|]. split; [exact Hbm|].
      exists bw. auto.
Qed.

Lemma get_pr_is_best_stored_entry_witness :
  In (entry "Squat" "100kg") [entry "Bench Press" "80kg"; entry "Squat" "100kg"] /\
  same_exercise "SQUAT" (entry "Squat" "100kg") = true /\
  exists bw, entry_weight (entry "Squat" "100kg") = Some bw /\
    gtb bw (of_Z 0) = true /\
    forall w v, In w [entry "Bench Press" "80kg"; entry "Squat" "100kg"] ->
                same_exercise "SQUAT" w = true ->
                entry_weight w = Some v -> gtb v bw = false.
Proof.
  apply (proj2 (get_pr_is_best_stored_entry
                  (disk_of [entry "Bench Press" "80kg"; entry "Squat" "100kg"])
                  [entry "Bench Press" "80kg"; entry "Squat" "100kg"] "SQUAT"
                  eq_refl)).
  reflexivity.
Defined.

(** X2.  When several entries tie for the best weight the earliest is
    returned: no entry of the exercise stored before the returned one
    reaches its weight. *)
Theorem get_pr_keeps_earliest_on_tie
    (d : disk) (h : list workout) (exercise : string) (b : workout) :
  WORKOUT_FILE d = Stored h ->
  get_pr_for_exercise d exercise = Ok (Some b) ->
  exists before after bw,
    filter (same_exercise exercise) h = before ++ b :: after /\
    entry_weight b = Some bw /\
    forall w v, In w before -> entry_weight w = Some v -> geb v bw = false.
Proof.
  intros Ed. rewrite (get_pr_stored d h exercise Ed).
  pose proof (scan_first_result (filter (same_exercise exercise) h)) as Hs.
  destruct (fold_left pr_step (filter (same_exercise exercise) h) (None, of_Z 0))
    as [best best_weight].
  simpl. intros E. injection E as ->.
  inversion Hs as [|b' bw before after Eseen Eb Hpos Hmax Hbefore]; subst.
  exists before, after, best_weight. auto.
Qed.

Lemma get_pr_keeps_earliest_on_tie_witness :
  exists before after bw,
    filter (same_exercise "Squat")
      [entry "Squat" "90kg"; entry "Squat" "100kg"; entry "squat" "100.0kg"]
    = before ++ entry "Squat" "100kg" :: after /\
    entry_weight (entry "Squat" "100kg") = Some bw /\
    forall w v, In w before -> entry_weight w = Some v -> geb v bw = false.
Proof.
  apply (get_pr_keeps_earliest_on_tie
           (disk_of [entry "Squat" "90kg"; entry "Squat" "100kg";
                     entry "squat" "100.0kg"])
           [entry "Squat" "90kg"; entry "Squat" "100kg"; entry "squat" "100.0kg"]
           "Squat" (entry "Squat" "100kg")); reflexivity.
Defined.

(** X3.  [check_pr] never reports a previous value without a record: a
    reported text is the weight text of a stored entry of the exercise,
    and the new weight parses strictly above it. *)
Theorem check_pr_previous_is_stored
    (d : disk) (exercise new_weight : string) (is_pr : bool) (t : string) :
  check_pr d exercise new_weight = Ok (is_pr, Some t) ->
  is_pr = true /\
  exists h b nv bw,
    WORKOUT_FILE d = Stored h /\ In b h /\ same_exercise exercise b = true /\
    w_weight b = Some t /\
    parse_weight (Some new_weight) = Some nv /\
    parse_weight (Some t) = Some bw /\ gtb nv bw = true.
Proof.
  unfold check_pr.
  destruct (parse_weight (Some new_weight)) as [nv|] eqn:En; [|discriminate].
  destruct (negb (truthy nv)); [discriminate|].
  destruct (WORKOUT_FILE d) as [|raw|h] eqn:Ed.
  - rewrite (get_pr_missing d exercise Ed). discriminate.
  - unfold get_pr_for_exercise. rewrite Ed. discriminate.
  - destruct (get_pr_scan d h exercise Ed)
      as [[Eg _] | (b & bw & Eb & Hin & Hm & Ew & _ & _)];
      [rewrite Eg; discriminate|].
    rewrite Eb. simpl.
    fold (entry_weight b). rewrite Ew.
    destruct (truthy bw && gtb nv bw) eqn:Ec; [|discriminate].
    intros E. injection E as <- Et. split; [reflexivity|].
    apply andb_true_iff in Ec. destruct Ec as [_ Hgt].
    assert (Eo : parse_weight (Some t) = Some bw)
      by (rewrite <- Et, entry_weight_stored; exact Ew).
    exists h, b, nv, bw. split; [reflexivity|]. auto 10.
Qed.

Lemma check_pr_previous_is_stored_witness :
  true = true /\
  exists h b nv bw,
    WORKOUT_FILE (disk_of [entry "Squat" "100kg"]) = Stored h /\ In b h /\
    same_exercise "Squat" b = true /\
    w_weight b = Some "100kg" /\
    parse_weight (Some "105kg") = Some nv /\
    parse_weight (Some "100kg") = Some bw /\ gtb nv bw = true.
Proof.
  apply (check_pr_previous_is_stored (disk_of [entry "Squat" "100kg"])
           "Squat" "105kg" true "100kg").
  reflexivity.
Defined.

Lemma lower_char_idem (c : ascii) : lower_char (lower_char c) = lower_char c.
Proof. destruct c as [[] [] [] [] [] [] [] []]; reflexivity. Qed.

Lemma lower_idem (s : string) : lower (lower s) = lower s.
Proof.
  induction s as [|c r IH]; [reflexivity|]. simpl.
  rewrite lower_char_idem, IH. reflexivity.
Qed.

Lemma lower_empty (s : string) : lower s = EmptyString -> s = EmptyString.
Proof. destruct s; [reflexivity|discriminate]. Qed.

(** [parse_weight] reads its argument through [strip] and [lower] only. *)
Lemma parse_weight_normal (s : string) :
  parse_weight (Some s) = parse_weight (Some (strip (lower s))).
Proof.
  assert (Hempty : parse_weight (Some (strip (lower EmptyString))) = None)
    by reflexivity.
  destruct s as [|c r]; [reflexivity|].
  set (s := String c r).
  assert (Hs : parse_weight (Some s) =
               (let t := strip (lower s) in
                if contains "kg" t then of_string (strip (replace "kg" "" t))
                else if contains "lb" t
                then option_map (fun x => mul x LB_TO_KG)
                       (of_string (strip (replace "lb" "" (replace "lbs" "" t))))
                else of_string t)) by reflexivity.
  rewrite Hs. cbv zeta.
  destruct (strip (lower s)) as [|c' r'] eqn:Et; [reflexivity|].
  rewrite <- Et.
  assert (Hn : strip (lower (strip (lower s))) = strip (lower s)).
  { rewrite <- lower_strip, strip_idem, lower_strip, lower_idem. reflexivity. }
  unfold parse_weight. rewrite Et. rewrite <- Et. rewrite Hn. reflexivity.
Qed.

(** X4.  The weight parser ignores letter case and surrounding blanks. *)
Theorem parse_weight_ignores_case_and_blanks (s : string) :
  parse_weight (Some (lower s)) = parse_weight (Some s)
  /\ parse_weight (Some (strip s)) = parse_weight (Some s).
Proof.
  split.
  - rewrite (parse_weight_normal (lower s)), (parse_weight_normal s), lower_idem.
    reflexivity.
  - rewrite (parse_weight_normal (strip s)), (parse_weight_normal s).
    rewrite <- !lower_strip, strip_idem. reflexivity.
Qed.

(** X5.  [check_pr] gives the same answer for exercise names that differ
    in letter case only, and for weight texts that differ in letter case
    and surrounding blanks only. *)
Theorem check_pr_ignores_case
    (d : disk) (exercise exercise' new_weight new_weight' : string) :
  lower exercise = lower exercise' ->
  strip (lower new_weight) = strip (lower new_weight') ->
  check_pr d exercise new_weight = check_pr d exercise' new_weight'.
Proof.
  intros Hex Hw. unfold check_pr.
  rewrite (parse_weight_normal new_weight), (parse_weight_normal new_weight'), Hw.
  assert (Hg : get_pr_for_exercise d exercise = get_pr_for_exercise d exercise').
  { unfold get_pr_for_exercise, same_exercise. rewrite Hex. reflexivity. }
  rewrite Hg. reflexivity.
Qed.

Lemma check_pr_ignores_case_witness :
  check_pr (disk_of [entry "Squat" "100kg"]) "SQUAT" " 105 KG "
  = check_pr (disk_of [entry "Squat" "100kg"]) "squat" "105 kg".
Proof.
  apply (check_pr_ignores_case (disk_of [entry "Squat" "100kg"])
           "SQUAT" "squat" " 105 KG " "105 kg"); reflexivity.
Defined.

End PRExtras.

Section StreakExtras.

Import PyStr PyList PyDate Weekly Sample.

Lemma run_length_bounds (ds : list Z) :
  0 <= run_length ds <= Z.of_nat (List.length ds)
  /\ (ds <> [] -> 1 <= run_length ds).
Proof.
  induction ds as [|a r IH]; [simpl; split; [lia|congruence]|].
  destruct r as [|b r'].
  - simpl. split; [lia|]. intros _. lia.
  - change (run_length (a :: b :: r'))
      with (if a - b =? 1 then 1 + run_length (b :: r') else 1).
    change (List.length (a :: b :: r')) with (S (List.length (b :: r'))).
    destruct IH as [IH1 IH2]. specialize (IH2 ltac:(discriminate)).
    destruct (a - b =? 1); split; try lia; intros _; lia.
Qed.

Lemma length_nodup_le {A : Type} (dec : forall x y : A, {x = y} + {x <> y})
    (l : list A) :
  (List.length (nodup dec l) <= List.length l)%nat.
Proof.
  induction l as [|a r IH]; [apply Nat.le_refl|]. simpl.
  destruct (in_dec dec a r); simpl; lia.
Qed.

Lemma length_distinct_desc (days : list Z) :
  (List.length (distinct_desc days) <= List.length days)%nat.
Proof.
  unfold distinct_desc. rewrite length_sorted_by. apply length_nodup_le.
Qed.

Lemma descending_tail (a : Z) (r : list Z) :
  descending (a :: r) -> descending r /\ forall x, In x r -> x < a.
Proof.
  intros H. apply StronglySorted_inv in H. destruct H as [Hr Ha].
  split; [exact Hr|]. intros x Hx.
  rewrite Forall_forall in Ha. apply Ha, Hx.
Qed.

(** A descending list is determined by its elements. *)
Lemma descending_ext (l1 l2 : list Z) :
  descending l1 -> descending l2 ->
  (forall x, In x l1 <-> In x l2) -> l1 = l2.
Proof.
  revert l2. induction l1 as [|a1 r1 IH]; intros [|a2 r2] H1 H2 Hx.
  - reflexivity.
  - exfalso. apply (proj2 (Hx a2)). left. reflexivity.
  - exfalso. apply (proj1 (Hx a1)). left. reflexivity.
  - destruct (descending_tail _ _ H1) as [D1 L1].
    destruct (descending_tail _ _ H2) as [D2 L2].
    assert (Ea : a1 = a2).
    { destruct (proj1 (Hx a1) (or_introl eq_refl)) as [E|I1]; [auto|].
      destruct (proj2 (Hx a2) (or_introl eq_refl)) as [E|I2]; [auto|].
      specialize (L1 _ I2). specialize (L2 _ I1). lia. }
    subst a2. f_equal. apply IH; auto.
    intros x. split; intros I.
    + destruct (proj1 (Hx x) (or_intror I)) as [E|I']; [|exact I'].
      specialize (L1 _ I). lia.
    + destruct (proj2 (Hx x) (or_intror I)) as [E|I']; [|exact I'].
      specialize (L2 _ I). lia.
Qed.

(** The days counted by [run_length] were all logged; the day before
    them was not. *)
Lemma run_length_run (ds : list Z) (a : Z) (r : list Z) :
  ds = a :: r -> descending ds ->
  (forall i, 0 <= i < run_length ds -> In (a - i) ds)
  /\ ~ In (a - run_length ds) ds.
Proof.
  revert a r. induction ds as [|a0 r0 IH]; intros a r E D; [discriminate|].
  injection E as -> ->.
  destruct (descending_tail _ _ D) as [Dr Lr].
  destruct r as [|b r'].
  - simpl. split.
    + intros i Hi. left. lia.
    + intros [E|[]]. lia.
  - change (run_length (a :: b :: r'))
      with (if a - b =? 1 then 1 + run_length (b :: r') else 1).
    destruct (IH b r' eq_refl Dr) as [Hin Hout].
    destruct (run_length_bounds (b :: r')) as [_ Hpos].
    specialize (Hpos ltac:(discriminate)).
    destruct (a - b =? 1) eqn:Eab.
    + apply Z.eqb_eq in Eab. split.
      * intros i Hi. destruct (Z.eq_dec i 0) as [->|Hn].
        -- left. lia.
        -- right. replace (a - i) with (b - (i - 1)) by lia.
           apply Hin. lia.
      * intros [E|I]; [lia|].
        apply Hout. replace (b - run_length (b :: r'))
          with (a - (1 + run_length (b :: r'))) by lia. exact I.
    + apply Z.eqb_neq in Eab. split.
      * intros i Hi. left. lia.
      * intros [E|I]; [lia|].
        assert (Hb : b < a) by (apply Lr; left; reflexivity).
        destruct I as [E|I]; [lia|].
        destruct (descending_tail _ _ Dr) as [_ Lb].
        specialize (Lb _ I). lia.
Qed.

(** The head of the distinct days is the latest day. *)
Lemma distinct_desc_head (days : list Z) (recent : Z) (r : list Z) :
  distinct_desc days = recent :: r ->
  In recent days /\ forall d, In d days -> d <= recent.
Proof.
  intros E. destruct (distinct_desc_descending days) as [D Hin].
  rewrite E in D, Hin. split.
  - apply Hin. left. reflexivity.
  - intros d Hd. apply Hin in Hd. destruct Hd as [<-|Hd]; [lia|].
    destruct (descending_tail _ _ D) as [_ L]. specialize (L _ Hd). lia.
Qed.

Lemma distinct_desc_nil (days : list Z) : distinct_desc days = [] -> days = [].
Proof.
  intros E. destruct days as [|a r]; [reflexivity|].
  destruct (distinct_desc_descending (a :: r)) as [_ Hin].
  rewrite E in Hin. destruct (proj2 (Hin a) (or_introl eq_refl)).
Qed.

Lemma streak_spec_bounds (t : Z) (days : list Z) :
  0 <= current_streak_spec t days <= Z.of_nat (List.length days).
Proof.
  unfold current_streak_spec.
  pose proof (length_distinct_desc days) as Hl.
  destruct (distinct_desc days) as [|recent r] eqn:E; [lia|].
  pose proof (run_length_bounds (recent :: r)) as [Hb _].
  destruct ((recent =? t) || (recent =? t - 1)); lia.
Qed.

Lemma streak_spec_positive (t : Z) (days : list Z) :
  0 < current_streak_spec t days <->
  (In t days \/ In (t - 1) days) /\ forall d, In d days -> d <= t.
Proof.
  unfold current_streak_spec.
  destruct (distinct_desc days) as [|recent r] eqn:E.
  - apply distinct_desc_nil in E. subst days. split; [lia|].
    intros [[[]|[]] _].
  - destruct (distinct_desc_head _ _ _ E) as [Hin Hmax].
    destruct (run_length_bounds (recent :: r)) as [_ Hpos].
    specialize (Hpos ltac:(discriminate)).
    destruct ((recent =? t) || (recent =? t - 1)) eqn:Ec.
    + split; [|lia]. intros _.
      apply orb_true_iff in Ec.
      destruct Ec as [Ec|Ec]; apply Z.eqb_eq in Ec; subst recent.
      * split; [left; exact Hin|exact Hmax].
      * split; [right; exact Hin|].
        intros d Hd. specialize (Hmax _ Hd). lia.
    + split; [lia|]. intros [Hor Hle]. exfalso.
      apply orb_false_iff in Ec. destruct Ec as [E1 E2].
      apply Z.eqb_neq in E1, E2.
      specialize (Hle _ Hin).
      destruct Hor as [I|I]; specialize (Hmax _ I); lia.
Qed.

Lemma streak_spec_run (t : Z) (days : list Z) :
  0 < current_streak_spec t days ->
  exists start, (start = t \/ start = t - 1)
    /\ (forall d, In d days -> d <= start)
    /\ (forall i, 0 <= i < current_streak_spec t days -> In (start - i) days)
    /\ ~ In (start - current_streak_spec t days) days.
Proof.
  unfold current_streak_spec.
  destruct (distinct_desc_descending days) as [D Hin].
  destruct (distinct_desc days) as [|recent r] eqn:E; [lia|].
  destruct (distinct_desc_head _ _ _ E) as [_ Hmax].
  destruct ((recent =? t) || (recent =? t - 1)) eqn:Ec; [|lia].
  intros _. exists recent.
  destruct (run_length_run (recent :: r) recent r eq_refl D) as [Hrun Hout].
  split; [|split; [exact Hmax|split]].
  - apply orb_true_iff in Ec. destruct Ec as [Ec|Ec]; apply Z.eqb_eq in Ec; auto.
  - intros i Hi. apply Hin, Hrun, Hi.
  - intros I. apply Hout, Hin, I.
Qed.

Lemma streak_spec_ext (t : Z) (days1 days2 : list Z) :
  (forall d, In d days1 <-> In d days2) ->
  current_streak_spec t days1 = current_streak_spec t days2.
Proof.
  intros H. unfold current_streak_spec.
  destruct (distinct_desc_descending days1) as [D1 I1].
  destruct (distinct_desc_descending days2) as [D2 I2].
  rewrite (descending_ext (distinct_desc days1) (distinct_desc days2) D1 D2);
    [reflexivity|].
  intros x. rewrite I1, I2. apply H.
Qed.

Lemma streak_spec_today (t : Z) (days : list Z) :
  (forall d, In d days -> d < t) ->
  current_streak_spec t (days ++ [t]) = 1 + current_streak_spec t days.
Proof.
  intros Hlt.
  destruct (distinct_desc_descending days) as [D I].
  destruct (distinct_desc_descending (days ++ [t])) as [D' I'].
  assert (E : distinct_desc (days ++ [t]) = t :: distinct_desc days).
  { apply descending_ext; [exact D'| |].
    - apply SSorted_cons; [exact D|]. rewrite Forall_forall.
      intros x Hx. apply I in Hx. apply Hlt, Hx.
    - intros x. rewrite I', in_app_iff. simpl. rewrite I. tauto. }
  unfold current_streak_spec. rewrite E.
  rewrite Z.eqb_refl. cbn [orb].
  destruct (distinct_desc days) as [|recent r] eqn:Ed; [reflexivity|].
  change (run_length (t :: recent :: r))
    with (if t - recent =? 1 then 1 + run_length (recent :: r) else 1).
  destruct (distinct_desc_head _ _ _ Ed) as [Hin _]. specialize (Hlt _ Hin).
  replace (recent =? t) with false by (symmetry; apply Z.eqb_neq; lia).
  cbn [orb].
  destruct (t - recent =? 1) eqn:E1.
  - apply Z.eqb_eq in E1.
    replace (recent =? t - 1) with true by (symmetry; apply Z.eqb_eq; lia).
    reflexivity.
  - apply Z.eqb_neq in E1.
    replace (recent =? t - 1) with false by (symmetry; apply Z.eqb_neq; lia).
    reflexivity.
Qed.

(** X6.  The streak is between 0 and the number of entries, and it is
    positive exactly when today or yesterday was logged and no entry is
    dated after today. *)
Theorem calculate_streak_bounds
    (now : datetime) (workouts : list workout) (dates : list datetime) :
  clock_ok now 1 ->
  logged_on workouts dates ->
  exists streak,
    calculate_streak now workouts = Ok streak
    /\ 0 <= streak <= Z.of_nat (List.length workouts)
    /\ (0 < streak <->
        (In (toordinal now) (List.map toordinal dates)
         \/ In (toordinal now - 1) (List.map toordinal dates))
        /\ forall d, In d (List.map toordinal dates) -> d <= toordinal now).
Proof.
  intros Hc Hl. eexists. split; [apply calculate_streak_refines; eassumption|].
  split; [|apply streak_spec_positive].
  pose proof (streak_spec_bounds (toordinal now) (List.map toordinal dates)) as Hb.
  rewrite length_map in Hb. rewrite (Forall2_length Hl). exact Hb.
Qed.

Lemma calculate_streak_bounds_witness :
  exists streak,
    calculate_streak march_1st
      [session "2024-03-02 07:15"; session "2024-03-01 18:30"] = Ok streak
    /\ 0 <= streak
         <= Z.of_nat (List.length
                        [session "2024-03-02 07:15"; session "2024-03-01 18:30"])
    /\ (0 < streak <->
        (In (toordinal march_1st)
            (List.map toordinal [on_day 2024 3 2; on_day 2024 3 1])
         \/ In (toordinal march_1st - 1)
              (List.map toordinal [on_day 2024 3 2; on_day 2024 3 1]))
        /\ forall d, In d (List.map toordinal [on_day 2024 3 2; on_day 2024 3 1]) ->
                     d <= toordinal march_1st).
Proof.
  apply (calculate_streak_bounds march_1st
           [session "2024-03-02 07:15"; session "2024-03-01 18:30"]
           [on_day 2024 3 2; on_day 2024 3 1]).
  - split; [reflexivity|vm_compute; discriminate].
  - repeat constructor.
Defined.

(** X7.  A positive streak counts a run of logged days: it starts today or
    yesterday on the latest logged day, every day of the run was logged,
    and the day before the run was not. *)
Theorem calculate_streak_counts_a_run
    (now : datetime) (workouts : list workout) (dates : list datetime)
    (streak : Z) :
  clock_ok now 1 ->
  logged_on workouts dates ->
  calculate_streak now workouts = Ok streak ->
  0 < streak ->
  exists start,
    (start = toordinal now \/ start = toordinal now - 1)
    /\ (forall d, In d (List.map toordinal dates) -> d <= start)
    /\ (forall i, 0 <= i < streak -> In (start - i) (List.map toordinal dates))
    /\ ~ In (start - streak) (List.map toordinal dates).
Proof.
  intros Hc Hl. rewrite (calculate_streak_refines now workouts dates Hc Hl).
  intros E. injection E as <-. apply streak_spec_run.
Qed.

Lemma calculate_streak_counts_a_run_witness :
  exists start,
    (start = toordinal march_1st \/ start = toordinal march_1st - 1)
    /\ (forall d, In d (List.map toordinal
                          [on_day 2024 2 29; on_day 2024 2 28; on_day 2024 2 26]) ->
                  d <= start)
    /\ (forall i, 0 <= i < 2 ->
          In (start - i)
             (List.map toordinal
                [on_day 2024 2 29; on_day 2024 2 28; on_day 2024 2 26]))
    /\ ~ In (start - 2)
           (List.map toordinal
              [on_day 2024 2 29; on_day 2024 2 28; on_day 2024 2 26]).
Proof.
  apply (calculate_streak_counts_a_run march_1st
           [session "2024-02-29 07:15"; session "2024-02-28 18:30";
            session "2024-02-26 18:30"]
           [on_day 2024 2 29; on_day 2024 2 28; on_day 2024 2 26] 2).
  - split; [reflexivity|vm_compute; discriminate].
  - repeat constructor.
  - reflexivity.
  - lia.
Defined.

(** X8.  The streak depends on the set of logged days only: two histories
    with the same dates, in whatever order and however often, have the
    same streak. *)
Theorem calculate_streak_same_days
    (now : datetime) (workouts1 workouts2 : list workout)
    (dates1 dates2 : list datetime) :
  clock_ok now 1 ->
  logged_on workouts1 dates1 ->
  logged_on workouts2 dates2 ->
  (forall s, In s (List.map date_part workouts1) <->
             In s (List.map date_part workouts2)) ->
  calculate_streak now workouts1 = calculate_streak now workouts2.
Proof.
  intros Hc H1 H2 Hs.
  rewrite (calculate_streak_refines now workouts1 dates1 Hc H1).
  rewrite (calculate_streak_refines now workouts2 dates2 Hc H2).
  f_equal. apply streak_spec_ext.
  destruct (logged_on_dates _ _ H1) as [V1 E1].
  destruct (logged_on_dates _ _ H2) as [V2 E2].
  rewrite E1, E2 in Hs.
  assert (Hhalf : forall da db, all_valid da -> all_valid db ->
            (forall s, In s (List.map strftime_Ymd da) ->
                       In s (List.map strftime_Ymd db)) ->
            forall d, In d (List.map toordinal da) -> In d (List.map toordinal db)).
  { intros da db Va Vb Hab d Hd. apply in_map_iff in Hd.
    destruct Hd as (a & <- & Ha).
    assert (Hva : valid a = true).
    { unfold all_valid in Va. rewrite Forall_forall in Va. apply Va, Ha. }
    apply (in_strftime_iff a db Hva Vb). apply Hab. apply in_map, Ha. }
  intros d. split; apply Hhalf; auto; intros s; apply Hs.
Qed.

Lemma calculate_streak_same_days_witness :
  calculate_streak march_1st
    [session "2024-03-01 07:15"; session "2024-02-29 18:30"]
  = calculate_streak march_1st
      [session "2024-02-29 06:00"; session "2024-03-01 20:00";
       session "2024-02-29 21:00"].
Proof.
  apply (calculate_streak_same_days march_1st
           [session "2024-03-01 07:15"; session "2024-02-29 18:30"]
           [session "2024-02-29 06:00"; session "2024-03-01 20:00";
            session "2024-02-29 21:00"]
           [on_day 2024 3 1; on_day 2024 2 29]
           [on_day 2024 2 29; on_day 2024 3 1; on_day 2024 2 29]).
  - split; [reflexivity|vm_compute; discriminate].
  - repeat constructor.
  - repeat constructor.
  - intros s. simpl. tauto.
Defined.

(** X9.  Logging today lengthens the streak by one day: when every stored
    entry is dated before today, appending an entry dated today turns a
    streak of [streak] days into one of [streak + 1]. *)
Theorem calculate_streak_after_logging_today
    (now : datetime) (workouts : list workout) (dates : list datetime)
    (w : workout) (streak : Z) :
  clock_ok now 1 ->
  logged_on workouts dates ->
  (forall d, In d (List.map toordinal dates) -> d < toordinal now) ->
  date_part w = strftime_Ymd now ->
  calculate_streak now workouts = Ok streak ->
  calculate_streak now (workouts ++ [w]) = Ok (streak + 1).
Proof.
  intros Hc Hl Hlt Hw.
  rewrite (calculate_streak_refines now workouts dates Hc Hl).
  intros E. injection E as <-.
  assert (Hl' : logged_on (workouts ++ [w]) (dates ++ [now])).
  { apply Forall2_app; [exact Hl|]. constructor; [|constructor].
    split; [apply Hc|exact Hw]. }
  rewrite (calculate_streak_refines now _ _ Hc Hl').
  rewrite map_app. simpl.
  rewrite (streak_spec_today _ _ Hlt). f_equal. lia.
Qed.

Lemma calculate_streak_after_logging_today_witness :
  calculate_streak march_1st
    ([session "2024-02-28 18:30"; session "2024-02-29 18:30"]
     ++ [session "2024-03-01 09:30"]) = Ok (2 + 1).
Proof.
  apply (calculate_streak_after_logging_today march_1st
           [session "2024-02-28 18:30"; session "2024-02-29 18:30"]
           [on_day 2024 2 28; on_day 2024 2 29]
           (session "2024-03-01 09:30") 2).
  - split; [reflexivity|vm_compute; discriminate].
  - repeat constructor.
  - intros d [<-|[<-|[]]]; vm_compute; reflexivity.
  - reflexivity.
  - reflexivity.
Defined.

End StreakExtras.

Section WeeklyExtras.

Import PyList PyDate Weekly Sample.

Lemma tally_incr (k k' : string) (counts : dict Z) :
  tally k (incr k' counts)
  = tally k counts + (if String.eqb k' k then 1 else 0).
Proof.
  induction counts as [|[k0 n] r IH]; simpl; [lia|].
  destruct (String.eqb k0 k') eqn:E.
  - apply String.eqb_eq in E. subst k0. simpl.
    destruct (String.eqb k' k); lia.
  - simpl. rewrite IH. lia.
Qed.

Lemma keys_incr (k k' : string) (counts : dict Z) :
  In k (List.map fst (incr k' counts)) <-> k = k' \/ In k (List.map fst counts).
Proof.
  induction counts as [|[k0 n] r IH]; simpl; [intuition congruence|].
  destruct (String.eqb k0 k') eqn:E; simpl.
  - apply String.eqb_eq in E. subst k0. intuition congruence.
  - rewrite IH. intuition congruence.
Qed.

Lemma nodup_incr (k' : string) (counts : dict Z) :
  NoDup (List.map fst counts) -> NoDup (List.map fst (incr k' counts)).
Proof.
  induction counts as [|[k0 n] r IH]; simpl; intros H.
  - constructor; [intros []|constructor].
  - apply NoDup_cons_iff in H. destruct H as [Hn Hr].
    destruct (String.eqb k0 k') eqn:E; simpl.
    + constructor; assumption.
    + constructor; [|apply IH, Hr].
      rewrite keys_incr. intros [->|I]; [|auto].
      rewrite String.eqb_refl in E. discriminate.
Qed.

Lemma positive_incr (k' : string) (counts : dict Z) :
  (forall k n, In (k, n) counts -> 0 < n) ->
  forall k n, In (k, n) (incr k' counts) -> 0 < n.
Proof.
  induction counts as [|[k0 n0] r IH]; simpl; intros H k n.
  - intros [E|[]]. injection E as <- <-. lia.
  - destruct (String.eqb k0 k'); simpl.
    + intros [E|I]; [|eapply H; right; exact I].
      injection E as <- <-. specialize (H k0 n0 (or_introl eq_refl)). lia.
    + intros [E|I]; [eapply H; left; exact E|].
      eapply IH; [|exact I]. intros k1 n1 I1. eapply H. right. exact I1.
Qed.

Lemma total_incr (k' : string) (counts : dict Z) :
  total (incr k' counts) = total counts + 1.
Proof.
  unfold total.
  induction counts as [|[k0 n0] r IH]; simpl; [lia|].
  destruct (String.eqb k0 k'); simpl; [|rewrite IH]; lia.
Qed.

Lemma occurrences_cons (k a : string) (l : list string) :
  occurrences k (a :: l) = (if String.eqb a k then 1 else 0) + occurrences k l.
Proof.
  unfold occurrences. simpl.
  destruct (string_dec a k) as [->|Hn].
  - rewrite String.eqb_refl. lia.
  - apply String.eqb_neq in Hn. rewrite Hn. lia.
Qed.

(** What the counting loop leaves behind. *)
Lemma count_loop (l : list string) (counts : dict Z) :
  NoDup (List.map fst counts) ->
  (forall k n, In (k, n) counts -> 0 < n) ->
  let result := fold_left (fun counts k => incr k counts) l counts in
  NoDup (List.map fst result)
  /\ (forall k n, In (k, n) result -> 0 < n)
  /\ (forall k, tally k result = tally k counts + occurrences k l)
  /\ (forall k, In k (List.map fst result) <->
                In k (List.map fst counts) \/ In k l)
  /\ total result = total counts + Z.of_nat (List.length l).
Proof.
  revert counts. induction l as [|a r IH]; intros counts Hn Hp; simpl.
  - split; [exact Hn|]. split; [exact Hp|].
    split; [intros k; unfold occurrences; simpl; lia|].
    split; [tauto|lia].
  - destruct (IH (incr a counts) (nodup_incr a counts Hn)
                (positive_incr a counts Hp)) as (R1 & R2 & R3 & R4 & R5).
    split; [exact R1|]. split; [exact R2|].
    split; [|split].
    + intros k. rewrite R3, tally_incr, occurrences_cons. lia.
    + intros k. rewrite R4, keys_incr. intuition auto.
    + rewrite R5, total_incr. lia.
Qed.

Lemma tally_absent (k : string) (counts : dict Z) :
  ~ In k (List.map fst counts) -> tally k counts = 0.
Proof.
  induction counts as [|[k0 n0] r IH]; simpl; intros H; [reflexivity|].
  destruct (String.eqb k0 k) eqn:E.
  - apply String.eqb_eq in E. tauto.
  - rewrite IH; tauto.
Qed.

Lemma tally_in (k : string) (n : Z) (counts : dict Z) :
  NoDup (List.map fst counts) -> In (k, n) counts -> tally k counts = n.
Proof.
  induction counts as [|[k0 n0] r IH]; simpl; intros H I; [destruct I|].
  apply NoDup_cons_iff in H. destruct H as [Hn Hr].
  destruct I as [E|I].
  - injection E as -> ->. rewrite String.eqb_refl, tally_absent; [lia|exact Hn].
  - destruct (String.eqb k0 k) eqn:E.
    + apply String.eqb_eq in E. subst k0. exfalso. apply Hn.
      apply in_map_iff. exists (k, n). auto.
    + rewrite IH; auto.
Qed.

(** [count_all] holds one entry per distinct key, with the number of its
    occurrences. *)
Lemma count_all_counts (l : list string) :
  NoDup (List.map fst (count_all l))
  /\ (forall k n, In (k, n) (count_all l) <-> n = occurrences k l /\ 0 < n)
  /\ total (count_all l) = Z.of_nat (List.length l).
Proof.
  destruct (count_loop l [] (NoDup_nil _) (fun k n (H : In (k, n) []) =>
                                             match H with end))
    as (R1 & R2 & R3 & R4 & R5).
  fold (count_all l) in R1, R2, R3, R4, R5. simpl in R3, R4, R5.
  split; [exact R1|]. split; [|exact R5].
  intros k n. split.
  - intros I. split; [|eapply R2; exact I].
    rewrite <- (tally_in k n _ R1 I). apply R3.
  - intros [-> Hpos].
    assert (Ik : In k l).
    { apply (count_occ_In string_dec). unfold occurrences in Hpos. lia. }
    assert (Ikeys : In k (List.map fst (count_all l))) by (apply R4; auto).
    apply in_map_iff in Ikeys. destruct Ikeys as ([k0 m] & E & I).
    simpl in E. subst k0.
    rewrite <- (R3 k), (tally_in k m _ R1 I). exact I.
Qed.

Lemma insert_by_perm {A K : Type} (ltb : K -> K -> bool) (key : A -> K)
    (x : A) (l : list A) :
  Permutation (insert_by ltb key x l) (x :: l).
Proof.
  induction l as [|y r IH]; simpl; [apply Permutation_refl|].
  destruct (ltb (key y) (key x)); [|apply Permutation_refl].
  eapply Permutation_trans; [apply perm_skip, IH|apply perm_swap].
Qed.

Lemma sorted_by_perm {A K : Type} (ltb : K -> K -> bool) (key : A -> K)
    (l : list A) :
  Permutation (sorted_by ltb key l) l.
Proof.
  induction l as [|x r IH]; simpl; [apply Permutation_refl|].
  eapply Permutation_trans; [apply insert_by_perm|apply perm_skip, IH].
Qed.

Lemma insert_falling (x : string * Z) (l : list (string * Z)) :
  by_falling_count l ->
  by_falling_count (insert_by Z.ltb (fun x : string * Z => - snd x) x l).
Proof.
  unfold by_falling_count.
  induction l as [|y r IH]; simpl; intros H.
  - constructor; [constructor|constructor].
  - apply StronglySorted_inv in H. destruct H as [Hr Hy].
    destruct (- snd y <? - snd x) eqn:E.
    + apply Z.ltb_lt in E. constructor; [apply IH, Hr|].
      rewrite Forall_forall in *. intros b Hb.
      apply (Permutation_in _ (insert_by_perm _ _ x r)) in Hb.
      destruct Hb as [<-|Hb]; [lia|apply Hy, Hb].
    + apply Z.ltb_ge in E. constructor.
      * constructor; assumption.
      * constructor; [lia|].
        rewrite Forall_forall in *. intros b Hb. specialize (Hy b Hb). lia.
Qed.

Lemma by_count_desc_falling (counts : dict Z) :
  by_falling_count (by_count_desc counts)
  /\ Permutation (by_count_desc counts) counts.
Proof.
  split; [|apply sorted_by_perm].
  unfold by_count_desc, sorted_by.
  induction counts as [|x r IH]; simpl; [constructor|].
  apply insert_falling, IH.
Qed.

Lemma total_perm (a b : list (string * Z)) :
  Permutation a b -> total a = total b.
Proof.
  unfold total. induction 1; simpl; lia.
Qed.

Lemma falling_app (a b : list (string * Z)) :
  by_falling_count (a ++ b) ->
  by_falling_count a /\ forall x y, In x a -> In y b -> snd y <= snd x.
Proof.
  unfold by_falling_count.
  induction a as [|h a IH]; simpl; intros H.
  - split; [constructor|]. intros x y [].
  - apply StronglySorted_inv in H. destruct H as [Hr Hh].
    destruct (IH Hr) as [Sa Hab]. split.
    + constructor; [exact Sa|].
      rewrite Forall_forall in *. intros z Hz. apply Hh, in_or_app. auto.
    + intros x y [<-|Hx] Hy; [|apply Hab; assumption].
      rewrite Forall_forall in Hh. apply Hh, in_or_app. auto.
Qed.

Lemma bars_of_bars (l : list (string * Z)) :
  body_part_bars (List.map (fun x => BodyPartBar (fst x) (snd x)) l) = l
  /\ top_food_lines (List.map (fun x => BodyPartBar (fst x) (snd x)) l) = [].
Proof.
  induction l as [|[k n] r [IH1 IH2]]; [split; reflexivity|].
  split; simpl; [f_equal; exact IH1|exact IH2].
Qed.

Lemma tops_of_tops (l : list (string * Z)) :
  top_food_lines (List.map (fun x => TopFood (fst x) (snd x)) l) = l
  /\ body_part_bars (List.map (fun x => TopFood (fst x) (snd x)) l) = [].
Proof.
  induction l as [|[k n] r [IH1 IH2]]; [split; reflexivity|].
  split; simpl; [f_equal; exact IH1|exact IH2].
Qed.

Lemma bars_app (a b : list line) :
  body_part_bars (a ++ b) = body_part_bars a ++ body_part_bars b.
Proof. apply flat_map_app. Qed.

Lemma tops_app (a b : list line) :
  top_food_lines (a ++ b) = top_food_lines a ++ top_food_lines b.
Proof. apply flat_map_app. Qed.

(** The lines of the nutrition block, read back. *)
Lemma nutrition_stats_lines (week_meals : list meal) (ns : list line) :
  nutrition_stats week_meals = Ok ns ->
  body_part_bars ns = []
  /\ top_food_lines ns
     = firstn 3 (by_count_desc (count_all (List.map m_food week_meals))).
Proof.
  destruct week_meals as [|m r] eqn:Ew.
  { intros E. injection E as <-. split; reflexivity. }
  rewrite <- Ew.
  assert (Hne : week_meals <> []) by (rewrite Ew; discriminate).
  rewrite (nutrition_stats_average week_meals Hne).
  destruct (PyNum.truediv _ _) as [avg|e]; [|discriminate].
  intros E.
  assert (Hns : ns = [NutritionHeading;
                      TotalCalories
                        (fold_left Z.add (List.map m_calories week_meals) 0);
                      DaysLogged
                        (List.length (set_of (List.map m_date week_meals)));
                      DailyAverage (PyNum.Float avg); TopFoods]
                     ++ List.map (fun x => TopFood (fst x) (snd x))
                          (firstn 3 (by_count_desc
                                       (count_all (List.map m_food week_meals)))))
    by congruence.
  rewrite Hns, bars_app, tops_app.
  destruct (tops_of_tops
              (firstn 3 (by_count_desc (count_all (List.map m_food week_meals)))))
    as [E1 E2].
  rewrite E1, E2. split; reflexivity.
Qed.

(** The lines of the workout block, read back. *)
Lemma workout_stats_lines (now : datetime) (workouts week : list workout)
    (ws : list line) :
  workout_stats now workouts week = Ok ws ->
  body_part_bars ws = by_count_desc (count_all (List.map w_body_part week))
  /\ top_food_lines ws = []
  /\ (week <> [] ->
      In (Sessions (List.length (set_of (List.map date_part week)))) ws
      /\ In (TotalExercises (List.length week)) ws).
Proof.
  destruct week as [|w r] eqn:Ew.
  - intros E. injection E as <-. split; [reflexivity|].
    split; [reflexivity|congruence].
  - rewrite <- Ew.
    assert (Hm : workout_stats now workouts week =
                 bind (calculate_streak now workouts) (fun streak =>
                   Ok ([WorkoutsHeading;
                        Sessions (List.length (set_of (List.map date_part week)));
                        TotalExercises (List.length week); ByBodyPart]
                       ++ List.map (fun x => BodyPartBar (fst x) (snd x))
                            (by_count_desc (count_all (List.map w_body_part week)))
                       ++ (if 0 <? streak then [CurrentStreak streak] else []))))
      by (rewrite Ew; reflexivity).
    rewrite Hm. clear Hm.
    destruct (calculate_streak now workouts) as [streak|e];
      cbv beta iota delta [bind]; [|discriminate].
    intros E.
    assert (Hws : ws = [WorkoutsHeading;
                        Sessions (List.length (set_of (List.map date_part week)));
                        TotalExercises (List.length week); ByBodyPart]
                       ++ List.map (fun x => BodyPartBar (fst x) (snd x))
                            (by_count_desc (count_all (List.map w_body_part week)))
                       ++ (if 0 <? streak then [CurrentStreak streak] else []))
      by congruence.
    rewrite Hws. clear E Hws.
    destruct (bars_of_bars
                (by_count_desc (count_all (List.map w_body_part week))))
      as [E1 E2].
    split; [|split].
    + rewrite !bars_app, E1.
      destruct (0 <? streak); simpl; apply app_nil_r.
    + rewrite !tops_app, E2.
      destruct (0 <? streak); reflexivity.
    + intros _. split; simpl; auto.
Qed.

(** The parts a weekly summary is made of. *)
Lemma weekly_summary_parts (d : disk) (today : datetime) (lines : list line) :
  view_weekly_summary d today = Ok lines ->
  exists week_ago workouts meals ws ns,
    sub_days today 7 = Ok week_ago /\
    load_data (WORKOUT_FILE d) = Ok workouts /\
    load_data (MEALS_FILE d) = Ok meals /\
    workout_stats today workouts
      (filter (fun w => String.leb (strftime_Ymd week_ago) (date_part w)) workouts)
    = Ok ws /\
    nutrition_stats
      (filter (fun m => String.leb (strftime_Ymd week_ago) (m_date m)) meals)
    = Ok ns /\
    lines = [Banner; Period (strftime_Ymd week_ago) (strftime_Ymd today);
             Weekly.Rule]
            ++ ws ++ ns.
Proof.
  unfold view_weekly_summary.
  destruct (sub_days today 7) as [week_ago|e]; simpl; [|discriminate].
  destruct (load_data (WORKOUT_FILE d)) as [workouts|e]; simpl; [|discriminate].
  destruct (load_data (MEALS_FILE d)) as [meals|e]; simpl; [|discriminate].
  destruct (workout_stats today workouts _) as [ws|e] eqn:Ews; simpl;
    [|discriminate].
  destruct (nutrition_stats _) as [ns|e] eqn:Ens; simpl; [|discriminate].
  intros E. injection E as <-.
  exists week_ago, workouts, meals, ws, ns. auto 6.
Qed.

(** X10.  The body-part breakdown of the weekly summary shows every body
    part trained in the window once, with the number of its entries, the
    most trained first; the bars add up to the number of entries, and the
    number of sessions is between 1 and that number. *)
Theorem weekly_body_part_breakdown
    (d : disk) (today : datetime) (lines : list line) :
  view_weekly_summary d today = Ok lines ->
  exists week_ago workouts,
    sub_days today 7 = Ok week_ago /\
    load_data (WORKOUT_FILE d) = Ok workouts /\
    let week :=
      filter (fun w => String.leb (strftime_Ymd week_ago) (date_part w)) workouts in
    let bars := body_part_bars lines in
    NoDup (List.map fst bars)
    /\ (forall bp n, In (bp, n) bars <->
          n = occurrences bp (List.map w_body_part week) /\ 0 < n)
    /\ by_falling_count bars
    /\ total bars = Z.of_nat (List.length week)
    /\ (week <> [] ->
        exists days, In (Sessions days) lines
          /\ In (TotalExercises (List.length week)) lines
          /\ (1 <= days <= List.length week)%nat).
Proof.
  intros H.
  destruct (weekly_summary_parts d today lines H)
    as (week_ago & workouts & meals & ws & ns & E1 & E2 & E3 & Ews & Ens & ->).
  exists week_ago, workouts. split; [exact E1|]. split; [exact E2|].
  cbv zeta.
  set (week := filter _ workouts) in *.
  destruct (workout_stats_lines _ _ _ _ Ews) as (Eb & _ & Hlines).
  destruct (nutrition_stats_lines _ _ Ens) as [En _].
  assert (Ebars : body_part_bars
            ([Banner; Period (strftime_Ymd week_ago) (strftime_Ymd today);
              Weekly.Rule] ++ ws ++ ns)
          = by_count_desc (count_all (List.map w_body_part week))).
  { rewrite !bars_app, En, Eb, app_nil_r. reflexivity. }
  rewrite Ebars.
  destruct (count_all_counts (List.map w_body_part week)) as (C1 & C2 & C3).
  destruct (by_count_desc_falling (count_all (List.map w_body_part week)))
    as [S P].
  split; [|split; [|split; [|split]]].
  - eapply Permutation_NoDup; [|exact C1].
    apply Permutation_map, Permutation_sym, P.
  - intros bp n. rewrite <- C2. split; apply Permutation_in;
      [exact P|apply Permutation_sym, P].
  - exact S.
  - rewrite (total_perm _ _ P), C3, length_map. reflexivity.
  - intros Hne. destruct (Hlines Hne) as [I1 I2].
    exists (List.length (set_of (List.map date_part week))).
    split; [apply in_or_app; right; apply in_or_app; left; exact I1|].
    split; [apply in_or_app; right; apply in_or_app; left; exact I2|].
    split.
    + assert (Hs : set_of (List.map date_part week) <> []).
      { apply set_of_nonempty. destruct week; [congruence|discriminate]. }
      destruct (set_of (List.map date_part week)); [congruence|simpl; lia].
    + unfold set_of.
      pose proof (length_nodup_le string_dec (List.map date_part week)) as Hl.
      rewrite length_map in Hl. exact Hl.
Qed.

Lemma weekly_body_part_breakdown_witness :
  exists week_ago workouts,
    sub_days march_1st 7 = Ok week_ago /\
    load_data (WORKOUT_FILE Examples.busy_week) = Ok workouts /\
    let week :=
      filter (fun w => String.leb (strftime_Ymd week_ago) (date_part w)) workouts in
    let bars := body_part_bars Examples.busy_week_summary in
    NoDup (List.map fst bars)
    /\ (forall bp n, In (bp, n) bars <->
          n = occurrences bp (List.map w_body_part week) /\ 0 < n)
    /\ by_falling_count bars
    /\ total bars = Z.of_nat (List.length week)
    /\ (week <> [] ->
        exists days, In (Sessions days) Examples.busy_week_summary
          /\ In (TotalExercises (List.length week)) Examples.busy_week_summary
          /\ (1 <= days <= List.length week)%nat).
Proof.
  apply (weekly_body_part_breakdown Examples.busy_week march_1st
           Examples.busy_week_summary).
  vm_compute. reflexivity.
Defined.

(** X11.  The weekly summary lists at most three foods, each once with the
    number of meals of the window it occurs in, the most frequent first;
    a food of the window that is not listed occurs no more often than
    any of the three listed. *)
Theorem weekly_top_foods
    (d : disk) (today : datetime) (lines : list line) :
  view_weekly_summary d today = Ok lines ->
  exists week_ago meals,
    sub_days today 7 = Ok week_ago /\
    load_data (MEALS_FILE d) = Ok meals /\
    let foods :=
      List.map m_food
        (filter (fun m => String.leb (strftime_Ymd week_ago) (m_date m)) meals) in
    let tops := top_food_lines lines in
    (List.length tops <= 3)%nat
    /\ NoDup (List.map fst tops)
    /\ (forall food n, In (food, n) tops ->
          n = occurrences food foods /\ 0 < n)
    /\ by_falling_count tops
    /\ (forall food, In food foods -> ~ In food (List.map fst tops) ->
          List.length tops = 3%nat
          /\ forall f n, In (f, n) tops -> occurrences food foods <= n).
Proof.
  intros H.
  destruct (weekly_summary_parts d today lines H)
    as (week_ago & workouts & meals & ws & ns & E1 & E2 & E3 & Ews & Ens & ->).
  exists week_ago, meals. split; [exact E1|]. split; [exact E3|].
  cbv zeta.
  set (week := filter _ meals) in *.
  destruct (workout_stats_lines _ _ _ _ Ews) as (_ & Et & _).
  destruct (nutrition_stats_lines week ns Ens) as [_ En].
  assert (Etops : top_food_lines
            ([Banner; Period (strftime_Ymd week_ago) (strftime_Ymd today);
              Weekly.Rule] ++ ws ++ ns)
          = firstn 3 (by_count_desc (count_all (List.map m_food week)))).
  { rewrite !tops_app, En, Et. reflexivity. }
  rewrite Etops. clear Etops En Et.
  destruct (count_all_counts (List.map m_food week)) as (C1 & C2 & C3).
  destruct (by_count_desc_falling (count_all (List.map m_food week))) as [S P].
  set (sorted := by_count_desc (count_all (List.map m_food week))) in *.
  assert (Hsplit : sorted = firstn 3 sorted ++ skipn 3 sorted)
    by (symmetry; apply firstn_skipn).
  assert (Nsorted : NoDup (List.map fst sorted)).
  { eapply Permutation_NoDup; [|exact C1].
    apply Permutation_map, Permutation_sym, P. }
  rewrite Hsplit in S. destruct (falling_app _ _ S) as [Sf Hfs].
  split; [apply firstn_le_length|].
  split; [|split; [|split; [exact Sf|]]].
  - rewrite Hsplit, map_app in Nsorted.
    apply NoDup_app_remove_r in Nsorted. exact Nsorted.
  - intros food n I. apply C2. apply (Permutation_in _ P).
    rewrite Hsplit. apply in_or_app. left. exact I.
  - intros food Hfood Hnot.
    assert (Hocc : 0 < occurrences food (List.map m_food week)).
    { unfold occurrences.
      pose proof (proj1 (count_occ_In string_dec _ _) Hfood). lia. }
    assert (I : In (food, occurrences food (List.map m_food week)) sorted).
    { apply (Permutation_in _ (Permutation_sym P)). apply C2. auto. }
    rewrite Hsplit in I. apply in_app_or in I. destruct I as [I|I].
    { exfalso. apply Hnot. apply in_map_iff. exists (food, occurrences food (List.map m_food week)). auto. }
    split.
    + apply firstn_length_le.
      destruct (Nat.le_gt_cases 3 (List.length sorted)) as [Hl|Hl]; [exact Hl|].
      rewrite skipn_all2 in I; [destruct I|lia].
    + intros f n If. apply (Hfs (f, n) _ If I).
Qed.

Lemma weekly_top_foods_witness :
  exists week_ago meals,
    sub_days march_1st 7 = Ok week_ago /\
    load_data (MEALS_FILE Examples.busy_week) = Ok meals /\
    let foods :=
      List.map m_food
        (filter (fun m => String.leb (strftime_Ymd week_ago) (m_date m)) meals) in
    let tops := top_food_lines Examples.busy_week_summary in
    (List.length tops <= 3)%nat
    /\ NoDup (List.map fst tops)
    /\ (forall food n, In (food, n) tops ->
          n = occurrences food foods /\ 0 < n)
    /\ by_falling_count tops
    /\ (forall food, In food foods -> ~ In food (List.map fst tops) ->
          List.length tops = 3%nat
          /\ forall f n, In (f, n) tops -> occurrences food foods <= n).
Proof.
  apply (weekly_top_foods Examples.busy_week march_1st
           Examples.busy_week_summary).
  vm_compute. reflexivity.
Defined.

End WeeklyExtras.

Section ChartExtras.

Import PyList Chart Sample.

Lemma string_ltb_irrefl (a : string) : String.ltb a a = false.
Proof.
  unfold String.ltb. pose proof (String.compare_antisym a a) as H.
  destruct (String.compare a a); simpl in H; try discriminate; reflexivity.
Qed.

Lemma string_ltb_trans (a b c : string) :
  String.ltb a b = true -> String.ltb b c = true -> String.ltb a c = true.
Proof.
  unfold String.ltb. intros Hab Hbc.
  assert (Lab : String.compare a b = Lt)
    by (destruct (String.compare a b); congruence).
  assert (Lbc : String.compare b c = Lt)
    by (destruct (String.compare b c); congruence).
  apply OrderedTypeEx.String_as_OT.cmp_lt in Lab.
  apply OrderedTypeEx.String_as_OT.cmp_lt in Lbc.
  pose proof (OrderedTypeEx.String_as_OT.lt_trans _ _ _ Lab Lbc) as Lac.
  apply OrderedTypeEx.String_as_OT.cmp_lt in Lac.
  unfold OrderedTypeEx.String_as_OT.cmp in Lac. rewrite Lac. reflexivity.
Qed.

Lemma string_ltb_total (a b : string) :
  String.ltb a b = false -> a <> b -> String.ltb b a = true.
Proof.
  unfold String.ltb. rewrite (String.compare_antisym a b).
  destruct (String.compare b a) eqn:E; simpl; try congruence.
  intros _ Hne. apply String.compare_eq_iff in E. congruence.
Qed.

(** Inserting a record whose date text is new keeps a series strictly in
    date order. *)
Lemma insert_earlier (x : record) (l : list record) :
  StronglySorted earlier l ->
  (forall y, In y l -> r_date y <> r_date x) ->
  StronglySorted earlier (insert_by String.ltb r_date x l).
Proof.
  induction l as [|y r IH]; intros Hs Hnew.
  - simpl. constructor; constructor.
  - inversion Hs as [|? ? Hr Hy]; subst.
    simpl insert_by.
    destruct (String.ltb (r_date y) (r_date x)) eqn:Eyx.
    + constructor.
      * apply IH; [exact Hr|]. intros z Hz. apply Hnew. right. exact Hz.
      * apply Forall_forall. intros z Hz.
        apply (Permutation_in _ (insert_by_perm _ _ x r)) in Hz.
        destruct Hz as [<- | Hz]; [exact Eyx|].
        rewrite Forall_forall in Hy. apply Hy, Hz.
    + assert (Hxy : earlier x y).
      { apply string_ltb_total; [exact Eyx|]. apply Hnew. left. reflexivity. }
      constructor; [exact Hs|].
      constructor; [exact Hxy|].
      apply Forall_forall. intros z Hz.
      rewrite Forall_forall in Hy.
      exact (string_ltb_trans _ _ _ Hxy (Hy z Hz)).
Qed.

Lemma sorted_by_earlier (l : list record) :
  NoDup (List.map r_date l) ->
  StronglySorted earlier (sorted_by String.ltb r_date l).
Proof.
  induction l as [|x r IH]; intros Hnd.
  - constructor.
  - simpl in Hnd. inversion Hnd as [|? ? Hx Hr]; subst.
    change (StronglySorted earlier
              (insert_by String.ltb r_date x (sorted_by String.ltb r_date r))).
    apply insert_earlier; [apply IH, Hr|].
    intros y Hy E. apply Hx. rewrite <- E.
    apply in_map.
    exact (Permutation_in _ (sorted_by_perm _ _ r) Hy).
Qed.

(** A series strictly in date order is determined by its records. *)
Lemma earlier_ext (l1 l2 : list record) :
  StronglySorted earlier l1 -> StronglySorted earlier l2 ->
  (forall x, In x l1 <-> In x l2) ->
  l1 = l2.
Proof.
  assert (Hirr : forall a, ~ earlier a a).
  { intros a H. unfold earlier in H. rewrite string_ltb_irrefl in H. discriminate. }
  assert (Hasym : forall a b, earlier a b -> earlier b a -> False).
  { intros a b H1 H2. apply (Hirr a). exact (string_ltb_trans _ _ _ H1 H2). }
  revert l2. induction l1 as [|a r1 IH]; intros l2 H1 H2 Hin.
  - destruct l2 as [|b r2]; [reflexivity|].
    destruct (proj2 (Hin b) (or_introl eq_refl)).
  - destruct l2 as [|b r2].
    { destruct (proj1 (Hin a) (or_introl eq_refl)). }
    inversion H1 as [|? ? Hs1 Ha]; subst.
    inversion H2 as [|? ? Hs2 Hb]; subst.
    rewrite Forall_forall in Ha, Hb.
    assert (Hab : a = b).
    { destruct (proj1 (Hin a) (or_introl eq_refl)) as [E | Ia]; [congruence|].
      destruct (proj2 (Hin b) (or_introl eq_refl)) as [E | Ib]; [congruence|].
      destruct (Hasym a b (Ha b Ib) (Hb a Ia)). }
    subst b. f_equal. apply IH; [exact Hs1|exact Hs2|].
    intros x. split; intros Hx.
    + destruct (proj1 (Hin x) (or_intror Hx)) as [E | Hx']; [|exact Hx'].
      subst x. destruct (Hirr a (Ha a Hx)).
    + destruct (proj2 (Hin x) (or_intror Hx)) as [E | Hx']; [|exact Hx'].
      subst x. destruct (Hirr a (Hb a Hx)).
Qed.

(** Two records of one date text keep the order they are given in, and the
    progress line of the chart tells them apart. *)
Lemma chart_of_equal_dates :
  show_progress_chart "Squat"
    [point 100 "2024-01-05 18:30"; point 80 "2024-01-05 18:30"]
  <> show_progress_chart "Squat"
       [point 80 "2024-01-05 18:30"; point 100 "2024-01-05 18:30"].
Proof. vm_compute. discriminate. Qed.

(** X12.  The chart does not depend on the order its records are given in,
    as long as no two of them have the same date text: the series is put in
    date order first.  (Records of one date text keep their given order.) *)
Theorem chart_of_unsorted_series (exercise : string) (records shuffled : list record) :
  Permutation records shuffled ->
  NoDup (List.map r_date records) ->
  show_progress_chart exercise shuffled = show_progress_chart exercise records.
Proof.
  intros Hp Hnd.
  assert (Hnd' : NoDup (List.map r_date shuffled)).
  { exact (Permutation_NoDup (Permutation_map r_date Hp) Hnd). }
  assert (E : sorted_by String.ltb r_date shuffled
              = sorted_by String.ltb r_date records).
  { apply earlier_ext; try (apply sorted_by_earlier; assumption).
    intros x. split; intros Hx.
    - apply (Permutation_in _ (sorted_by_perm _ _ shuffled)) in Hx.
      apply (Permutation_in _ (Permutation_sym Hp)) in Hx.
      exact (Permutation_in _ (Permutation_sym (sorted_by_perm _ _ records)) Hx).
    - apply (Permutation_in _ (sorted_by_perm _ _ records)) in Hx.
      apply (Permutation_in _ Hp) in Hx.
      exact (Permutation_in _ (Permutation_sym (sorted_by_perm _ _ shuffled)) Hx). }
  unfold show_progress_chart. rewrite E. reflexivity.
Qed.

Lemma chart_of_unsorted_series_witness :
  show_progress_chart "Squat" (rev ramp) = show_progress_chart "Squat" ramp.
Proof.
  apply (chart_of_unsorted_series "Squat" ramp (rev ramp)).
  - apply Permutation_rev.
  - vm_compute. repeat constructor; simpl; intuition discriminate.
Defined.

End ChartExtras.

Section PRMoreExtras.

Import PyFloat PR Sample.

(** X13.  Without a stored weight above zero for the exercise, every new
    weight that parses to a non-zero value is announced as a first lift:
    stored weights that are zero, negative or not a number do not count,
    and the new weight may itself be negative. *)
Theorem check_pr_without_positive_history
    (d : disk) (h : list workout) (exercise new_weight : string) (nv : float) :
  WORKOUT_FILE d = Stored h \/ (WORKOUT_FILE d = Missing /\ h = []) ->
  (forall w v, In w h -> same_exercise exercise w = true ->
               entry_weight w = Some v -> gtb v (of_Z 0) = false) ->
  parse_weight (Some new_weight) = Some nv ->
  truthy nv = true ->
  check_pr d exercise new_weight = Ok (true, None).
Proof.
  intros Hd Hnone En Tn. unfold check_pr. rewrite En, Tn. simpl.
  assert (Hg : get_pr_for_exercise d exercise = Ok None).
  { destruct Hd as [Ed|[Ed _]]; [|apply get_pr_missing; exact Ed].
    destruct (get_pr_scan d h exercise Ed)
      as [[Eg _] | (b & bw & _ & Hin & Hm & Ew & Hpos & _)]; [exact Eg|].
    rewrite (Hnone b bw Hin Hm Ew) in Hpos. discriminate. }
  rewrite Hg. reflexivity.
Qed.

Lemma check_pr_without_positive_history_witness :
  check_pr (disk_of [entry "Squat" "-5kg"; entry "Squat" "0kg"]) "Squat" "-5kg"
  = Ok (true, None).
Proof.
  apply (check_pr_without_positive_history
           (disk_of [entry "Squat" "-5kg"; entry "Squat" "0kg"])
           [entry "Squat" "-5kg"; entry "Squat" "0kg"] "Squat" "-5kg"
           (of_Z (-5))).
  - left. reflexivity.
  - intros w v [<-|[<-|[]]] _ E; vm_compute in E; injection E as <-; reflexivity.
  - reflexivity.
  - reflexivity.
Defined.

End PRMoreExtras.

Section DialogueExtras.

Import PyStr Catalog Dialogue.

Lemma get_in {V : Type} (k : string) (v : V) (d : dict V) :
  PyDict.get k d = Some v -> In (k, v) d.
Proof.
  induction d as [|[k' v'] r IH]; simpl; [discriminate|].
  destruct (String.eqb k' k) eqn:E.
  - apply String.eqb_eq in E. intros H. injection H as <-. left. congruence.
  - intros H. right. apply IH, H.
Qed.

Lemma get_none {V : Type} (k : string) (d : dict V) :
  PyDict.get k d = None <-> ~ In k (PyDict.keys d).
Proof.
  induction d as [|[k' v'] r IH]; simpl; [tauto|].
  destruct (String.eqb k' k) eqn:E.
  - apply String.eqb_eq in E. split; [discriminate|]. intros H. tauto.
  - apply String.eqb_neq in E. rewrite IH. tauto.
Qed.

(** Every body part of the table has five exercises. *)
Lemma body_part_lookup (m : string) :
  In m (PyDict.keys BODY_PARTS) ->
  exists l, PyDict.get m BODY_PARTS = Some l /\ List.length l = 5%nat.
Proof.
  simpl. intros H.
  repeat (destruct H as [<-|H]; [eexists; split; reflexivity|]).
  destruct H.
Qed.

Lemma get_exercises_cons (m : string) (r : list string) :
  get_exercises_for_muscles (m :: r) =
    match PyDict.get m BODY_PARTS with
    | None => None
    | Some exs =>
        match get_exercises_for_muscles r with
        | None => None
        | Some rest => Some (List.map (fun ex => (ex, m)) exs ++ rest)
        end
    end.
Proof. reflexivity. Qed.

Lemma exercises_for_known_muscles (muscles : list string) :
  (forall m, In m muscles -> In m (PyDict.keys BODY_PARTS)) ->
  exists exs,
    get_exercises_for_muscles muscles = Some exs
    /\ List.length exs = (5 * List.length muscles)%nat
    /\ forall ex bp, In (ex, bp) exs ->
         In bp muscles /\
         exists l, PyDict.get bp BODY_PARTS = Some l /\ In ex l.
Proof.
  induction muscles as [|m r IH]; intros H.
  - exists []. split; [reflexivity|]. split; [reflexivity|]. intros ex bp [].
  - destruct (body_part_lookup m (H m (or_introl eq_refl))) as (l & El & Hl).
    destruct (IH (fun x Hx => H x (or_intror Hx))) as (rest & Er & Hr & Hin).
    exists (List.map (fun ex => (ex, m)) l ++ rest).
    split; [rewrite get_exercises_cons, El, Er; reflexivity|]. split.
    + rewrite length_app, length_map, Hl, Hr. simpl. lia.
    + intros ex bp I. apply in_app_or in I. destruct I as [I|I].
      * apply in_map_iff in I. destruct I as (x & E & Ix).
        injection E as <- <-. split; [left; reflexivity|]. exists l. auto.
      * destruct (Hin ex bp I) as [I1 I2]. split; [right; exact I1|exact I2].
Qed.

Lemma exercises_none (muscles : list string) :
  get_exercises_for_muscles muscles = None <->
  exists m, In m muscles /\ ~ In m (PyDict.keys BODY_PARTS).
Proof.
  induction muscles as [|m r IH].
  - split; [discriminate|]. intros (m & [] & _).
  - rewrite get_exercises_cons.
    destruct (PyDict.get m BODY_PARTS) as [l|] eqn:El.
    + destruct (get_exercises_for_muscles r) as [rest|].
      * split; [discriminate|]. intros (x & [<-|Hx] & Hn).
        -- apply get_none in Hn. congruence.
        -- assert (Habs : Some rest = None) by (apply (proj2 IH); exists x; auto).
           discriminate.
      * split; [|reflexivity]. intros _.
        destruct (proj1 IH eq_refl) as (x & Hx & Hn).
        exists x. split; [right; exact Hx|exact Hn].
    + split; [|reflexivity]. intros _. exists m.
      split; [left; reflexivity|]. apply get_none, El.
Qed.

Lemma exercises_some (muscles : list string) (exs : list (string * string)) :
  get_exercises_for_muscles muscles = Some exs ->
  (forall m, In m muscles -> In m (PyDict.keys BODY_PARTS))
  /\ List.length exs = (5 * List.length muscles)%nat
  /\ forall ex bp, In (ex, bp) exs ->
       In bp muscles /\
       exists l, PyDict.get bp BODY_PARTS = Some l /\ In ex l.
Proof.
  intros E.
  assert (Hknown : forall m, In m muscles -> In m (PyDict.keys BODY_PARTS)).
  { intros m Hm.
    destruct (in_dec string_dec m (PyDict.keys BODY_PARTS)) as [I|N]; [exact I|].
    assert (Habs : get_exercises_for_muscles muscles = None)
      by (apply exercises_none; exists m; auto).
    congruence. }
  split; [exact Hknown|].
  destruct (exercises_for_known_muscles muscles Hknown) as (exs' & E' & Hl & Hin).
  assert (exs' = exs) by congruence. subst exs'. auto.
Qed.

(** X14.  [get_exercises_for_muscles] fails exactly when a muscle is not a
    body part of the table; otherwise it lists five exercises per muscle,
    each tagged with the muscle whose table entry holds it. *)
Theorem get_exercises_for_muscles_result (muscles : list string) :
  (get_exercises_for_muscles muscles = None <->
   exists m, In m muscles /\ ~ In m (PyDict.keys BODY_PARTS))
  /\ (forall exs, get_exercises_for_muscles muscles = Some exs ->
        List.length exs = (5 * List.length muscles)%nat
        /\ forall ex bp, In (ex, bp) exs ->
             In bp muscles /\
             exists l, PyDict.get bp BODY_PARTS = Some l /\ In ex l).
Proof.
  split; [apply exercises_none|].
  intros exs E. apply (exercises_some muscles exs E).
Qed.

Lemma muscle_choice_part (line part : string) (o : list say) :
  muscle_choice line = (Some (Some part), o) ->
  In part (PyDict.keys BODY_PARTS) /\ o = [].
Proof.
  unfold muscle_choice.
  destruct (PyInt.of_string line) as [choice|]; [|discriminate].
  destruct (choice =? _); [discriminate|].
  destruct (_ && _); [|discriminate].
  destruct (nth_error _ _) as [p|] eqn:E; [|discriminate].
  intros H. injection H as <- <-. split; [|reflexivity].
  eapply nth_error_In, E.
Qed.

Lemma combo_choice_selection (selected line : string) (sel : list string)
    (o : list say) :
  combo_choice selected line = (Some sel, o) ->
  o = [] /\
  (sel = [selected] \/
   exists part, sel = [selected; part] /\ In part (PyDict.keys BODY_PARTS)
                /\ part <> selected).
Proof.
  unfold combo_choice.
  destruct (PyInt.of_string line) as [choice|]; [|discriminate].
  destruct (choice =? _).
  { intros H. injection H as <- <-. auto. }
  destruct (_ && _); [|discriminate].
  destruct (nth_error _ _) as [p|] eqn:E; [|discriminate].
  intros H. injection H as <- <-. split; [reflexivity|]. right.
  exists p. split; [reflexivity|].
  apply nth_error_In in E. unfold get_combo_suggestions in E.
  apply filter_In in E. destruct E as [I N]. split; [exact I|].
  apply negb_true_iff, String.eqb_neq in N. exact N.
Qed.

Lemma select_combo_result (selected : string) (inputs : list string)
    (out0 : list say) (sel : list string) (out : list say) (rest : list string) :
  select_combo selected out0 inputs = Returns sel out rest ->
  (sel = [selected] \/
   exists part, sel = [selected; part] /\ In part (PyDict.keys BODY_PARTS)
                /\ part <> selected)
  /\ exists used, inputs = used ++ rest.
Proof.
  revert out0. induction inputs as [|line r IH]; intros out0; simpl;
    [discriminate|].
  destruct (combo_choice selected line) as [[s|] o] eqn:E.
  - intros H. injection H as <- <- <-.
    destruct (combo_choice_selection _ _ _ _ E) as [_ Hs].
    split; [exact Hs|]. exists [line]. reflexivity.
  - intros H. destruct (IH _ H) as [Hs [used Hu]].
    split; [exact Hs|]. exists (line :: used). rewrite Hu. reflexivity.
Qed.

Lemma select_muscle_result (inputs : list string) (out0 : list say)
    (sel : list string) (out : list say) (rest : list string) :
  select_muscle out0 inputs = Returns sel out rest ->
  (sel = [] \/
   exists a, In a (PyDict.keys BODY_PARTS) /\
     (sel = [a] \/
      exists b, sel = [a; b] /\ In b (PyDict.keys BODY_PARTS) /\ b <> a))
  /\ exists used, inputs = used ++ rest.
Proof.
  revert out0. induction inputs as [|line r IH]; intros out0; simpl;
    [discriminate|].
  destruct (muscle_choice line) as [[[part|]|] o] eqn:E.
  - intros H. destruct (select_combo_result _ _ _ _ _ _ H) as [Hs [used Hu]].
    destruct (muscle_choice_part _ _ _ E) as [Hp _].
    split; [right; exists part; auto|].
    exists (line :: used). rewrite Hu. reflexivity.
  - intros H. injection H as <- <- <-. split; [auto|].
    exists [line]. reflexivity.
  - intros H. destruct (IH _ H) as [Hs [used Hu]].
    split; [exact Hs|]. exists (line :: used). rewrite Hu. reflexivity.
Qed.

(** X15.  Whatever is typed, [select_workout_muscles] returns no muscle
    (skip), one body part of the table or two different ones, and the
    exercise list of its selection is always found: five exercises per
    muscle. *)
Theorem select_workout_muscles_valid
    (inputs : list string) (sel : list string) (out : list say)
    (rest : list string) :
  select_workout_muscles inputs = Returns sel out rest ->
  (List.length sel <= 2)%nat
  /\ NoDup sel
  /\ (forall m, In m sel -> In m (PyDict.keys BODY_PARTS))
  /\ (exists exs, get_exercises_for_muscles sel = Some exs
                  /\ List.length exs = (5 * List.length sel)%nat)
  /\ exists used, inputs = used ++ rest.
Proof.
  unfold select_workout_muscles. intros H.
  destruct (select_muscle_result _ _ _ _ _ H) as [Hs Hu].
  assert (Hk : forall m, In m sel -> In m (PyDict.keys BODY_PARTS)).
  { destruct Hs as [->|(a & Ha & [->|(b & -> & Hb & _)])].
    - intros m [].
    - intros m [<-|[]]. exact Ha.
    - intros m [<-|[<-|[]]]; assumption. }
  split; [|split; [|split; [exact Hk|split; [|exact Hu]]]].
  - destruct Hs as [->|(a & _ & [->|(b & -> & _)])]; simpl; lia.
  - destruct Hs as [->|(a & _ & [->|(b & -> & _ & Hn)])].
    + constructor.
    + constructor; [intros []|constructor].
    + constructor; [intros [E|[]]; congruence|].
      constructor; [intros []|constructor].
  - destruct (exercises_for_known_muscles sel Hk) as (exs & E & Hl & _).
    exists exs. auto.
Qed.

Lemma select_workout_muscles_valid_witness :
  (List.length ["legs"; "core"] <= 2)%nat
  /\ NoDup ["legs"; "core"]
  /\ (forall m, In m ["legs"; "core"] -> In m (PyDict.keys BODY_PARTS))
  /\ (exists exs, get_exercises_for_muscles ["legs"; "core"] = Some exs
                  /\ List.length exs = (5 * List.length ["legs"; "core"])%nat)
  /\ exists used, ["0"; "six"; " 6 "; "9"; "5"; "3"] = used ++ ["3"].
Proof.
  apply (select_workout_muscles_valid ["0"; "six"; " 6 "; "9"; "5"; "3"]
           ["legs"; "core"]
           [AskMuscles (PyDict.keys BODY_PARTS); EnterOneToSeven; EnterNumber;
            AskCombo "legs" (get_combo_suggestions "legs"); EnterUpTo 6]
           ["3"]).
  vm_compute. reflexivity.
Defined.

Lemma positive_number_positive (line : string) (n : Z) :
  positive_number line = Some n ->
  parse_number (strip line) = Some n /\ 0 < n.
Proof.
  unfold positive_number.
  destruct (parse_number (strip line)) as [m|]; [|discriminate].
  destruct (0 <? m) eqn:E; [|discriminate].
  intros H. injection H as <-. apply Z.ltb_lt in E. auto.
Qed.

Lemma read_reps_result (sets : Z) (inputs : list string) (out0 : list say)
    (s r : Z) (w n : string) (out : list say) (rest : list string) :
  read_reps sets out0 inputs = Returns (s, r, w, n) out rest ->
  s = sets /\
  exists bad lr lw ln,
    inputs = bad ++ lr :: lw :: ln :: rest
    /\ Forall (fun l => positive_number l = None) bad
    /\ positive_number lr = Some r
    /\ w = strip lw /\ n = strip ln
    /\ out = out0 ++ repeat InvalidReps (List.length bad).
Proof.
  revert out0. induction inputs as [|line t IH]; intros out0; simpl;
    [discriminate|].
  destruct (positive_number line) as [reps|] eqn:E.
  - unfold read_weight, read_notes.
    destruct t as [|lw [|ln t']]; try discriminate.
    intros H. injection H as <- <- <- <- <- <-.
    split; [reflexivity|]. exists [], line, lw, ln.
    simpl. rewrite app_nil_r. auto 10.
  - intros H. destruct (IH _ H) as (Es & bad & lr & lw & ln & Ei & Hb & Hr & Ew & En & Eo).
    split; [exact Es|]. exists (line :: bad), lr, lw, ln.
    split; [rewrite Ei; reflexivity|].
    split; [constructor; assumption|].
    split; [exact Hr|]. split; [exact Ew|]. split; [exact En|].
    rewrite Eo, <- app_assoc. reflexivity.
Qed.

Lemma read_sets_result (inputs : list string) (out0 : list say)
    (s r : Z) (w n : string) (out : list say) (rest : list string) :
  read_sets out0 inputs = Returns (s, r, w, n) out rest ->
  exists bad_sets ls bad_reps lr lw ln,
    inputs = bad_sets ++ ls :: bad_reps ++ lr :: lw :: ln :: rest
    /\ Forall (fun l => positive_number l = None) bad_sets
    /\ positive_number ls = Some s
    /\ Forall (fun l => positive_number l = None) bad_reps
    /\ positive_number lr = Some r
    /\ w = strip lw /\ n = strip ln
    /\ out = out0 ++ repeat InvalidSets (List.length bad_sets)
               ++ repeat InvalidReps (List.length bad_reps).
Proof.
  revert out0. induction inputs as [|line t IH]; intros out0; simpl;
    [discriminate|].
  destruct (positive_number line) as [sets|] eqn:E.
  - intros H.
    destruct (read_reps_result _ _ _ _ _ _ _ _ _ H)
      as (-> & bad & lr & lw & ln & Ei & Hb & Hr & Ew & En & Eo).
    exists [], line, bad, lr, lw, ln. simpl.
    split; [rewrite Ei; reflexivity|]. auto 10.
  - intros H.
    destruct (IH _ H)
      as (bs & ls & br & lr & lw & ln & Ei & Hbs & Hs & Hbr & Hr & Ew & En & Eo).
    exists (line :: bs), ls, br, lr, lw, ln.
    split; [rewrite Ei; reflexivity|].
    split; [constructor; assumption|].
    split; [exact Hs|]. split; [exact Hbr|]. split; [exact Hr|].
    split; [exact Ew|]. split; [exact En|].
    rewrite Eo. simpl. rewrite <- app_assoc. reflexivity.
Qed.

(** X16.  [collect_workout_details] returns sets and reps above zero only:
    it skips, with one complaint each, the lines that are not a number
    above zero, takes the first that is, and returns the two lines after
    the reps, trimmed, as weight and notes. *)
Theorem collect_workout_details_result
    (inputs : list string) (sets reps : Z) (weight notes : string)
    (out : list say) (rest : list string) :
  collect_workout_details inputs = Returns (sets, reps, weight, notes) out rest ->
  0 < sets /\ 0 < reps /\
  exists bad_sets ls bad_reps lr lw ln,
    inputs = bad_sets ++ ls :: bad_reps ++ lr :: lw :: ln :: rest
    /\ Forall (fun l => positive_number l = None) bad_sets
    /\ parse_number (strip ls) = Some sets
    /\ Forall (fun l => positive_number l = None) bad_reps
    /\ parse_number (strip lr) = Some reps
    /\ weight = strip lw /\ notes = strip ln
    /\ out = repeat InvalidSets (List.length bad_sets)
               ++ repeat InvalidReps (List.length bad_reps).
Proof.
  unfold collect_workout_details. intros H.
  destruct (read_sets_result _ _ _ _ _ _ _ _ H)
    as (bs & ls & br & lr & lw & ln & Ei & Hbs & Hs & Hbr & Hr & Ew & En & Eo).
  destruct (positive_number_positive _ _ Hs) as [Ps Hps].
  destruct (positive_number_positive _ _ Hr) as [Pr Hpr].
  split; [exact Hps|]. split; [exact Hpr|].
  exists bs, ls, br, lr, lw, ln. auto 12.
Qed.

Lemma collect_workout_details_result_witness :
  0 < 3 /\ 0 < 12 /\
  exists bad_sets ls bad_reps lr lw ln,
    ["0"; "-2"; " Three "; "lots"; "twelve"; " 60kg "; ""; "n"]
    = bad_sets ++ ls :: bad_reps ++ lr :: lw :: ln :: ["n"]
    /\ Forall (fun l => positive_number l = None) bad_sets
    /\ parse_number (strip ls) = Some 3
    /\ Forall (fun l => positive_number l = None) bad_reps
    /\ parse_number (strip lr) = Some 12
    /\ "60kg" = strip lw /\ "" = strip ln
    /\ [InvalidSets; InvalidSets; InvalidReps]
       = repeat InvalidSets (List.length bad_sets)
           ++ repeat InvalidReps (List.length bad_reps).
Proof.
  apply (collect_workout_details_result
           ["0"; "-2"; " Three "; "lots"; "twelve"; " 60kg "; ""; "n"]
           3 12 "60kg" "" [InvalidSets; InvalidSets; InvalidReps] ["n"]).
  vm_compute. reflexivity.
Defined.

(** X17.  [parse_number] ignores letter case and surrounding blanks, and a
    number that is not read from digits is one of the twenty-one words of
    the table, between 0 and 20. *)
Theorem parse_number_ignores_case_and_blanks (value : string) :
  parse_number (lower value) = parse_number value
  /\ parse_number (strip value) = parse_number value
  /\ forall n, parse_number value = Some n ->
       PyInt.of_string (lower (strip value)) = Some n
       \/ (In (lower (strip value), n) WORD_TO_NUMBER /\ 0 <= n <= 20).
Proof.
  split; [|split].
  - unfold parse_number. rewrite <- lower_strip, lower_idem. reflexivity.
  - unfold parse_number. rewrite strip_idem. reflexivity.
  - intros n. unfold parse_number.
    destruct (PyInt.of_string (lower (strip value))) as [m|]; [auto|].
    intros H. right. apply get_in in H. split; [exact H|].
    assert (Hall : Forall (fun kv : string * Z => 0 <= snd kv <= 20) WORD_TO_NUMBER).
    { unfold WORD_TO_NUMBER. repeat constructor; simpl; lia. }
    rewrite Forall_forall in Hall. apply (Hall _ H).
Qed.

End DialogueExtras.

Section SessionExtras.

Import PyStr Catalog Dialogue Persist Session.

Lemma run_invariant (P : machine -> Prop) :
  (forall now p v line, P (Waiting p v) -> P (step now p v line)) ->
  forall typed m, P m -> P (run m typed).
Proof.
  intros Hstep. induction typed as [|[now line] rest IH]; intros m Hm.
  - destruct m; exact Hm.
  - destruct m as [p v|v|e v|v]; simpl; try exact Hm.
    apply IH, Hstep, Hm.
Qed.

Lemma exercise_menu_shape (v : vars) :
  exists es, exercise_menu v = Waiting Choice (print es v).
Proof. eexists. reflexivity. Qed.

Lemma menu_selection_nil : menu_selection [].
Proof.
  split; [simpl; lia|]. split; [constructor|]. intros x [].
Qed.

Lemma session_ok_begin (t : option template) (d : disk) (selected : list string)
    (te : option (list (string * string))) (out : list event) :
  (t = None -> menu_selection selected) ->
  (forall tm, t = Some tm -> selected = t_muscles tm) ->
  session_ok t (begin d selected te out).
Proof.
  intros Hnone Hsome. unfold begin.
  destruct selected as [|a r] eqn:Es.
  - split; [constructor|]. split; [exact Hnone|exact I].
  - rewrite <- Es in *.
    destruct (get_exercises_for_muscles selected) as [exs|] eqn:Eg.
    + destruct (exercise_menu_shape
                  {| files := d; muscles := selected; template_exercises := te;
                     available := exs; session_workouts := [];
                     exercise_count := 1;
                     printed := printed
                       (print [Focus selected]
                          {| files := d; muscles := selected;
                             template_exercises := te; available := [];
                             session_workouts := []; exercise_count := 1;
                             printed := out |}) |}) as [es Ees].
      rewrite Ees. split; [constructor|]. split; [exact Hnone|].
      split; [exact I|]. split; [simpl; congruence|exact Eg].
    + split; [constructor|]. split; [exact Hnone|].
      destruct t as [tm|].
      * exists tm. split; [reflexivity|]. rewrite <- (Hsome tm eq_refl). exact Eg.
      * exfalso. destruct (Hnone eq_refl) as (_ & _ & Hk).
        destruct (exercises_for_known_muscles selected Hk) as (exs & E & _).
        congruence.
Qed.

Lemma session_ok_start (d : disk) (t : option template) :
  session_ok t (log_workout d t).
Proof.
  destruct t as [tm|]; simpl.
  - apply session_ok_begin; [discriminate|].
    intros tm' E. injection E as <-. reflexivity.
  - split; [constructor|]. split; [intros _; apply menu_selection_nil|].
    reflexivity.
Qed.

Lemma session_ok_step (t : option template) (now : PyDate.datetime) (p : phase)
    (v : vars) (line : string) :
  session_ok t (Waiting p v) -> session_ok t (step now p v line).
Proof.
  intros (HF & HM & HS). simpl in HF, HM.
  destruct p; cbn [step].
  - (* PickMuscle *)
    destruct (muscle_choice line) as [[[part|]|] o] eqn:E.
    + destruct (muscle_choice_part _ _ _ E) as [Hp _].
      split; [exact HF|]. split; [exact HM|]. split; [exact HS|exact Hp].
    + apply session_ok_begin; [intros _; apply menu_selection_nil|].
      intros tm Et. congruence.
    + split; [exact HF|]. split; [exact HM|exact HS].
  - (* PickCombo *)
    destruct HS as [Ht Hsel].
    destruct (combo_choice selected line) as [[sel|] o] eqn:E.
    + apply session_ok_begin; [|intros tm Et; congruence].
      intros _. destruct (combo_choice_selection _ _ _ _ E) as [_ Hs].
      destruct Hs as [->|(part & -> & Hp & Hn)].
      * split; [simpl; lia|]. split.
        -- constructor; [intros []|constructor].
        -- intros x [<-|[]]. exact Hsel.
      * split; [simpl; lia|]. split.
        -- constructor; [intros [E'|[]]; congruence|].
           constructor; [intros []|constructor].
        -- intros x [<-|[<-|[]]]; assumption.
    + split; [exact HF|]. split; [exact HM|]. split; assumption.
  - (* Choice *)
    destruct HS as [_ Hc].
    destruct (PyInt.of_string line) as [choice|];
      [|split; [exact HF|split; [exact HM|split; [exact I|exact Hc]]]].
    destruct (choice =? Z.of_nat (List.length (available v)) + 2).
    { unfold workout_done.
      destruct (session_workouts v) as [|w ws] eqn:Es.
      - split; [simpl; rewrite Es; constructor|]. split; [exact HM|exact I].
      - rewrite <- Es in HF |- *.
        destruct (load_data (WORKOUT_FILE (files v))) as [workouts|e].
        + split; [exact HF|]. split; [exact HM|]. split; [exact I|exact Hc].
        + destruct (is_ValueError e).
          * split; [exact HF|]. split; [exact HM|]. split; [exact I|exact Hc].
          * split; [exact HF|]. split; [exact HM|exact Hc]. }
    destruct (choice =? Z.of_nat (List.length (available v)) + 1).
    { split; [exact HF|]. split; [exact HM|]. split; [exact I|exact Hc]. }
    destruct ((1 <=? choice) && (choice <=? Z.of_nat (List.length (available v)))).
    + destruct (nth_error (available v) (Z.to_nat (choice - 1)))
        as [[exercise body_part]|] eqn:En.
      * split; [exact HF|]. split; [exact HM|]. split; [|exact Hc].
        apply nth_error_In in En. destruct Hc as [_ Hg].
        destruct (exercises_some _ _ Hg) as (_ & _ & Hin).
        apply (Hin exercise body_part En).
      * split; [exact HF|]. split; [exact HM|]. split; [exact I|exact Hc].
    + split; [exact HF|]. split; [exact HM|]. split; [exact I|exact Hc].
  - (* CustomName *)
    destruct HS as [_ Hc].
    split; [exact HF|]. split; [exact HM|]. split; [|exact Hc].
    destruct Hc as [Hne _]. simpl.
    destruct (muscles v); [congruence|left; reflexivity].
  - (* Sets *)
    destruct HS as [Hp Hc]. simpl in Hp.
    destruct (positive_number line) as [sets|] eqn:E.
    + destruct (positive_number_positive _ _ E) as [_ Hpos].
      split; [exact HF|]. split; [exact HM|]. split; [|exact Hc].
      simpl. auto.
    + split; [exact HF|]. split; [exact HM|]. split; [exact Hp|exact Hc].
  - (* Reps *)
    destruct HS as [Hp Hc]. simpl in Hp.
    destruct (positive_number line) as [reps|] eqn:E.
    + destruct (positive_number_positive _ _ E) as [_ Hpos].
      split; [exact HF|]. split; [exact HM|]. split; [|exact Hc].
      simpl. tauto.
    + split; [exact HF|]. split; [exact HM|]. split; [exact Hp|exact Hc].
  - (* Weight *)
    destruct HS as [Hp Hc].
    split; [exact HF|]. split; [exact HM|]. split; [exact Hp|exact Hc].
  - (* Notes *)
    destruct HS as [Hp Hc]. simpl in Hp. unfold log_entry.
    destruct (PR.check_pr (files v) exercise weight) as [[is_pr old_pr]|e].
    + split; [|split; [exact HM|split; [exact I|exact Hc]]].
      simpl. apply Forall_app. split; [exact HF|].
      constructor; [|constructor].
      unfold entry_ok. simpl. tauto.
    + split; [exact HF|]. split; [exact HM|exact Hc].
  - (* Rest *)
    destruct HS as [_ Hc].
    match goal with |- session_ok t (exercise_menu ?v') =>
      destruct (exercise_menu_shape v') as [es Ees]; rewrite Ees end.
    split; [exact HF|]. split; [exact HM|]. split; [exact I|exact Hc].
  - (* SaveAs *)
    destruct HS as [_ Hc].
    destruct (String.eqb (lower line) "y").
    + split; [exact HF|]. split; [exact HM|]. split; [exact I|exact Hc].
    + split; [exact HF|]. split; [exact HM|exact I].
  - (* TemplateName *)
    destruct HS as [_ Hc].
    destruct (strip line) as [|c name'] eqn:En.
    + split; [exact HF|]. split; [exact HM|exact I].
    + destruct (save_template _ _ _ _ _) as [d'|e].
      * split; [exact HF|]. split; [exact HM|exact I].
      * destruct (is_ValueError e).
        -- split; [exact HF|]. split; [exact HM|]. split; [exact I|exact Hc].
        -- split; [exact HF|]. split; [exact HM|exact Hc].
Qed.

(** X18.  Wherever a session stands, every entry it has logged has sets
    and reps above zero, one of the session's muscles as body part, and
    the session's muscles attached.  A session started from the muscle
    menu trains one or two different body parts of the table and never
    fails on an unknown muscle; only a template naming an unknown muscle
    does. *)
Theorem session_entries_wellformed
    (d : disk) (template : option template)
    (typed : list (PyDate.datetime * string)) :
  let m := run (log_workout d template) typed in
  Forall (entry_ok (muscles (vars_of m))) (session_workouts (vars_of m))
  /\ (template = None -> menu_selection (muscles (vars_of m)))
  /\ (forall v, m = CrashedKeyError v ->
        exists t x, template = Some t /\ In x (t_muscles t)
                    /\ ~ In x (PyDict.keys BODY_PARTS)).
Proof.
  cbv zeta.
  pose proof (run_invariant (session_ok template)
                (session_ok_step template) typed _
                (session_ok_start d template)) as (HF & HM & HS).
  split; [exact HF|]. split; [exact HM|].
  intros v E. rewrite E in HS. destruct HS as (t & Et & Hg).
  apply exercises_none in Hg. destruct Hg as (x & Hx & Hn).
  exists t, x. auto.
Qed.

Lemma load_data_raise {A : Type} (f : file (list A)) (e : exn) :
  load_data f = Raise e ->
  e = JSONDecodeError /\ exists raw, f = Corrupt raw.
Proof.
  destruct f as [|raw|data]; try discriminate.
  intros H. injection H as <-. split; [reflexivity|]. exists raw. reflexivity.
Qed.

Lemma check_pr_loaded (d : disk) (h : list workout) (exercise weight : string) :
  load_data (WORKOUT_FILE d) = Ok h ->
  exists r, PR.check_pr d exercise weight = Ok r.
Proof.
  intros Hl. unfold PR.check_pr.
  destruct (PR.parse_weight (Some weight)) as [nv|]; [|eexists; reflexivity].
  destruct (negb (PyFloat.truthy nv)); [eexists; reflexivity|].
  unfold PR.get_pr_for_exercise. rewrite Hl. simpl.
  destruct (filter (PR.same_exercise exercise) h) as [|w ws];
    [eexists; reflexivity|].
  simpl bind.
  destruct (fst _) as [old|]; [|eexists; reflexivity].
  destruct (PR.parse_weight (PR.get_weight old "")) as [ow|];
    [|eexists; reflexivity].
  destruct (_ && _); eexists; reflexivity.
Qed.

Lemma check_pr_unreadable (d : disk) (raw exercise weight : string)
    (nv : PyFloat.float) :
  WORKOUT_FILE d = Corrupt raw ->
  PR.parse_weight (Some weight) = Some nv ->
  PyFloat.truthy nv = true ->
  PR.check_pr d exercise weight = Raise JSONDecodeError.
Proof.
  intros Ed En Tn. unfold PR.check_pr, PR.get_pr_for_exercise.
  rewrite En, Tn, Ed. reflexivity.
Qed.

Lemma clean_ok_begin (d : disk) (h : list workout) (selected : list string)
    (te : option (list (string * string))) (out : list event) :
  clean_ok d h (begin d selected te out).
Proof.
  unfold begin. destruct selected as [|a r].
  - left. split; reflexivity.
  - destruct (get_exercises_for_muscles (a :: r)); reflexivity.
Qed.

Lemma clean_ok_step (d : disk) (h : list workout) (ts : dict template)
    (now : PyDate.datetime) (p : phase) (v : vars) (line : string) :
  load_data (WORKOUT_FILE d) = Ok h ->
  load_templates d = Ok ts ->
  clean_ok d h (Waiting p v) -> clean_ok d h (step now p v line).
Proof.
  intros Hw Ht HS.
  destruct p; cbn [step]; cbn [clean_ok] in HS.
  - destruct (muscle_choice line) as [[[part|]|] o]; try exact HS.
    rewrite HS. apply clean_ok_begin.
  - destruct (combo_choice selected line) as [[sel|] o]; try exact HS.
    rewrite HS. apply clean_ok_begin.
  - destruct (PyInt.of_string line) as [choice|]; [|exact HS].
    destruct (choice =? Z.of_nat (List.length (available v)) + 2).
    { unfold workout_done.
      destruct (session_workouts v) as [|w ws] eqn:Es.
      - left. auto.
      - rewrite <- Es. rewrite HS, Hw. cbn [clean_ok].
        split; [simpl; rewrite Es; discriminate|reflexivity]. }
    destruct (choice =? Z.of_nat (List.length (available v)) + 1); [exact HS|].
    destruct ((1 <=? choice) && (choice <=? Z.of_nat (List.length (available v))));
      [|exact HS].
    destruct (nth_error (available v) (Z.to_nat (choice - 1))) as [[ex bp]|];
      exact HS.
  - exact HS.
  - destruct (positive_number line); exact HS.
  - destruct (positive_number line); exact HS.
  - exact HS.
  - unfold log_entry.
    destruct (check_pr_loaded (files v) h exercise weight) as [[is_pr old] E];
      [rewrite HS; exact Hw|].
    rewrite E. exact HS.
  - match goal with |- clean_ok d h (exercise_menu ?v') =>
      destruct (exercise_menu_shape v') as [es Ees]; rewrite Ees end.
    exact HS.
  - destruct HS as [Hne Hf].
    destruct (String.eqb (lower line) "y"); [split; assumption|].
    right. split; [exact Hne|]. rewrite Hf. auto.
  - destruct HS as [Hne Hf].
    destruct (strip line) as [|c name'].
    + right. split; [exact Hne|]. rewrite Hf. auto.
    + unfold save_template.
      assert (Hlt : load_templates (files v) = Ok ts) by (rewrite Hf; exact Ht).
      rewrite Hlt. simpl bind.
      right. split; [exact Hne|]. simpl. rewrite Hf. auto.
Qed.

(** X19.  On workout and template files that can be read a session stops
    on one exception only: the KeyError of a template that names a muscle
    missing from BODY_PARTS, raised before the first question and before
    anything is written.  A session started from the muscle menu, or from
    a template of known muscles, never stops on an exception.  The session
    writes nothing before "Workout Done" is chosen, and when it returns the
    workouts file holds the old entries followed by those of the session,
    once; the meals and custom foods files are as before. *)
Theorem session_on_readable_files
    (d : disk) (h : list workout) (ts : dict template)
    (template : option template) (typed : list (PyDate.datetime * string)) :
  load_data (WORKOUT_FILE d) = Ok h ->
  load_templates d = Ok ts ->
  let m := run (log_workout d template) typed in
  (forall e v, m <> Crashed e v)
  /\ ((exists v, m = CrashedKeyError v) <->
      (exists t x, template = Some t /\ In x (t_muscles t)
                   /\ ~ In x (PyDict.keys BODY_PARTS)))
  /\ (forall v, m = CrashedKeyError v ->
        files v = d /\ session_workouts v = [])
  /\ (forall p v, m = Waiting p v -> p <> SaveAs -> p <> TemplateName ->
        files v = d)
  /\ (forall v, m = Returned v ->
        load_data (WORKOUT_FILE (files v)) = Ok (h ++ session_workouts v)
        /\ MEALS_FILE (files v) = MEALS_FILE d
        /\ CUSTOM_FOODS_FILE (files v) = CUSTOM_FOODS_FILE d).
Proof.
  intros Hw Ht. cbv zeta.
  assert (Hstart : clean_ok d h (log_workout d template)).
  { destruct template as [tm|]; [apply clean_ok_begin|reflexivity]. }
  pose proof (run_invariant (clean_ok d h)
                (fun now p v line => clean_ok_step d h ts now p v line Hw Ht)
                typed _ Hstart) as HS.
  pose proof (run_invariant (session_ok template)
                (session_ok_step template) typed _
                (session_ok_start d template)) as (_ & _ & HK).
  assert (Hkey : forall t x, template = Some t -> In x (t_muscles t) ->
            ~ In x (PyDict.keys BODY_PARTS) ->
            exists v, run (log_workout d template) typed = CrashedKeyError v
                      /\ files v = d /\ session_workouts v = []).
  { intros t x -> Hx Hn.
    assert (Hg : get_exercises_for_muscles (t_muscles t) = None)
      by (apply exercises_none; exists x; auto).
    unfold log_workout, begin. revert Hx Hg.
    destruct (t_muscles t) as [|a r]; intros Hx Hg; [destruct Hx|].
    rewrite Hg. eexists.
    split; [destruct typed as [|[now line] rest]; reflexivity|].
    split; reflexivity. }
  split.
  { intros e v E. rewrite E in HS. exact HS. }
  split.
  { split.
    - intros [v E]. rewrite E in HK. destruct HK as (t & Et & Hg).
      apply exercises_none in Hg. destruct Hg as (x & Hx & Hn).
      exists t, x. auto.
    - intros (t & x & Et & Hx & Hn).
      destruct (Hkey t x Et Hx Hn) as (v & E & _). exists v. exact E. }
  split.
  { intros v E. rewrite E in HK. destruct HK as (t & Et & Hg).
    apply exercises_none in Hg. destruct Hg as (x & Hx & Hn).
    destruct (Hkey t x Et Hx Hn) as (v' & E2 & Hf & Hs).
    rewrite E in E2. injection E2 as <-. auto. }
  split.
  { intros p v E N1 N2. rewrite E in HS.
    destruct p; try exact HS; congruence. }
  intros v E. rewrite E in HS.
  destruct HS as [[Es Hf]|(Hne & H1 & H2 & H3)].
  - rewrite Es, Hf, app_nil_r. auto.
  - rewrite H1. auto.
Qed.

Lemma stuck_ok_begin (d : disk) (selected : list string)
    (te : option (list (string * string))) (out : list event) :
  stuck_ok d (begin d selected te out).
Proof.
  unfold begin. destruct selected as [|a r].
  - split; reflexivity.
  - destruct (get_exercises_for_muscles (a :: r)); split; reflexivity.
Qed.

Lemma stuck_ok_step (d : disk) (raw : string) (now : PyDate.datetime) (p : phase)
    (v : vars) (line : string) :
  WORKOUT_FILE d = Corrupt raw ->
  stuck_ok d (Waiting p v) -> stuck_ok d (step now p v line).
Proof.
  intros Hw [Hf HS]. simpl in Hf.
  destruct p; cbn [step]; try destruct HS.
  - destruct (muscle_choice line) as [[[part|]|] o];
      try (split; [exact Hf|exact I]).
    rewrite Hf. apply stuck_ok_begin.
  - destruct (combo_choice selected line) as [[sel|] o];
      try (split; [exact Hf|exact I]).
    rewrite Hf. apply stuck_ok_begin.
  - destruct (PyInt.of_string line) as [choice|]; [|split; [exact Hf|exact I]].
    destruct (choice =? Z.of_nat (List.length (available v)) + 2).
    { unfold workout_done.
      destruct (session_workouts v) as [|w ws] eqn:Es.
      - split; [exact Hf|exact Es].
      - rewrite Hf, Hw. simpl. split; [exact Hf|exact I]. }
    destruct (choice =? Z.of_nat (List.length (available v)) + 1);
      [split; [exact Hf|exact I]|].
    destruct ((1 <=? choice) && (choice <=? Z.of_nat (List.length (available v))));
      [|split; [exact Hf|exact I]].
    destruct (nth_error (available v) (Z.to_nat (choice - 1))) as [[ex bp]|];
      split; try exact Hf; exact I.
  - split; [exact Hf|exact I].
  - destruct (positive_number line); split; try exact Hf; exact I.
  - destruct (positive_number line); split; try exact Hf; exact I.
  - split; [exact Hf|exact I].
  - unfold log_entry.
    destruct (PR.check_pr (files v) exercise weight) as [[is_pr old]|e];
      split; try exact Hf; exact I.
  - match goal with |- stuck_ok d (exercise_menu ?v') =>
      destruct (exercise_menu_shape v') as [es Ees]; rewrite Ees end.
    split; [exact Hf|exact I].
Qed.

(** X20.  When the workouts file cannot be read as JSON, a session never
    writes a file and never returns with an entry logged: at the choice
    prompt "Workout Done" only prints "Please enter a number" and asks
    again, and a set whose weight parses to a non-zero value stops the
    session on the JSON error. *)
Theorem session_on_unreadable_workouts
    (d : disk) (raw : string) (template : option template)
    (typed : list (PyDate.datetime * string)) :
  WORKOUT_FILE d = Corrupt raw ->
  let m := run (log_workout d template) typed in
  files (vars_of m) = d
  /\ (forall v, m = Returned v -> session_workouts v = [])
  /\ (forall v now line,
        m = Waiting Choice v -> session_workouts v <> [] ->
        PyInt.of_string line = Some (Z.of_nat (List.length (available v)) + 2) ->
        step now Choice v line = Waiting Choice (print [PleaseEnterNumber] v))
  /\ (forall v now line exercise body_part sets reps weight nv,
        m = Waiting (Notes exercise body_part sets reps weight) v ->
        PR.parse_weight (Some weight) = Some nv -> PyFloat.truthy nv = true ->
        step now (Notes exercise body_part sets reps weight) v line
        = Crashed JSONDecodeError v).
Proof.
  intros Hw. cbv zeta.
  assert (Hstart : stuck_ok d (log_workout d template)).
  { destruct template as [tm|]; [apply stuck_ok_begin|split; reflexivity]. }
  pose proof (run_invariant (stuck_ok d)
                (fun now p v line => stuck_ok_step d raw now p v line Hw)
                typed _ Hstart) as [Hf HS].
  split; [exact Hf|]. split; [|split].
  - intros v E. rewrite E in HS. exact HS.
  - intros v now line E Hne Hdone. rewrite E in Hf. simpl in Hf.
    cbn [step]. rewrite Hdone, Z.eqb_refl. unfold workout_done.
    destruct (session_workouts v); [congruence|].
    rewrite Hf, Hw. reflexivity.
  - intros v now line exercise body_part sets reps weight nv E En Tn.
    rewrite E in Hf. simpl in Hf. cbn [step]. unfold log_entry.
    rewrite (check_pr_unreadable (files v) raw exercise weight nv); auto.
    rewrite Hf. exact Hw.
Qed.

(** X21.  When the templates file cannot be read as JSON, saving the
    session as a template fails after the workouts were written, and the
    session goes back to the choice prompt: choosing "Workout Done" again
    writes the entries of the session a second time. *)
Theorem session_saved_twice
    (v : vars) (h : list workout) (raw : string)
    (done yes name no : string) (t1 t2 t3 t4 t5 : PyDate.datetime) :
  session_workouts v <> [] ->
  load_data (WORKOUT_FILE (files v)) = Ok h ->
  TEMPLATES_FILE (files v) = Corrupt raw ->
  PyInt.of_string done = Some (Z.of_nat (List.length (available v)) + 2) ->
  lower yes = "y" -> strip name <> "" -> lower no <> "y" ->
  exists v',
    run (Waiting Choice v)
      [(t1, done); (t2, yes); (t3, name); (t4, done); (t5, no)] = Returned v'
    /\ WORKOUT_FILE (files v')
       = Stored (h ++ session_workouts v ++ session_workouts v)
    /\ session_workouts v' = session_workouts v
    /\ In PleaseEnterNumber (printed v').
Proof.
  intros Hne Hl Ht Hdone Hyes Hname Hno.
  cbn [run step]. rewrite Hdone, Z.eqb_refl. unfold workout_done.
  destruct (session_workouts v) as [|w ws] eqn:Es; [congruence|].
  rewrite <- Es in *. rewrite Hl.
  cbn [run step]. rewrite Hyes. cbn [String.eqb Ascii.eqb Bool.eqb].
  cbn [run step].
  destruct (strip name) as [|c name'] eqn:En; [congruence|].
  unfold save_template at 1, load_templates at 1.
  cbn [files print with_files save_workouts TEMPLATES_FILE].
  rewrite Ht. cbn [load_dict_data exists_ open_and_json_load bind is_ValueError].
  cbn [run step available print with_files].
  rewrite Hdone, Z.eqb_refl. unfold workout_done.
  cbn [session_workouts print with_files files save_workouts WORKOUT_FILE
       load_data exists_ open_and_json_load].
  rewrite Es. rewrite <- Es.
  cbn [run step].
  destruct (String.eqb (lower no) "y") eqn:Eno;
    [apply String.eqb_eq in Eno; congruence|].
  eexists. split; [reflexivity|].
  cbn [files session_workouts printed print with_files save_workouts WORKOUT_FILE].
  split; [rewrite <- app_assoc; reflexivity|]. split; [reflexivity|].
  apply in_or_app. left. apply in_or_app. right. left. reflexivity.
Qed.

Lemma session_on_readable_files_witness :
  let m := run (log_workout Sample.first_run None) Examples.leg_day in
  (forall e v, m <> Crashed e v)
  /\ ((exists v, m = CrashedKeyError v) <->
      (exists t x, None = Some t /\ In x (t_muscles t)
                   /\ ~ In x (PyDict.keys BODY_PARTS)))
  /\ (forall v, m = CrashedKeyError v ->
        files v = Sample.first_run /\ session_workouts v = [])
  /\ (forall p v, m = Waiting p v -> p <> SaveAs -> p <> TemplateName ->
        files v = Sample.first_run)
  /\ (forall v, m = Returned v ->
        load_data (WORKOUT_FILE (files v)) = Ok ([] ++ session_workouts v)
        /\ MEALS_FILE (files v) = MEALS_FILE Sample.first_run
        /\ CUSTOM_FOODS_FILE (files v) = CUSTOM_FOODS_FILE Sample.first_run).
Proof.
  apply (session_on_readable_files Sample.first_run [] [] None Examples.leg_day);
    reflexivity.
Defined.

Lemma session_on_unreadable_workouts_witness :
  let m := run (log_workout Sample.damaged None) Examples.leg_day in
  files (vars_of m) = Sample.damaged
  /\ (forall v, m = Returned v -> session_workouts v = [])
  /\ (forall v now line,
        m = Waiting Choice v -> session_workouts v <> [] ->
        PyInt.of_string line = Some (Z.of_nat (List.length (available v)) + 2) ->
        step now Choice v line = Waiting Choice (print [PleaseEnterNumber] v))
  /\ (forall v now line exercise body_part sets reps weight nv,
        m = Waiting (Notes exercise body_part sets reps weight) v ->
        PR.parse_weight (Some weight) = Some nv -> PyFloat.truthy nv = true ->
        step now (Notes exercise body_part sets reps weight) v line
        = Crashed JSONDecodeError v).
Proof.
  apply (session_on_unreadable_workouts Sample.damaged "[{" None Examples.leg_day).
  reflexivity.
Defined.

Lemma session_saved_twice_witness :
  exists v',
    run (Waiting Choice Examples.after_one_set)
      [Examples.typed_at 9 "7"; Examples.typed_at 9 "Y";
       Examples.typed_at 10 " Leg day "; Examples.typed_at 11 "7";
       Examples.typed_at 11 "n"] = Returned v'
    /\ WORKOUT_FILE (files v')
       = Stored ([] ++ session_workouts Examples.after_one_set
                    ++ session_workouts Examples.after_one_set)
    /\ session_workouts v' = session_workouts Examples.after_one_set
    /\ In PleaseEnterNumber (printed v').
Proof.
  apply (session_saved_twice Examples.after_one_set [] "{" "7" "Y" " Leg day " "n").
  - discriminate.
  - reflexivity.
  - reflexivity.
  - reflexivity.
  - reflexivity.
  - discriminate.
  - discriminate.
Defined.

End SessionExtras.

Section MealExtras.

Import PyStr PyFloat Catalog Persist Meals.

Lemma get_set {V : Type} (k k' : string) (v : V) (d : dict V) :
  PyDict.get k' (PyDict.set k v d)
  = if String.eqb k k' then Some v else PyDict.get k' d.
Proof.
  induction d as [|[k0 v0] r IH]; simpl.
  - destruct (String.eqb k k'); reflexivity.
  - destruct (String.eqb k0 k) eqn:E0; simpl.
    + apply String.eqb_eq in E0. subst k0.
      destruct (String.eqb k k'); reflexivity.
    + rewrite IH. destruct (String.eqb k k') eqn:E1; [|reflexivity].
      apply String.eqb_eq in E1. subst k'. rewrite E0. reflexivity.
Qed.

Lemma keys_set {V : Type} (k : string) (v : V) (d : dict V) :
  PyDict.keys (PyDict.set k v d)
  = if PyDict.mem k d then PyDict.keys d else PyDict.keys d ++ [k].
Proof.
  unfold PyDict.mem, PyDict.keys.
  induction d as [|[k0 v0] r IH]; simpl; [reflexivity|].
  destruct (String.eqb k0 k) eqn:E0; simpl; [reflexivity|].
  rewrite IH. destruct (PyDict.get k r); reflexivity.
Qed.

Lemma mem_set {V : Type} (k k' : string) (v : V) (d : dict V) :
  PyDict.mem k' (PyDict.set k v d) = String.eqb k k' || PyDict.mem k' d.
Proof.
  unfold PyDict.mem. rewrite get_set.
  destruct (String.eqb k k'); reflexivity.
Qed.

Lemma get_update {V : Type} (k : string) (d other : dict V) :
  NoDup (PyDict.keys other) ->
  PyDict.get k (PyDict.update d other)
  = match PyDict.get k other with
    | Some c => Some c
    | None => PyDict.get k d
    end.
Proof.
  unfold PyDict.update. revert d.
  induction other as [|[k0 v0] r IH]; intros d Hn; simpl; [reflexivity|].
  simpl in Hn. apply NoDup_cons_iff in Hn. destruct Hn as [Hk0 Hr].
  rewrite (IH _ Hr), get_set.
  destruct (String.eqb k0 k) eqn:E.
  - apply String.eqb_eq in E. subst k0.
    apply get_none in Hk0. rewrite Hk0. reflexivity.
  - reflexivity.
Qed.

Lemma keys_update {V : Type} (d other : dict V) :
  NoDup (PyDict.keys other) ->
  PyDict.keys (PyDict.update d other)
  = PyDict.keys d
    ++ filter (fun k => negb (PyDict.mem k d)) (PyDict.keys other).
Proof.
  unfold PyDict.update. revert d.
  induction other as [|[k0 v0] r IH]; intros d Hn; simpl;
    [rewrite app_nil_r; reflexivity|].
  simpl in Hn. apply NoDup_cons_iff in Hn. destruct Hn as [Hk0 Hr].
  rewrite (IH _ Hr), keys_set.
  assert (Hf : filter (fun k => negb (PyDict.mem k (PyDict.set k0 v0 d)))
                 (PyDict.keys r)
               = filter (fun k => negb (PyDict.mem k d)) (PyDict.keys r)).
  { apply filter_ext_in. intros k Hk. rewrite mem_set.
    destruct (String.eqb k0 k) eqn:E; [|reflexivity].
    apply String.eqb_eq in E. subst k0. tauto. }
  rewrite Hf.
  destruct (PyDict.mem k0 d); simpl; [reflexivity|].
  rewrite <- app_assoc. reflexivity.
Qed.

Lemma meal_ok_set (all_foods : dict Z) (name : string) (c : Z) (m : meal) :
  PyDict.get name all_foods = None ->
  meal_ok all_foods m -> meal_ok (PyDict.set name c all_foods) m.
Proof.
  intros Hnone (c' & Hg & Hc). exists c'. split; [|exact Hc].
  rewrite get_set. destruct (String.eqb name (m_food m)) eqn:E; [|exact Hg].
  apply String.eqb_eq in E. subst name. congruence.
Qed.

Lemma meals_ok_finish (d : disk) (v : vars) :
  meals_ok d (Waiting Food v) -> meals_ok d (finish v).
Proof.
  intros (HF & HK & Hf & [custom Hc] & _). simpl in HF, HK.
  unfold finish.
  assert (Hsaved :
    exists v1,
      match new_custom_foods v with
      | [] => Ok v
      | _ :: _ =>
          existing_custom <- load_dict_data (CUSTOM_FOODS_FILE (files v)) ;;
          Ok (with_files
                (save_custom_foods
                   (PyDict.update existing_custom (new_custom_foods v)) (files v))
                v)
      end = Ok v1
      /\ all_foods v1 = all_foods v /\ foods v1 = foods v
      /\ meals_today v1 = meals_today v
      /\ new_custom_foods v1 = new_custom_foods v
      /\ WORKOUT_FILE (files v1) = WORKOUT_FILE d
      /\ MEALS_FILE (files v1) = MEALS_FILE d
      /\ TEMPLATES_FILE (files v1) = TEMPLATES_FILE d
      /\ load_dict_data (CUSTOM_FOODS_FILE (files v1))
         = Ok (PyDict.update custom (new_custom_foods v))).
  { destruct (new_custom_foods v) as [|kv r] eqn:En.
    - exists v. rewrite Hf. auto 10.
    - rewrite Hf, Hc. simpl bind. eexists. split; [reflexivity|].
      simpl. auto 10. }
  destruct Hsaved as (v1 & -> & E1 & E2 & E3 & E4 & W & M & T & C).
  cbv beta iota.
  destruct (meals_today v1) as [|m ms] eqn:Em.
  - split; [simpl; rewrite Em; constructor|].
    split; [simpl; congruence|].
    split; [exact W|]. split; [exact T|].
    split; [exists custom; rewrite E4; auto|].
    left. split; [exact Em|exact M].
  - rewrite <- Em in E3 |- *.
    destruct (load_data (MEALS_FILE (files v1))) as [meals|e] eqn:El.
    + split; [simpl; rewrite E1, E3; exact HF|].
      split; [simpl; congruence|].
      split; [exact W|]. split; [exact T|].
      split; [exists custom; simpl; rewrite E4; auto|].
      right. exists meals. split; [rewrite <- M; exact El|reflexivity].
    + split; [simpl; rewrite E1, E3; exact HF|].
      split; [simpl; congruence|]. auto.
Qed.

Lemma meals_ok_start (d : disk) : meals_ok d (log_meal d).
Proof.
  unfold log_meal.
  destruct (load_dict_data (CUSTOM_FOODS_FILE d)) as [custom|e] eqn:E.
  - split; [constructor|]. split; [reflexivity|].
    split; [reflexivity|]. split; [exists custom; exact E|exact I].
  - split; [constructor|]. split; [reflexivity|]. simpl. auto.
Qed.

Lemma meals_ok_step (d : disk) (now : PyDate.datetime) (p : phase) (v : vars)
    (line : string) :
  meals_ok d (Waiting p v) -> meals_ok d (step now p v line).
Proof.
  intros H. pose proof H as (HF & HK & Hf & Hc & HP). simpl in HF, HK.
  destruct p; cbn [step].
  - destruct (String.eqb (lower (strip line)) "done");
      [apply meals_ok_finish, H|].
    destruct (PyInt.of_string (lower (strip line))) as [n|].
    + destruct ((0 <=? n - 1) && (n - 1 <? Z.of_nat (List.length (foods v))));
        [|exact H].
      destruct (nth_error (foods v) (Z.to_nat (n - 1))) as [food_name|];
        [|exact H].
      destruct (PyDict.get food_name (all_foods v)) as [c|] eqn:Eg; [|exact H].
      split; [exact HF|]. split; [exact HK|]. auto.
    + destruct (PyDict.get (lower (strip line)) (all_foods v)) as [c|] eqn:Eg.
      * split; [exact HF|]. split; [exact HK|]. auto.
      * split; [exact HF|]. split; [exact HK|]. auto.
  - destruct (PyInt.of_string line) as [c|].
    + split; [|split].
      * simpl. rewrite Forall_forall in *. intros m Hm.
        apply meal_ok_set; [exact HP|apply HF, Hm].
      * simpl. rewrite keys_set. unfold PyDict.mem. rewrite HP, HK. reflexivity.
      * split; [exact Hf|]. split; [exact Hc|].
        simpl. rewrite get_set, String.eqb_refl. reflexivity.
    + split; [exact HF|]. split; [exact HK|]. auto.
  - destruct (of_string line) as [grams|].
    + destruct (meal_calories grams calories_per_100g) as [calories|e] eqn:Ec.
      * split; [|split; [exact HK|auto]].
        simpl. apply Forall_app. split; [exact HF|].
        constructor; [|constructor].
        exists calories_per_100g. split; [exact HP|exact Ec].
      * destruct (is_ValueError e).
        -- split; [exact HF|]. split; [exact HK|]. auto.
        -- split; [exact HF|]. split; [exact HK|].
           simpl. rewrite Hf. auto.
    + split; [exact HF|]. split; [exact HK|]. auto.
Qed.

Lemma meals_run_invariant (P : machine -> Prop) :
  (forall now p v line, P (Waiting p v) -> P (step now p v line)) ->
  forall typed m, P m -> P (run m typed).
Proof.
  intros Hstep. induction typed as [|[now line] rest IH]; intros m Hm.
  - destruct m; exact Hm.
  - destruct m as [p v|v|e v]; simpl; try exact Hm.
    apply IH, Hstep, Hm.
Qed.

Lemma filter_all {A : Type} (f : A -> bool) (l : list A) :
  Forall (fun x => f x = true) l -> filter f l = l.
Proof.
  induction 1 as [|x l Hx _ IH]; simpl; [reflexivity|].
  rewrite Hx, IH. reflexivity.
Qed.

Lemma get_update_none {V : Type} (k : string) (d other : dict V) :
  PyDict.get k (PyDict.update d other) = None ->
  PyDict.get k d = None /\ PyDict.get k other = None.
Proof.
  unfold PyDict.update. revert d.
  induction other as [|[k0 v0] r IH]; intros d H; simpl in *; [auto|].
  destruct (IH _ H) as [Hd Hr]. rewrite get_set in Hd.
  destruct (String.eqb k0 k); [discriminate|]. auto.
Qed.

Lemma get_some_key {V : Type} (k : string) (v : V) (d : dict V) :
  PyDict.get k d = Some v -> In k (PyDict.keys d).
Proof.
  intros H. apply get_in in H. apply (in_map fst) in H. exact H.
Qed.

Lemma announced_foods_app (a b : list event) :
  announced_foods (a ++ b) = announced_foods a ++ announced_foods b.
Proof. apply flat_map_app. Qed.

Lemma announced_meals_app (a b : list event) :
  announced_meals (a ++ b) = announced_meals a ++ announced_meals b.
Proof. apply flat_map_app. Qed.

(** Leaving the loop changes none of the variables that were announced,
    and announces no food and no meal. *)
Lemma finish_told (v : vars) :
  all_foods (meal_vars_of (finish v)) = all_foods v
  /\ meals_today (meal_vars_of (finish v)) = meals_today v
  /\ new_custom_foods (meal_vars_of (finish v)) = new_custom_foods v
  /\ announced_foods (printed (meal_vars_of (finish v)))
     = announced_foods (printed v)
  /\ announced_meals (printed (meal_vars_of (finish v)))
     = announced_meals (printed v).
Proof.
  unfold finish.
  destruct (new_custom_foods v) as [|kv r] eqn:En.
  - cbv beta iota. destruct (meals_today v) as [|m ms] eqn:Em; [auto|].
    destruct (load_data (MEALS_FILE (files v))); simpl; [|auto].
    rewrite announced_foods_app, announced_meals_app, !app_nil_r. auto.
  - destruct (load_dict_data (CUSTOM_FOODS_FILE (files v))) as [existing|e];
      simpl bind; cbv beta iota; [|auto].
    simpl meals_today.
    destruct (meals_today v) as [|m ms] eqn:Em; [simpl; auto|].
    destruct (load_data _); simpl; [|auto].
    rewrite announced_foods_app, announced_meals_app, !app_nil_r. auto.
Qed.

Lemma meals_told_step (d : disk) (custom : dict Z) (now : PyDate.datetime)
    (p : phase) (v : vars) (line : string) :
  meals_ok d (Waiting p v) ->
  meals_told custom (Waiting p v) ->
  meals_told custom (step now p v line).
Proof.
  intros (_ & _ & _ & _ & HP) H.
  pose proof H as (HA & HM & HN & HD & HT).
  cbv zeta in HA, HM, HN, HD, HT. simpl meal_vars_of in HA, HM, HN, HD, HT.
  destruct p; cbn [step].
  - destruct (String.eqb (lower (strip line)) "done").
    { destruct (finish_told v) as (E1 & E2 & E3 & E4 & E5).
      unfold meals_told. cbv zeta. rewrite E1, E2, E3, E4, E5.
      auto. }
    destruct (PyInt.of_string (lower (strip line))) as [n|].
    + destruct ((0 <=? n - 1) && (n - 1 <? Z.of_nat (List.length (foods v)))).
      * destruct (nth_error (foods v) (Z.to_nat (n - 1))) as [food_name|];
          [|exact H].
        destruct (PyDict.get food_name (all_foods v)); exact H.
      * unfold meals_told. cbv zeta. simpl.
        rewrite announced_foods_app, announced_meals_app, !app_nil_r. auto.
    + destruct (PyDict.get (lower (strip line)) (all_foods v)); exact H.
  - destruct (PyInt.of_string line) as [c|].
    + assert (Hnew : PyDict.get food_name (new_custom_foods v) = None
                     /\ PyDict.get food_name
                          (PyDict.update CALORIE_DATABASE custom) = None).
      { specialize (HT food_name). rewrite HP in HT.
        destruct (PyDict.get food_name (new_custom_foods v)); [discriminate|].
        auto. }
      destruct Hnew as [Hn1 Hn2].
      assert (Hkeys : PyDict.keys (PyDict.set food_name c (new_custom_foods v))
                      = PyDict.keys (new_custom_foods v) ++ [food_name]).
      { rewrite keys_set. unfold PyDict.mem. rewrite Hn1. reflexivity. }
      unfold meals_told. cbv zeta. simpl. rewrite Hkeys.
      split; [rewrite announced_foods_app, HA; reflexivity|].
      split; [rewrite announced_meals_app, HM, app_nil_r; reflexivity|].
      split.
      { apply NoDup_app; [exact HN|repeat constructor; intros []|].
        intros k Hk [<-|[]]. apply get_none in Hn1. exact (Hn1 Hk). }
      split.
      { intros k Hk. apply in_app_or in Hk.
        destruct Hk as [Hk|[<-|[]]]; [exact (HD k Hk)|exact Hn2]. }
      intros k. rewrite !get_set.
      destruct (String.eqb food_name k); [reflexivity|apply HT].
    + unfold meals_told. cbv zeta. simpl.
      rewrite announced_foods_app, announced_meals_app, !app_nil_r. auto.
  - destruct (of_string line) as [grams|].
    + destruct (meal_calories grams calories_per_100g) as [calories|e].
      * unfold meals_told. cbv zeta. simpl.
        rewrite announced_foods_app, announced_meals_app, app_nil_r, map_app, HM.
        auto.
      * destruct (is_ValueError e); [|exact H].
        unfold meals_told. cbv zeta. simpl.
        rewrite announced_foods_app, announced_meals_app, !app_nil_r. auto.
    + unfold meals_told. cbv zeta. simpl.
      rewrite announced_foods_app, announced_meals_app, !app_nil_r. auto.
Qed.

Lemma meals_told_start (d : disk) (custom : dict Z) :
  load_dict_data (CUSTOM_FOODS_FILE d) = Ok custom ->
  meals_told custom (log_meal d).
Proof.
  intros E. unfold log_meal. rewrite E. unfold meals_told. cbv zeta. simpl.
  split; [reflexivity|]. split; [reflexivity|]. split; [constructor|].
  split; [intros k []|reflexivity].
Qed.

(** X22.  When [log_meal] returns, the custom foods file holds the old
    custom foods, unchanged, followed by the foods the session announced
    as saved, none of which was a built-in or a custom food before; the
    meals file holds the old meals followed by the meals the session
    announced as added, each with the calories of its grams of its food
    in the food table that the files now give; the workouts and templates
    files are as before. *)
Theorem log_meal_result
    (d : disk) (typed : list (PyDate.datetime * string)) (v : vars) :
  run (log_meal d) typed = Returned v ->
  exists custom custom_after added,
    load_dict_data (CUSTOM_FOODS_FILE d) = Ok custom
    /\ load_dict_data (CUSTOM_FOODS_FILE (files v)) = Ok custom_after
    /\ PyDict.keys custom_after
       = PyDict.keys custom ++ announced_foods (printed v)
    /\ (forall k c, PyDict.get k custom = Some c ->
          PyDict.get k custom_after = Some c)
    /\ (forall name, In name (announced_foods (printed v)) ->
          PyDict.get name CALORIE_DATABASE = None
          /\ PyDict.get name custom = None
          /\ exists c, PyDict.get name custom_after = Some c)
    /\ List.map meal_told added = announced_meals (printed v)
    /\ ((added = [] /\ MEALS_FILE (files v) = MEALS_FILE d)
        \/ exists old,
             load_data (MEALS_FILE d) = Ok old
             /\ load_data (MEALS_FILE (files v)) = Ok (old ++ added))
    /\ (NoDup (PyDict.keys custom) ->
          NoDup (PyDict.keys custom_after)
          /\ Forall (meal_ok (PyDict.update CALORIE_DATABASE custom_after)) added)
    /\ WORKOUT_FILE (files v) = WORKOUT_FILE d
    /\ TEMPLATES_FILE (files v) = TEMPLATES_FILE d.
Proof.
  intros E.
  pose proof (meals_run_invariant (meals_ok d) (meals_ok_step d) typed _
                (meals_ok_start d)) as H.
  rewrite E in H. destruct H as (HF & _ & W & T & (custom & Hc & Hafter) & M).
  simpl meal_vars_of in HF.
  assert (Hboth : forall m, meals_ok d m /\ meals_told custom m ->
            meals_ok d (run m typed) /\ meals_told custom (run m typed)).
  { apply (meals_run_invariant (fun m => meals_ok d m /\ meals_told custom m)).
    intros now p v0 line [H1 H2].
    split; [apply meals_ok_step, H1|apply (meals_told_step d), H2; exact H1]. }
  destruct (Hboth _ (conj (meals_ok_start d) (meals_told_start d custom Hc)))
    as [_ Htold].
  rewrite E in Htold. destruct Htold as (HA & HM & HN & HD & HT).
  cbv zeta in HA, HM, HN, HD, HT. simpl meal_vars_of in HA, HM, HN, HD, HT.
  assert (Hfresh : forall k, In k (PyDict.keys (new_custom_foods v)) ->
            PyDict.get k CALORIE_DATABASE = None /\ PyDict.get k custom = None).
  { intros k Hk. exact (get_update_none _ _ _ (HD k Hk)). }
  assert (Hkeys : PyDict.keys (PyDict.update custom (new_custom_foods v))
                  = PyDict.keys custom ++ PyDict.keys (new_custom_foods v)).
  { rewrite (keys_update _ _ HN). f_equal. apply filter_all.
    apply Forall_forall. intros k Hk. unfold PyDict.mem.
    rewrite (proj2 (Hfresh k Hk)). reflexivity. }
  exists custom, (PyDict.update custom (new_custom_foods v)), (meals_today v).
  split; [exact Hc|]. split; [exact Hafter|].
  split; [rewrite HA; exact Hkeys|].
  split.
  { intros k c Hk. rewrite (get_update _ _ _ HN).
    destruct (PyDict.get k (new_custom_foods v)) as [c'|] eqn:En; [|exact Hk].
    apply get_some_key in En. rewrite (proj2 (Hfresh k En)) in Hk. discriminate. }
  split.
  { intros name Hin. rewrite HA in Hin.
    destruct (Hfresh name Hin) as [H1 H2].
    split; [exact H1|]. split; [exact H2|].
    rewrite (get_update _ _ _ HN).
    destruct (PyDict.get name (new_custom_foods v)) as [c|] eqn:En;
      [exists c; reflexivity|].
    apply get_none in En. destruct (En Hin). }
  split; [symmetry; exact HM|].
  split.
  { destruct M as [M|(old & Ho & Hm)]; [left; exact M|].
    right. exists old. split; [exact Ho|]. rewrite Hm. reflexivity. }
  split; [|split; [exact W|exact T]].
  intros Hnd.
  assert (Hnd' : NoDup (PyDict.keys (PyDict.update custom (new_custom_foods v)))).
  { rewrite Hkeys. apply NoDup_app; [exact Hnd|exact HN|].
    intros k Hk1 Hk2. apply get_none in Hk1; [exact Hk1|].
    exact (proj2 (Hfresh k Hk2)). }
  split; [exact Hnd'|].
  assert (Htable : forall k,
            PyDict.get k (PyDict.update CALORIE_DATABASE
                            (PyDict.update custom (new_custom_foods v)))
            = PyDict.get k (all_foods v)).
  { intros k. rewrite (get_update _ _ _ Hnd'), (get_update _ _ _ HN), HT,
      (get_update _ _ _ Hnd).
    destruct (PyDict.get k (new_custom_foods v)); reflexivity. }
  rewrite Forall_forall in *. intros m Hm.
  destruct (HF m Hm) as (c & Hg & Hcal).
  exists c. split; [rewrite Htable; exact Hg|exact Hcal].
Qed.

Lemma log_meal_result_witness :
  exists custom custom_after added,
    load_dict_data (CUSTOM_FOODS_FILE Sample.first_run) = Ok custom
    /\ load_dict_data (CUSTOM_FOODS_FILE (files Examples.after_lunch))
       = Ok custom_after
    /\ PyDict.keys custom_after
       = PyDict.keys custom ++ announced_foods (printed Examples.after_lunch)
    /\ (forall k c, PyDict.get k custom = Some c ->
          PyDict.get k custom_after = Some c)
    /\ (forall name, In name (announced_foods (printed Examples.after_lunch)) ->
          PyDict.get name CALORIE_DATABASE = None
          /\ PyDict.get name custom = None
          /\ exists c, PyDict.get name custom_after = Some c)
    /\ List.map meal_told added = announced_meals (printed Examples.after_lunch)
    /\ ((added = []
         /\ MEALS_FILE (files Examples.after_lunch) = MEALS_FILE Sample.first_run)
        \/ exists old,
             load_data (MEALS_FILE Sample.first_run) = Ok old
             /\ load_data (MEALS_FILE (files Examples.after_lunch))
                = Ok (old ++ added))
    /\ (NoDup (PyDict.keys custom) ->
          NoDup (PyDict.keys custom_after)
          /\ Forall (meal_ok (PyDict.update CALORIE_DATABASE custom_after)) added)
    /\ WORKOUT_FILE (files Examples.after_lunch) = WORKOUT_FILE Sample.first_run
    /\ TEMPLATES_FILE (files Examples.after_lunch)
       = TEMPLATES_FILE Sample.first_run.
Proof.
  apply (log_meal_result Sample.first_run Examples.lunch Examples.after_lunch).
  vm_compute. reflexivity.
Defined.

(** X23.  A custom food shadows the built-in food of the same name, and
    the numbered list shows the built-in foods in table order followed by
    the custom foods that are not built in. *)
Theorem log_meal_food_table (d : disk) (custom : dict Z) :
  load_dict_data (CUSTOM_FOODS_FILE d) = Ok custom ->
  NoDup (PyDict.keys custom) ->
  exists v,
    log_meal d = Waiting Food v
    /\ foods v = PyDict.keys CALORIE_DATABASE
                 ++ filter (fun k => negb (PyDict.mem k CALORIE_DATABASE))
                      (PyDict.keys custom)
    /\ forall name,
         PyDict.get name (all_foods v)
         = match PyDict.get name custom with
           | Some c => Some c
           | None => PyDict.get name CALORIE_DATABASE
           end.
Proof.
  intros Hc Hn. unfold log_meal. rewrite Hc. eexists. split; [reflexivity|].
  cbn [foods all_foods]. split.
  - apply keys_update, Hn.
  - intros name. apply get_update, Hn.
Qed.

Lemma log_meal_food_table_witness :
  exists v,
    log_meal Examples.own_foods = Waiting Food v
    /\ foods v = PyDict.keys CALORIE_DATABASE
                 ++ filter (fun k => negb (PyDict.mem k CALORIE_DATABASE))
                      (PyDict.keys [("lentil soup", 56); ("rice", 111)])
    /\ forall name,
         PyDict.get name (all_foods v)
         = match PyDict.get name [("lentil soup", 56); ("rice", 111)] with
           | Some c => Some c
           | None => PyDict.get name CALORIE_DATABASE
           end.
Proof.
  apply (log_meal_food_table Examples.own_foods [("lentil soup", 56); ("rice", 111)]).
  - reflexivity.
  - repeat constructor; simpl; intuition discriminate.
Defined.

Lemma meals_run_app (m : machine) (a b : list (PyDate.datetime * string)) :
  run m (a ++ b) = run (run m a) b.
Proof.
  revert m. induction a as [|[now line] r IH]; intros m.
  - destruct m; reflexivity.
  - destruct m as [p v|v|e v]; simpl.
    + apply IH.
    + destruct b; reflexivity.
    + destruct b; reflexivity.
Qed.

Lemma infinite_grams_overflow (s : bool) (c : Z) :
  In c (List.map snd CALORIE_DATABASE) ->
  meal_calories (S754_infinity s) c = Raise OverflowError.
Proof.
  intros H. simpl in H.
  repeat (destruct H as [<-|H]; [destruct s; vm_compute; reflexivity|]).
  destruct H.
Qed.

(** X24.  Grams that read as an infinity ("inf", "1e999") stop [log_meal]
    on an overflow error that it does not catch, for a food with any of
    the calorie values of the built-in table: the meals typed so far are
    not written. *)
Theorem log_meal_infinite_grams
    (d : disk) (typed : list (PyDate.datetime * string)) (name : string) (c : Z)
    (v : vars) (now : PyDate.datetime) (line : string) (s : bool) :
  run (log_meal d) typed = Waiting (Grams name c) v ->
  of_string line = Some (S754_infinity s) ->
  In c (List.map snd CALORIE_DATABASE) ->
  run (log_meal d) (typed ++ [(now, line)]) = Crashed OverflowError v
  /\ files v = d.
Proof.
  intros E Hline Hc. rewrite meals_run_app, E. cbn [run step].
  rewrite Hline, (infinite_grams_overflow s c Hc). split; [reflexivity|].
  pose proof (meals_run_invariant (meals_ok d) (meals_ok_step d) typed _
                (meals_ok_start d)) as H.
  rewrite E in H. destruct H as (_ & _ & Hf & _). exact Hf.
Qed.

Lemma log_meal_infinite_grams_witness :
  run (log_meal Sample.first_run)
    ([Examples.typed_at 0 "rice"; Examples.typed_at 1 "200";
      Examples.typed_at 2 "eggs"] ++ [Examples.typed_at 3 "1e999"])
  = Crashed OverflowError
      (meal_vars_of
         (run (log_meal Sample.first_run)
            [Examples.typed_at 0 "rice"; Examples.typed_at 1 "200";
             Examples.typed_at 2 "eggs"]))
  /\ files (meal_vars_of
              (run (log_meal Sample.first_run)
                 [Examples.typed_at 0 "rice"; Examples.typed_at 1 "200";
                  Examples.typed_at 2 "eggs"])) = Sample.first_run.
Proof.
  apply (log_meal_infinite_grams Sample.first_run
           [Examples.typed_at 0 "rice"; Examples.typed_at 1 "200";
            Examples.typed_at 2 "eggs"]
           "eggs" 155 _ _ "1e999" false).
  - reflexivity.
  - vm_compute. reflexivity.
  - vm_compute. tauto.
Defined.

Lemma finish_meals_today (v : vars) :
  meals_today (meal_vars_of (finish v)) = meals_today v.
Proof.
  unfold finish.
  destruct (new_custom_foods v) as [|kv r].
  - cbv beta iota. destruct (meals_today v) as [|m ms] eqn:Em; [exact Em|].
    destruct (load_data (MEALS_FILE (files v))); simpl; congruence.
  - destruct (load_dict_data (CUSTOM_FOODS_FILE (files v))) as [existing|e];
      simpl bind; cbv beta iota; [|reflexivity].
    cbn [meals_today with_files].
    destruct (meals_today v) as [|m ms] eqn:Em; [exact Em|].
    cbn [files with_files save_custom_foods MEALS_FILE].
    destruct (load_data (MEALS_FILE (files v))); simpl; congruence.
Qed.

Lemma meals_dated_step (day : string) (now : PyDate.datetime) (p : phase)
    (v : vars) (line : string) :
  PyDate.strftime_Ymd now = day ->
  Forall (fun m => m_date m = day) (meals_today v) ->
  Forall (fun m => m_date m = day) (meals_today (meal_vars_of (step now p v line))).
Proof.
  intros Hnow H. destruct p; cbn [step].
  - destruct (String.eqb (lower (strip line)) "done");
      [rewrite finish_meals_today; exact H|].
    destruct (PyInt.of_string (lower (strip line))) as [n|].
    + destruct ((0 <=? n - 1) && (n - 1 <? Z.of_nat (List.length (foods v))));
        [|exact H].
      destruct (nth_error (foods v) (Z.to_nat (n - 1))) as [food_name|];
        [|exact H].
      destruct (PyDict.get food_name (all_foods v)); exact H.
    + destruct (PyDict.get (lower (strip line)) (all_foods v)); exact H.
  - destruct (PyInt.of_string line); exact H.
  - destruct (of_string line) as [grams|]; [|exact H].
    destruct (meal_calories grams calories_per_100g) as [calories|e].
    + simpl. apply Forall_app. split; [exact H|].
      constructor; [exact Hnow|constructor].
    + destruct (is_ValueError e); exact H.
Qed.

Lemma meals_dated_run (day : string) (typed : list (PyDate.datetime * string))
    (m : machine) :
  Forall (fun t => PyDate.strftime_Ymd (fst t) = day) typed ->
  Forall (fun x => m_date x = day) (meals_today (meal_vars_of m)) ->
  Forall (fun x => m_date x = day) (meals_today (meal_vars_of (run m typed))).
Proof.
  revert m. induction typed as [|[now line] r IH]; intros m Ht Hm.
  - destruct m; exact Hm.
  - apply Forall_cons_iff in Ht. destruct Ht as [Hnow Hr].
    destruct m as [p v|v|e v]; simpl; try exact Hm.
    apply IH; [exact Hr|]. apply meals_dated_step; assumption.
Qed.

Lemma sum_from (l : list Z) (x : Z) :
  fold_left Z.add l x = x + fold_left Z.add l 0.
Proof.
  revert x. induction l as [|y l IH]; intros x; simpl; [lia|].
  rewrite IH, (IH y). lia.
Qed.

Lemma sum_calories (l : list meal) (a : Z) :
  fold_left (fun total m => total + m_calories m) l a
  = a + fold_left Z.add (List.map m_calories l) 0.
Proof.
  revert a. induction l as [|m r IH]; intros a; simpl; [lia|].
  rewrite IH, (sum_from _ (m_calories m)). lia.
Qed.

Lemma sum_app (a b : list Z) :
  fold_left Z.add (a ++ b) 0 = fold_left Z.add a 0 + fold_left Z.add b 0.
Proof. rewrite fold_left_app, sum_from. reflexivity. Qed.

Lemma view_calories_stored (d : disk) (now : PyDate.datetime)
    (meals today_meals : list meal) :
  MEALS_FILE d = Stored meals ->
  filter (fun m => String.eqb (m_date m) (PyDate.strftime_Ymd now)) meals
  = today_meals ->
  today_meals <> [] ->
  view_calories d now =
    Ok ([CaloriesBanner; MealsOn (PyDate.strftime_Ymd now)]
        ++ List.map MealLine today_meals
        ++ [TotalRule;
            Total (fold_left (fun total m => total + m_calories m) today_meals 0);
            if 0 <? 2000 - fold_left (fun total m => total + m_calories m)
                             today_meals 0
            then Remaining
                   (2000 - fold_left (fun total m => total + m_calories m)
                             today_meals 0)
            else GoalReached
                   (- (2000 - fold_left (fun total m => total + m_calories m)
                                today_meals 0))]).
Proof.
  intros Em Ef Hne. unfold view_calories. rewrite Em.
  cbv beta iota zeta delta [load_data exists_ open_and_json_load bind].
  rewrite Ef. destruct today_meals; [congruence|reflexivity].
Qed.

(** X25.  After a meal log whose lines were all typed today, the calorie
    view of today shows the calories eaten today before the log plus those
    of the meals of the log, and measures that total against the goal of
    2000. *)
Theorem log_meal_then_view_calories
    (d : disk) (typed : list (PyDate.datetime * string)) (v : vars)
    (now : PyDate.datetime) (old : list meal) :
  run (log_meal d) typed = Returned v ->
  Forall (fun t => PyDate.strftime_Ymd (fst t) = PyDate.strftime_Ymd now) typed ->
  load_data (MEALS_FILE d) = Ok old ->
  meals_today v <> [] ->
  exists lines,
    view_calories (files v) now = Ok lines
    /\ let total := eaten_on (PyDate.strftime_Ymd now) old
                    + fold_left Z.add (List.map m_calories (meals_today v)) 0 in
       In (Total total) lines
       /\ List.last lines CaloriesBanner
          = if total <? 2000 then Remaining (2000 - total)
            else GoalReached (total - 2000).
Proof.
  intros E Hday Hold Hne.
  pose proof (meals_run_invariant (meals_ok d) (meals_ok_step d) typed _
                (meals_ok_start d)) as H.
  pose proof (meals_dated_run (PyDate.strftime_Ymd now) typed (log_meal d) Hday)
    as Hd.
  rewrite E in H, Hd. destruct H as (_ & _ & _ & _ & _ & M). simpl in Hd.
  assert (Hstart : Forall (fun x => m_date x = PyDate.strftime_Ymd now)
                     (meals_today (meal_vars_of (log_meal d)))).
  { unfold log_meal. destruct (load_dict_data (CUSTOM_FOODS_FILE d)); constructor. }
  specialize (Hd Hstart).
  destruct M as [[Hnil _]|(old' & Ho & Hm)]; [congruence|].
  assert (old' = old) by congruence. subst old'.
  set (day := PyDate.strftime_Ymd now) in *.
  set (before := filter (fun m => String.eqb (m_date m) day) old).
  assert (Hfilter : filter (fun m => String.eqb (m_date m) day)
                      (old ++ meals_today v) = before ++ meals_today v).
  { rewrite filter_app. f_equal. apply filter_all.
    rewrite Forall_forall in *. intros x Hx. apply String.eqb_eq, Hd, Hx. }
  assert (Hne' : before ++ meals_today v <> []).
  { intros Eall. apply app_eq_nil in Eall. tauto. }
  rewrite (view_calories_stored (files v) now _ _ Hm Hfilter Hne').
  eexists. split; [reflexivity|]. cbv zeta.
  assert (Etotal : fold_left (fun total m => total + m_calories m)
                     (before ++ meals_today v) 0
                   = eaten_on day old
                     + fold_left Z.add (List.map m_calories (meals_today v)) 0).
  { rewrite sum_calories, map_app, sum_app. unfold eaten_on. fold before. lia. }
  rewrite Etotal.
  set (total := eaten_on day old
                + fold_left Z.add (List.map m_calories (meals_today v)) 0).
  split.
  - apply in_or_app. right. apply in_or_app. right. right. left. reflexivity.
  - rewrite app_assoc.
    change [TotalRule; Total total;
            if 0 <? 2000 - total then Remaining (2000 - total)
            else GoalReached (- (2000 - total))]
      with ([TotalRule; Total total]
            ++ [if 0 <? 2000 - total then Remaining (2000 - total)
                else GoalReached (- (2000 - total))]).
    rewrite app_assoc, last_last.
    destruct (Z.ltb_spec 0 (2000 - total)); destruct (Z.ltb_spec total 2000);
      try lia; [reflexivity|f_equal; lia].
Qed.

Lemma log_meal_then_view_calories_witness :
  exists lines,
    view_calories (files Examples.after_lunch) Sample.march_1st = Ok lines
    /\ let total := eaten_on (PyDate.strftime_Ymd Sample.march_1st) []
                    + fold_left Z.add
                        (List.map m_calories (meals_today Examples.after_lunch)) 0 in
       In (Total total) lines
       /\ List.last lines CaloriesBanner
          = if total <? 2000 then Remaining (2000 - total)
            else GoalReached (total - 2000).
Proof.
  apply (log_meal_then_view_calories Sample.first_run Examples.lunch
           Examples.after_lunch Sample.march_1st []).
  - vm_compute. reflexivity.
  - repeat constructor.
  - reflexivity.
  - discriminate.
Defined.

End MealExtras.

Section ViewExtras.

Import PyFloat PyList Catalog Dialogue Persist Views.

Lemma add_record_get (ex ex' : string) (r : Chart.record)
    (groups : dict (list Chart.record)) :
  PyDict.get ex' (add_record ex r groups)
  = if String.eqb ex ex'
    then Some (match PyDict.get ex groups with
               | Some rs => rs ++ [r]
               | None => [r]
               end)
    else PyDict.get ex' groups.
Proof.
  induction groups as [|[k rs] g IH]; simpl.
  - destruct (String.eqb ex ex'); reflexivity.
  - destruct (String.eqb k ex) eqn:E0; simpl.
    + apply String.eqb_eq in E0. subst k.
      destruct (String.eqb ex ex'); reflexivity.
    + rewrite IH. destruct (String.eqb ex ex') eqn:E1; [|reflexivity].
      apply String.eqb_eq in E1. subst ex'. rewrite E0. reflexivity.
Qed.

Lemma add_record_keys (ex : string) (r : Chart.record)
    (groups : dict (list Chart.record)) :
  NoDup (PyDict.keys groups) -> NoDup (PyDict.keys (add_record ex r groups)).
Proof.
  unfold PyDict.keys.
  induction groups as [|[k rs] g IH]; simpl; intros H.
  - constructor; [intros []|constructor].
  - apply NoDup_cons_iff in H. destruct H as [Hk Hg].
    destruct (String.eqb k ex) eqn:E; simpl.
    + constructor; assumption.
    + constructor; [|apply IH, Hg].
      intros I. apply Hk.
      assert (Hget : PyDict.get k (add_record ex r g) <> None).
      { intros Hn. apply get_none in Hn. apply Hn. exact I. }
      rewrite add_record_get in Hget.
      rewrite String.eqb_sym in E. rewrite E in Hget.
      destruct (in_dec string_dec k (List.map fst g)) as [Hin|Hout]; [exact Hin|].
      apply (proj2 (get_none k g)) in Hout. congruence.
Qed.

Lemma in_get {V : Type} (k : string) (v : V) (d : dict V) :
  NoDup (PyDict.keys d) -> In (k, v) d -> PyDict.get k d = Some v.
Proof.
  unfold PyDict.keys.
  induction d as [|[k0 v0] r IH]; simpl; intros H I; [destruct I|].
  apply NoDup_cons_iff in H. destruct H as [Hn Hr].
  destruct I as [E|I].
  - injection E as -> ->. rewrite String.eqb_refl. reflexivity.
  - destruct (String.eqb k0 k) eqn:E; [|apply IH; assumption].
    apply String.eqb_eq in E. subst k0. exfalso. apply Hn.
    apply in_map_iff. exists (k, v). auto.
Qed.

(** One pass of the grouping loop of [view_progress]. *)
Lemma group_step (groups : dict (list Chart.record)) (w : workout) :
  match PR.parse_weight (PR.get_weight w "") with
  | Some weight =>
      if truthy weight
      then add_record (w_exercise w)
             {| Chart.r_weight := weight; Chart.r_date := w_date w;
                Chart.r_sets := w_sets w; Chart.r_reps := w_reps w |}
             groups
      else groups
  | None => groups
  end
  = match weighted w with
    | r :: _ => add_record (w_exercise w) r groups
    | [] => groups
    end.
Proof.
  unfold weighted.
  destruct (PR.parse_weight (PR.get_weight w "")) as [weight|]; [|reflexivity].
  destruct (truthy weight); reflexivity.
Qed.

Lemma weighted_one (w : workout) :
  weighted w = [] \/ exists r, weighted w = [r].
Proof.
  unfold weighted.
  destruct (PR.parse_weight (PR.get_weight w "")) as [weight|]; [|auto].
  destruct (truthy weight); [right; eexists; reflexivity|auto].
Qed.

Lemma grouping_fold (ws seen : list workout) (groups : dict (list Chart.record)) :
  NoDup (PyDict.keys groups) ->
  (forall ex, PyDict.get ex groups
              = match records_of ex seen with
                | [] => None
                | rs => Some rs
                end) ->
  let result :=
    fold_left
      (fun groups w =>
         match PR.parse_weight (PR.get_weight w "") with
         | Some weight =>
             if truthy weight
             then add_record (w_exercise w)
                    {| Chart.r_weight := weight; Chart.r_date := w_date w;
                       Chart.r_sets := w_sets w; Chart.r_reps := w_reps w |}
                    groups
             else groups
         | None => groups
         end)
      ws groups in
  NoDup (PyDict.keys result)
  /\ forall ex, PyDict.get ex result
                = match records_of ex (seen ++ ws) with
                  | [] => None
                  | rs => Some rs
                  end.
Proof.
  revert seen groups. induction ws as [|w r IH]; intros seen groups Hn Hg.
  - simpl. rewrite app_nil_r. auto.
  - cbn [fold_left]. rewrite group_step.
    replace (seen ++ w :: r) with ((seen ++ [w]) ++ r)
      by (rewrite <- app_assoc; reflexivity).
    apply IH.
    + destruct (weighted w) as [|rec t]; [exact Hn|apply add_record_keys, Hn].
    + intros ex. unfold records_of. rewrite flat_map_app. fold (records_of ex seen).
      cbn [flat_map]. rewrite app_nil_r.
      destruct (weighted_one w) as [E|[rec E]]; rewrite E.
      * destruct (String.eqb (w_exercise w) ex); rewrite app_nil_r; apply Hg.
      * rewrite add_record_get.
        destruct (String.eqb (w_exercise w) ex) eqn:Ee.
        -- apply String.eqb_eq in Ee. subst ex. rewrite Hg.
           destruct (records_of (w_exercise w) seen); reflexivity.
        -- rewrite app_nil_r. apply Hg.
Qed.

Lemma exercises_with_weights_groups (workouts : list workout) :
  NoDup (PyDict.keys (exercises_with_weights workouts))
  /\ forall ex, PyDict.get ex (exercises_with_weights workouts)
                = match records_of ex workouts with
                  | [] => None
                  | rs => Some rs
                  end.
Proof.
  apply (grouping_fold workouts [] []); [constructor|reflexivity].
Qed.

Lemma best_record_fold (l seen : list Chart.record) (m : Chart.record) :
  In m seen ->
  (forall y, In y seen -> gtb (Chart.r_weight y) (Chart.r_weight m) = false) ->
  In (best_record m l) (seen ++ l)
  /\ forall y, In y (seen ++ l) ->
       gtb (Chart.r_weight y) (Chart.r_weight (best_record m l)) = false.
Proof.
  revert seen m. induction l as [|z l IH]; intros seen m Hm Hseen.
  - rewrite app_nil_r. simpl. auto.
  - unfold best_record. cbn [fold_left].
    change (In (best_record
                  (if gtb (Chart.r_weight z) (Chart.r_weight m) then z else m) l)
               (seen ++ z :: l)
            /\ forall y, In y (seen ++ z :: l) ->
                 gtb (Chart.r_weight y)
                   (Chart.r_weight
                      (best_record
                         (if gtb (Chart.r_weight z) (Chart.r_weight m)
                          then z else m) l)) = false).
    replace (seen ++ z :: l) with ((seen ++ [z]) ++ l)
      by (rewrite <- app_assoc; reflexivity).
    apply IH.
    + destruct (gtb (Chart.r_weight z) (Chart.r_weight m));
        apply in_or_app; [right; left; reflexivity|left; exact Hm].
    + intros y Hy. apply in_app_or in Hy.
      destruct (gtb (Chart.r_weight z) (Chart.r_weight m)) eqn:Ez;
        destruct Hy as [Hy|[<-|[]]].
      * eapply gtb_raise; [apply Hseen; exact Hy|exact Ez].
      * apply ltb_irrefl.
      * auto.
      * exact Ez.
Qed.

Lemma best_record_greatest (first : Chart.record) (rest : list Chart.record) :
  In (best_record first rest) (first :: rest)
  /\ forall y, In y (first :: rest) ->
       gtb (Chart.r_weight y) (Chart.r_weight (best_record first rest)) = false.
Proof.
  apply (best_record_fold rest [first] first); [left; reflexivity|].
  intros y [<-|[]]. apply ltb_irrefl.
Qed.

Lemma record_lines_in (groups : dict (list Chart.record)) (ex : string)
    (best : Chart.record) :
  In (RecordLine ex best) (record_lines groups) <->
  exists first rest, In (ex, first :: rest) groups
                     /\ best = best_record first rest.
Proof.
  unfold record_lines. rewrite in_flat_map. split.
  - intros ([k rs] & Hin & Hl).
    apply (Permutation_in _ (sorted_by_perm _ _ groups)) in Hin.
    simpl in Hl. destruct rs as [|first rest]; [destruct Hl|].
    destruct Hl as [E|[]]. injection E as -> Eb. exists first, rest. auto.
  - intros (first & rest & Hin & E). exists (ex, first :: rest). split.
    + apply (Permutation_in _ (Permutation_sym (sorted_by_perm _ _ groups))), Hin.
    + left. rewrite E. reflexivity.
Qed.

(** What [view_progress] prints when it returns. *)
Lemma view_progress_out (d : disk) (inputs : list string) (out : list line)
    (rest : list string) :
  view_progress d inputs = Ok (Returns tt out rest) ->
  exists workouts,
    load_data (WORKOUT_FILE d) = Ok workouts
    /\ ((workouts = [] /\ out = [ProgressBanner; NoWorkoutsYet])
        \/ (exercises_with_weights workouts = []
            /\ out = [ProgressBanner; NoWeighted])
        \/ exists chart,
             out = [ProgressBanner; RecordsHeader]
                   ++ record_lines (exercises_with_weights workouts)
                   ++ [SelectChart (PyDict.keys (exercises_with_weights workouts))]
                   ++ List.map ChartLine chart).
Proof.
  unfold view_progress.
  destruct (load_data (WORKOUT_FILE d)) as [workouts|e];
    cbv beta iota delta [bind]; [|discriminate].
  intros H. exists workouts. split; [reflexivity|].
  destruct workouts as [|w ws] eqn:Ew.
  { injection H as <- <-. auto. }
  rewrite <- Ew in *. clear Ew.
  destruct (exercises_with_weights workouts) as [|g gs] eqn:Eg.
  { injection H as <- <-. auto. }
  rewrite <- Eg in *. clear Eg.
  right. right.
  assert (Hplain : forall r,
            Ok (Returns tt
                  ([ProgressBanner; RecordsHeader]
                   ++ record_lines (exercises_with_weights workouts)
                   ++ [SelectChart (PyDict.keys (exercises_with_weights workouts))])
                  r) = Ok (Returns tt out rest) ->
            exists chart,
              out = [ProgressBanner; RecordsHeader]
                    ++ record_lines (exercises_with_weights workouts)
                    ++ [SelectChart (PyDict.keys (exercises_with_weights workouts))]
                    ++ List.map ChartLine chart).
  { intros r E. exists []. simpl List.map. rewrite app_nil_r. congruence. }
  destruct inputs as [|line1 rest1]; [discriminate|].
  destruct (PyInt.of_string line1) as [choice|]; [|apply (Hplain _ H)].
  destruct (_ && _); [|apply (Hplain _ H)].
  destruct (nth_error _ _) as [exercise|]; [|apply (Hplain _ H)].
  destruct (PyDict.get exercise _) as [records|]; [|apply (Hplain _ H)].
  exists (Chart.show_progress_chart exercise records).
  assert (E : forall a b : list line, Ok (Returns tt a rest1)
                = Ok (Returns tt b rest) -> b = a) by (intros; congruence).
  rewrite (E _ _ H). rewrite <- !app_assoc. reflexivity.
Qed.

(** X26.  [view_progress] groups the entries by the exact spelling of the
    exercise name, keeping those whose weight parses to a non-zero value:
    each exercise with such an entry gets one record line, and the record
    shown is one of its entries that none of them exceeds. *)
Theorem view_progress_records
    (d : disk) (inputs : list string) (out : list line) (rest : list string) :
  view_progress d inputs = Ok (Returns tt out rest) ->
  exists workouts,
    load_data (WORKOUT_FILE d) = Ok workouts
    /\ (forall ex best, In (RecordLine ex best) out ->
          In best (records_of ex workouts)
          /\ forall r, In r (records_of ex workouts) ->
               gtb (Chart.r_weight r) (Chart.r_weight best) = false)
    /\ (forall ex, records_of ex workouts <> [] ->
          exists best, In (RecordLine ex best) out).
Proof.
  intros H. destruct (view_progress_out _ _ _ _ H) as (workouts & Hl & Hout).
  exists workouts. split; [exact Hl|].
  destruct (exercises_with_weights_groups workouts) as [Hn Hg].
  destruct Hout as [[-> ->]|[[Eg ->]|[chart ->]]].
  - split.
    + intros ex best [E|[E|[]]]; discriminate.
    + intros ex Hne. exfalso. apply Hne. reflexivity.
  - split.
    + intros ex best [E|[E|[]]]; discriminate.
    + intros ex Hne. exfalso. specialize (Hg ex). rewrite Eg in Hg.
      destruct (records_of ex workouts); [congruence|discriminate].
  - assert (Hin : forall ex best,
              In (RecordLine ex best)
                 ([ProgressBanner; RecordsHeader]
                  ++ record_lines (exercises_with_weights workouts)
                  ++ [SelectChart (PyDict.keys (exercises_with_weights workouts))]
                  ++ List.map ChartLine chart)
              <-> In (RecordLine ex best)
                    (record_lines (exercises_with_weights workouts))).
    { intros ex best. rewrite !in_app_iff. split; [|auto].
      intros [[E|[E|[]]]|[I|[[E|[]]|I]]]; try discriminate; [exact I|].
      apply in_map_iff in I. destruct I as (x & E & _). discriminate. }
    split.
    + intros ex best I. apply Hin, record_lines_in in I.
      destruct I as (first & rs & I & ->).
      apply (in_get _ _ _ Hn) in I. rewrite Hg in I.
      destruct (records_of ex workouts) as [|a l] eqn:Er; [discriminate|].
      injection I as -> ->. apply best_record_greatest.
    + intros ex Hne. specialize (Hg ex).
      destruct (records_of ex workouts) as [|a l] eqn:Er; [congruence|].
      exists (best_record a l). apply Hin, record_lines_in.
      exists a, l. split; [apply get_in, Hg|reflexivity].
Qed.

Lemma view_progress_records_witness :
  exists workouts,
    load_data (WORKOUT_FILE Examples.mixed_spelling) = Ok workouts
    /\ (forall ex best, In (RecordLine ex best) Examples.mixed_spelling_progress ->
          In best (records_of ex workouts)
          /\ forall r, In r (records_of ex workouts) ->
               gtb (Chart.r_weight r) (Chart.r_weight best) = false)
    /\ (forall ex, records_of ex workouts <> [] ->
          exists best, In (RecordLine ex best) Examples.mixed_spelling_progress).
Proof.
  apply (view_progress_records Examples.mixed_spelling ["1"]
           Examples.mixed_spelling_progress []).
  vm_compute. reflexivity.
Defined.

Lemma shown_of_entries (workouts : list workout) :
  shown_entries (show_entries workouts) = rev (last_n 10 workouts).
Proof.
  unfold show_entries, shown_entries.
  induction (rev (last_n 10 workouts)) as [|w r IH]; [reflexivity|].
  simpl. f_equal. exact IH.
Qed.

Lemma typed_part_in (inputs : list string) (part : string) :
  typed_part inputs = Some part -> In part (PyDict.keys BODY_PARTS).
Proof.
  unfold typed_part.
  destruct inputs as [|line1 [|line2 rest]]; try discriminate.
  destruct (String.eqb (PyStr.strip line1) "2"); [|discriminate].
  destruct (PyInt.of_string line2) as [n|]; [|discriminate].
  destruct ((1 <=? n) && (n <=? 6)); [|discriminate].
  apply nth_error_In.
Qed.

Lemma part_number_bounds (n : Z) :
  (0 <=? n - 1) && (n - 1 <? Z.of_nat (List.length (PyDict.keys BODY_PARTS)))
  = (1 <=? n) && (n <=? 6).
Proof.
  change (Z.of_nat (List.length (PyDict.keys BODY_PARTS))) with 6.
  destruct (Z.leb_spec 0 (n - 1)), (Z.ltb_spec (n - 1) 6),
    (Z.leb_spec 1 n), (Z.leb_spec n 6); simpl; try reflexivity; lia.
Qed.

(** The last step of the view: the entries of [sel] are shown after what
    was printed before. *)
Lemma history_finish (sel : list workout) (o out : list line) (r rest : list string) :
  shown_entries o = [] ->
  match sel with
  | [] => Ok (Returns tt (o ++ [NoMatching]) r)
  | _ :: _ => Ok (Returns tt (o ++ show_entries sel) r)
  end = Ok (Returns tt out rest) ->
  shown_entries out = rev (last_n 10 sel) /\ (forall l, In l o -> In l out).
Proof.
  intros Ho E. destruct sel as [|w ws] eqn:Es.
  - injection E as <- <-. split.
    + unfold shown_entries in *. rewrite flat_map_app, Ho. reflexivity.
    + intros l Hl. apply in_or_app. left. exact Hl.
  - rewrite <- Es in *. injection E as <- <-. split.
    + unfold shown_entries at 1. rewrite flat_map_app.
      fold (shown_entries o). fold (shown_entries (show_entries sel)).
      rewrite Ho, shown_of_entries. reflexivity.
    + intros l Hl. apply in_or_app. left. exact Hl.
Qed.

(** X27.  [view_workout_history] shows stored entries only, the latest
    first and ten at most: when "2" and then the number of a body part are
    typed, the last ten stored entries of that body part, under its
    heading; on any other answer the last ten of the file. *)
Theorem view_workout_history_shows
    (d : disk) (inputs : list string) (out : list line) (rest : list string) :
  view_workout_history d inputs = Ok (Returns tt out rest) ->
  exists workouts,
    load_data (WORKOUT_FILE d) = Ok workouts
    /\ shown_entries out
       = rev (last_n 10 (selected_entries (typed_part inputs) workouts))
    /\ (List.length (shown_entries out) <= 10)%nat
    /\ (forall part, typed_part inputs = Some part ->
          In part (PyDict.keys BODY_PARTS)
          /\ (workouts <> [] -> In (PartHeader part) out))
    /\ (typed_part inputs = None -> forall part, ~ In (PartHeader part) out).
Proof.
  unfold view_workout_history.
  destruct (load_data (WORKOUT_FILE d)) as [workouts|e];
    cbv beta iota delta [bind]; [|discriminate].
  intros H. exists workouts. split; [reflexivity|].
  assert (Hlen : forall sel : list workout,
            (List.length (rev (last_n 10 sel)) <= 10)%nat).
  { intros sel. rewrite length_rev. unfold last_n. rewrite length_skipn. lia. }
  assert (Hgoal : shown_entries out
                  = rev (last_n 10 (selected_entries (typed_part inputs) workouts))
                  /\ (forall part, typed_part inputs = Some part ->
                        workouts <> [] -> In (PartHeader part) out)
                  /\ (typed_part inputs = None ->
                        forall part, ~ In (PartHeader part) out)).
  2:{ destruct Hgoal as (Es & Hh & Hn). split; [exact Es|].
      split; [rewrite Es; apply Hlen|]. split; [|exact Hn].
      intros part Hp. split; [exact (typed_part_in _ _ Hp)|exact (Hh part Hp)]. }
  destruct workouts as [|w0 ws0] eqn:Ew.
  { injection H as <- <-.
    split; [destruct (typed_part inputs); reflexivity|].
    split; [intros part _ C; congruence|].
    intros _ part [C|[C|[]]]; discriminate. }
  rewrite <- Ew in *. clear Ew.
  assert (Hnone : forall (o : list line) (r : list string),
            typed_part inputs = None ->
            shown_entries o = [] ->
            (forall part, ~ In (PartHeader part) o) ->
            Ok (Returns tt (o ++ show_entries workouts) r)
            = Ok (Returns tt out rest) ->
            shown_entries out
            = rev (last_n 10 (selected_entries (typed_part inputs) workouts))
            /\ (forall part, typed_part inputs = Some part ->
                  workouts <> [] -> In (PartHeader part) out)
            /\ (typed_part inputs = None ->
                  forall part, ~ In (PartHeader part) out)).
  { intros o r Et Ho Hno E. rewrite Et. injection E as <- <-.
    split.
    { unfold shown_entries at 1. rewrite flat_map_app.
      fold (shown_entries o). fold (shown_entries (show_entries workouts)).
      rewrite Ho, shown_of_entries. reflexivity. }
    split; [discriminate|].
    intros _ part Hin.
    apply in_app_or in Hin. destruct Hin as [Hin|Hin]; [exact (Hno part Hin)|].
    unfold show_entries in Hin. apply in_flat_map in Hin.
    destruct Hin as (w' & _ & [C|[C|[]]]); discriminate. }
  destruct inputs as [|line1 rest1]; [discriminate|].
  destruct (String.eqb (PyStr.strip line1) "2") eqn:E1.
  - destruct rest1 as [|line2 rest2]; [discriminate|].
    destruct (PyInt.of_string line2) as [n|] eqn:E2.
    + rewrite part_number_bounds in H.
      destruct ((1 <=? n) && (n <=? 6)) eqn:E3.
      * destruct (nth_error (PyDict.keys BODY_PARTS) (Z.to_nat (n - 1)))
          as [body_part|] eqn:E4.
        -- assert (Et : typed_part (line1 :: line2 :: rest2) = Some body_part).
           { unfold typed_part. rewrite E1, E2, E3. exact E4. }
           rewrite Et.
           pose proof (fun Ho => history_finish _ _ _ _ _ Ho H) as Hf.
           destruct (Hf eq_refl) as [Es Hin].
           split; [exact Es|]. split; [|discriminate].
           intros part Ep _. injection Ep as <-.
           apply Hin. apply in_or_app. right. left. reflexivity.
        -- eapply Hnone; [| | |exact H].
           ++ unfold typed_part. rewrite E1, E2, E3. exact E4.
           ++ reflexivity.
           ++ intros part [C|[C|[C|[]]]]; discriminate.
      * eapply Hnone; [| | |exact H].
        -- unfold typed_part. rewrite E1, E2, E3. reflexivity.
        -- reflexivity.
        -- intros part [C|[C|[C|[]]]]; discriminate.
    + eapply Hnone; [| | |exact H].
      * unfold typed_part. rewrite E1, E2. reflexivity.
      * reflexivity.
      * intros part [C|[C|[C|[C|[]]]]]; discriminate.
  - eapply Hnone; [| | |exact H].
    + unfold typed_part. destruct rest1; [reflexivity|]. rewrite E1. reflexivity.
    + reflexivity.
    + intros part [C|[C|[C|[]]]]; discriminate.
Qed.

Lemma view_workout_history_shows_witness :
  exists workouts,
    load_data (WORKOUT_FILE Examples.busy_week) = Ok workouts
    /\ shown_entries Examples.legs_history
       = rev (last_n 10 (selected_entries (typed_part ["2"; "6"]) workouts))
    /\ (List.length (shown_entries Examples.legs_history) <= 10)%nat
    /\ (forall part, typed_part ["2"; "6"] = Some part ->
          In part (PyDict.keys BODY_PARTS)
          /\ (workouts <> [] -> In (PartHeader part) Examples.legs_history))
    /\ (typed_part ["2"; "6"] = None ->
        forall part, ~ In (PartHeader part) Examples.legs_history).
Proof.
  apply (view_workout_history_shows Examples.busy_week ["2"; "6"]
           Examples.legs_history []).
  vm_compute. reflexivity.
Defined.

(** X28.  A template that was saved can be used: after [save_template] the
    templates file holds the template under its name, the other templates
    and the other files are as before, and [use_template] returns it when
    its number is typed. *)
Theorem template_round_trip
    (d d' : disk) (now : PyDate.datetime) (name : string)
    (muscles : list string) (exercises : list (string * string)) :
  save_template d now name muscles exercises = Ok d' ->
  let t := {| t_muscles := muscles; t_exercises := exercises;
              t_created := PyDate.strftime_Ymd now |} in
  exists templates,
    load_templates d = Ok templates
    /\ load_templates d' = Ok (PyDict.set name t templates)
    /\ PyDict.get name (PyDict.set name t templates) = Some t
    /\ (forall other, other <> name ->
          PyDict.get other (PyDict.set name t templates)
          = PyDict.get other templates)
    /\ WORKOUT_FILE d' = WORKOUT_FILE d
    /\ MEALS_FILE d' = MEALS_FILE d
    /\ CUSTOM_FOODS_FILE d' = CUSTOM_FOODS_FILE d
    /\ exists number,
         1 <= number <= Z.of_nat (List.length (PyDict.set name t templates))
         /\ forall line rest,
              PyInt.of_string line = Some number ->
              use_template d' (line :: rest)
              = Ok (Returns (Some t)
                      [TemplatesBanner;
                       TemplateList (PyDict.set name t templates)] rest).
Proof.
  unfold save_template.
  destruct (load_templates d) as [templates|e] eqn:El;
    cbv beta iota delta [bind]; [|discriminate].
  intros H. injection H as <-. cbv zeta.
  set (t := {| t_muscles := muscles; t_exercises := exercises;
               t_created := PyDate.strftime_Ymd now |}).
  exists templates. split; [reflexivity|]. split; [reflexivity|].
  assert (Hget : PyDict.get name (PyDict.set name t templates) = Some t)
    by (rewrite get_set, String.eqb_refl; reflexivity).
  split; [exact Hget|]. split.
  { intros other Hne. rewrite get_set.
    destruct (String.eqb name other) eqn:E; [|reflexivity].
    apply String.eqb_eq in E. congruence. }
  split; [reflexivity|]. split; [reflexivity|]. split; [reflexivity|].
  assert (Hin : In name (PyDict.keys (PyDict.set name t templates))).
  { destruct (in_dec string_dec name (PyDict.keys (PyDict.set name t templates)))
      as [I|N]; [exact I|].
    apply (proj2 (get_none _ _)) in N. congruence. }
  apply In_nth_error in Hin. destruct Hin as [n Hn].
  assert (Hlt : (n < List.length (PyDict.keys (PyDict.set name t templates)))%nat).
  { apply nth_error_Some. congruence. }
  unfold PyDict.keys in Hlt. rewrite length_map in Hlt.
  exists (Z.of_nat n + 1). split; [lia|].
  intros line rest Hline. unfold use_template, load_templates.
  cbn [TEMPLATES_FILE save_templates load_dict_data exists_ open_and_json_load].
  cbv beta iota delta [bind].
  destruct (PyDict.set name t templates) as [|kv r] eqn:Es.
  { simpl in Hlt. lia. }
  rewrite <- Es in *. rewrite Hline.
  unfold PyDict.keys at 1. rewrite length_map.
  replace ((1 <=? Z.of_nat n + 1)
           && (Z.of_nat n + 1 <=? Z.of_nat (List.length (PyDict.set name t templates))))
    with true
    by (symmetry; apply andb_true_iff; split; apply Z.leb_le; lia).
  replace (Z.to_nat (Z.of_nat n + 1 - 1)) with n by lia.
  rewrite Hn, Hget. reflexivity.
Qed.

Lemma template_round_trip_witness :
  let t := {| t_muscles := ["legs"]; t_exercises := [("Squat", "legs")];
              t_created := PyDate.strftime_Ymd Sample.march_1st |} in
  exists templates,
    load_templates Sample.first_run = Ok templates
    /\ load_templates (save_templates [("Leg day", t)] Sample.first_run)
       = Ok (PyDict.set "Leg day" t templates)
    /\ PyDict.get "Leg day" (PyDict.set "Leg day" t templates) = Some t
    /\ (forall other, other <> "Leg day" ->
          PyDict.get other (PyDict.set "Leg day" t templates)
          = PyDict.get other templates)
    /\ WORKOUT_FILE (save_templates [("Leg day", t)] Sample.first_run)
       = WORKOUT_FILE Sample.first_run
    /\ MEALS_FILE (save_templates [("Leg day", t)] Sample.first_run)
       = MEALS_FILE Sample.first_run
    /\ CUSTOM_FOODS_FILE (save_templates [("Leg day", t)] Sample.first_run)
       = CUSTOM_FOODS_FILE Sample.first_run
    /\ exists number,
         1 <= number <= Z.of_nat (List.length (PyDict.set "Leg day" t templates))
         /\ forall line rest,
              PyInt.of_string line = Some number ->
              use_template (save_templates [("Leg day", t)] Sample.first_run)
                (line :: rest)
              = Ok (Returns (Some t)
                      [TemplatesBanner;
                       TemplateList (PyDict.set "Leg day" t templates)] rest).
Proof.
  apply (template_round_trip Sample.first_run _ Sample.march_1st "Leg day"
           ["legs"] [("Squat", "legs")]).
  reflexivity.
Defined.

End ViewExtras.

Section SessionAndStreak.

Import PyStr PyList PyDate Weekly Catalog Dialogue Persist Session.

Lemma date_part_of_stamp (now : datetime) :
  slice_to 10 (strftime_Ymd_HM now) = strftime_Ymd now.
Proof. reflexivity. Qed.

Lemma session_dated_step (day : string) (now : datetime) (p : phase) (v : vars)
    (line : string) :
  strftime_Ymd now = day ->
  Forall (fun w => date_part w = day) (session_workouts v) ->
  Forall (fun w => date_part w = day)
    (session_workouts (vars_of (step now p v line))).
Proof.
  intros Hnow H. destruct p; cbn [step].
  - destruct (muscle_choice line) as [[[part|]|] o]; try exact H.
    unfold begin. constructor.
  - destruct (combo_choice selected line) as [[sel|] o]; [|exact H].
    unfold begin. destruct sel as [|a r]; [constructor|].
    destruct (get_exercises_for_muscles (a :: r)); constructor.
  - destruct (PyInt.of_string line) as [choice|]; [|exact H].
    destruct (choice =? Z.of_nat (List.length (available v)) + 2).
    { unfold workout_done.
      destruct (session_workouts v) as [|w ws] eqn:Es; [simpl; rewrite Es; exact H|].
      rewrite <- Es in H |- *.
      destruct (load_data (WORKOUT_FILE (files v))) as [workouts|e]; [exact H|].
      destruct (is_ValueError e); exact H. }
    destruct (choice =? Z.of_nat (List.length (available v)) + 1); [exact H|].
    destruct ((1 <=? choice) && (choice <=? Z.of_nat (List.length (available v))));
      [|exact H].
    destruct (nth_error (available v) (Z.to_nat (choice - 1))) as [[ex bp]|];
      exact H.
  - exact H.
  - destruct (positive_number line); exact H.
  - destruct (positive_number line); exact H.
  - exact H.
  - unfold log_entry.
    destruct (PR.check_pr (files v) exercise weight) as [[is_pr old]|e];
      [|exact H].
    simpl. apply Forall_app. split; [exact H|].
    constructor; [|constructor].
    unfold date_part. simpl w_date. rewrite date_part_of_stamp. exact Hnow.
  - exact H.
  - destruct (String.eqb (lower line) "y"); exact H.
  - destruct (strip line) as [|c name']; [exact H|].
    destruct (save_template _ _ _ _ _) as [d'|e]; [exact H|].
    destruct (is_ValueError e); exact H.
Qed.

Lemma session_dated_run (day : string) (typed : list (datetime * string))
    (m : machine) :
  Forall (fun t => strftime_Ymd (fst t) = day) typed ->
  Forall (fun w => date_part w = day) (session_workouts (vars_of m)) ->
  Forall (fun w => date_part w = day) (session_workouts (vars_of (run m typed))).
Proof.
  revert m. induction typed as [|[now line] r IH]; intros m Ht Hm.
  - destruct m; exact Hm.
  - apply Forall_cons_iff in Ht. destruct Ht as [Hnow Hr].
    destruct m as [p v|v|e v|v]; simpl; try exact Hm.
    apply IH; [exact Hr|]. apply session_dated_step; assumption.
Qed.

Lemma session_dated_start (day : string) (d : disk) (t : option template) :
  Forall (fun w => date_part w = day)
    (session_workouts (vars_of (log_workout d t))).
Proof.
  destruct t as [tm|]; simpl; [|constructor].
  unfold begin. destruct (t_muscles tm) as [|a r]; [constructor|].
  destruct (get_exercises_for_muscles (a :: r)); constructor.
Qed.

(** X29.  Finishing a session today lengthens the streak by one day: on
    files that can be read and whose entries are all dated before today,
    after a session typed today that logged an entry and returned, the
    workouts file gives a streak one day longer than before. *)
Theorem session_extends_streak
    (d : disk) (h : list workout) (dates : list datetime) (ts : dict template)
    (template : option template) (typed : list (datetime * string))
    (now : datetime) (v : vars) (streak : Z) :
  load_data (WORKOUT_FILE d) = Ok h ->
  load_templates d = Ok ts ->
  clock_ok now 1 ->
  logged_on h dates ->
  (forall day, In day (List.map toordinal dates) -> day < toordinal now) ->
  Forall (fun t => strftime_Ymd (fst t) = strftime_Ymd now) typed ->
  run (log_workout d template) typed = Returned v ->
  session_workouts v <> [] ->
  calculate_streak now h = Ok streak ->
  exists h',
    load_data (WORKOUT_FILE (files v)) = Ok h'
    /\ calculate_streak now h' = Ok (streak + 1).
Proof.
  intros Hw Ht Hc Hl Hlt Hday E Hne.
  rewrite (calculate_streak_refines now h dates Hc Hl).
  intros Es. injection Es as <-.
  assert (Hstart : clean_ok d h (log_workout d template)).
  { destruct template as [tm|]; [apply clean_ok_begin|reflexivity]. }
  pose proof (run_invariant (clean_ok d h)
                (fun now p v line => clean_ok_step d h ts now p v line Hw Ht)
                typed _ Hstart) as HS.
  pose proof (session_dated_run (strftime_Ymd now) typed _ Hday
                (session_dated_start _ d template)) as Hd.
  rewrite E in HS, Hd. simpl in Hd.
  destruct HS as [[Enil _]|(_ & Hstore & _)]; [congruence|].
  exists (h ++ session_workouts v). split; [rewrite Hstore; reflexivity|].
  assert (Hl' : logged_on (h ++ session_workouts v)
                  (dates ++ List.map (fun _ => now) (session_workouts v))).
  { apply Forall2_app; [exact Hl|].
    clear Hne Hstore E. induction Hd as [|w ws Hwd _ IH]; [constructor|].
    simpl. constructor; [|exact IH]. split; [apply Hc|exact Hwd]. }
  rewrite (calculate_streak_refines now _ _ Hc Hl').
  f_equal.
  rewrite <- (Z.add_comm 1), <- (streak_spec_today _ _ Hlt).
  apply streak_spec_ext. intros day.
  rewrite map_app, !in_app_iff, map_map. split.
  - intros [I|I]; [left; exact I|]. right.
    apply in_map_iff in I. destruct I as (w & <- & _). left. reflexivity.
  - intros [I|[<-|[]]]; [left; exact I|]. right.
    destruct (session_workouts v) as [|w ws]; [congruence|].
    left. reflexivity.
Qed.

Lemma session_extends_streak_witness :
  exists h',
    load_data
      (WORKOUT_FILE
         (files (vars_of (run (log_workout
                                 (Sample.disk_of [Sample.session "2024-02-29 18:30"])
                                 None)
                            Examples.leg_day)))) = Ok h'
    /\ calculate_streak Sample.march_1st h' = Ok (1 + 1).
Proof.
  apply (session_extends_streak
           (Sample.disk_of [Sample.session "2024-02-29 18:30"])
           [Sample.session "2024-02-29 18:30"] [Sample.on_day 2024 2 29] []
           None Examples.leg_day Sample.march_1st _ 1).
  - reflexivity.
  - reflexivity.
  - split; [reflexivity|vm_compute; discriminate].
  - repeat constructor.
  - intros day [<-|[]]. vm_compute. reflexivity.
  - repeat constructor.
  - vm_compute. reflexivity.
  - vm_compute. discriminate.
  - reflexivity.
Defined.

End SessionAndStreak.
